(** * hisobot: the expense bot's conversation engine (src/bot.py)

    A shallow embedding of [bot.py]: Python strings are sequences of Unicode
    code points, amounts are IEEE 754 binary64 values (Rocq's [spec_float]
    at precision 53), the Supabase tables are lists of rows, and the
    handlers run in a small state-and-exception monad over the store, the
    printed log, the clock and the outbox of sent messages. *)

From Stdlib Require Import ZArith NArith List Bool Lia Ascii.
From Stdlib Require String.
Import String.StringSyntax.
Delimit Scope string_scope with string.
From Stdlib Require Import SpecFloat Sorted Permutation.
From Stdlib Require Decimal DecimalN.
Import ListNotations.


(** ** Python strings *)

Module Str.

(** A [str] is a sequence of code points. *)
Definition char := N.
Definition str := list char.

(** A Rocq literal read as a [str] (ASCII literals only; other characters of
    the source are written as code points). *)
Definition lit (s : String.string) : str :=
  map N_of_ascii (String.list_ascii_of_string s).

Arguments lit s%_string : simpl never.

Fixpoint eqb (a b : str) : bool :=
  match a, b with
  | [], [] => true
  | x :: a', y :: b' => N.eqb x y && eqb a' b'
  | _, _ => false
  end.

(** [Py_UNICODE_ISSPACE]: the characters removed by [str.strip()] and
    separating the words of [str.split()]. *)
Definition isspace (c : char) : bool :=
  ((9 <=? c) && (c <=? 13) || (28 <=? c) && (c <=? 32)
   || (c =? 133) || (c =? 160) || (c =? 5760)
   || (8192 <=? c) && (c <=? 8202) || (c =? 8232) || (c =? 8233)
   || (c =? 8239) || (c =? 8287) || (c =? 12288))%N.

Fixpoint lstrip (s : str) : str :=
  match s with
  | [] => []
  | c :: s' => if isspace c then lstrip s' else s
  end.

Definition rstrip (s : str) : str := rev (lstrip (rev s)).

(** [s.strip()] *)
Definition strip (s : str) : str := rstrip (lstrip s).

(** [s.split()]: the maximal runs of non-space characters; [cur] is the
    word being read, reversed. *)
Fixpoint split_from (cur : str) (s : str) : list str :=
  match s with
  | [] => match cur with [] => [] | _ => [rev cur] end
  | c :: s' =>
      if isspace c
      then match cur with
           | [] => split_from [] s'
           | _ => rev cur :: split_from [] s'
           end
      else split_from (c :: cur) s'
  end.

Definition split (s : str) : list str := split_from [] s.

(** [sep.join(ws)] *)
Fixpoint join (sep : str) (ws : list str) : str :=
  match ws with
  | [] => []
  | [w] => w
  | w :: ws' => w ++ sep ++ join sep ws'
  end.

(** [s.replace(old, new)] for one-character [old] and [new]. *)
Definition replace (old new : char) (s : str) : str :=
  map (fun c => if (c =? old)%N then new else c) s.

(** [s[i:j]] for [0 <= i <= j]. *)
Definition slice (i j : nat) (s : str) : str := firstn (j - i) (skipn i s).

Fixpoint of_uint (d : Decimal.uint) : str :=
  match d with
  | Decimal.Nil => []
  | Decimal.D0 d => 48%N :: of_uint d
  | Decimal.D1 d => 49%N :: of_uint d
  | Decimal.D2 d => 50%N :: of_uint d
  | Decimal.D3 d => 51%N :: of_uint d
  | Decimal.D4 d => 52%N :: of_uint d
  | Decimal.D5 d => 53%N :: of_uint d
  | Decimal.D6 d => 54%N :: of_uint d
  | Decimal.D7 d => 55%N :: of_uint d
  | Decimal.D8 d => 56%N :: of_uint d
  | Decimal.D9 d => 57%N :: of_uint d
  end.

Definition of_N (n : N) : str := of_uint (N.to_uint n).

(** [str(z)] for an [int]. *)
Definition of_int (z : Z) : str :=
  if (z <? 0)%Z then 45%N :: of_N (Z.abs_N z) else of_N (Z.to_N z).

(** ["%0wd" % n] for a natural [n]. *)
Definition zfill (w : nat) (s : str) : str := repeat 48%N (w - length s) ++ s.

End Str.

Import Str.

(** ** Python floats: IEEE 754 binary64 *)

Module Float.

Definition float := spec_float.

Definition prec : Z := 53.
Definition emax : Z := 1024.

Definition zero : float := S754_zero false.

Definition add (x y : float) : float := SFadd prec emax x y.

(** [x < y] *)
Definition ltb (x y : float) : bool := SFltb x y.

(** The binary64 value nearest to [n / d] (ties to even), with sign [s];
    larger than every finite value it is an infinity. *)
Definition of_ratio (s : bool) (n d : positive) : float :=
  SFdiv prec emax (S754_finite s n 0) (S754_finite false d 0).

(** The binary64 value nearest to [n * 10 ^ e]. *)
Definition of_decimal (s : bool) (n : Z) (e : Z) : float :=
  match (n * 10 ^ Z.max e 0)%Z, (10 ^ Z.max (- e) 0)%Z with
  | Zpos p, Zpos q => of_ratio s p q
  | _, _ => S754_zero s
  end.

(** [num / den] rounded to the nearest integer, ties to even ([0 < den]). *)
Definition round_half_even (num den : Z) : Z :=
  let q := (num / den)%Z in
  let r := (num mod den)%Z in
  match (2 * r ?= den)%Z with
  | Lt => q
  | Gt => (q + 1)%Z
  | Eq => if Z.even q then q else (q + 1)%Z
  end.

(** The exact value [m * 2 ^ e] in hundredths, rounded half to even: the
    digits that [dtoa] in mode 3 with two places produces. *)
Definition hundredths (m : positive) (e : Z) : Z :=
  round_half_even (100 * Zpos m * 2 ^ Z.max e 0) (2 ^ Z.max (- e) 0).

(** [round(x, 2)]: non-finite values and zeros round to themselves; a
    finite value is printed with two places and read back. *)
Definition round2 (x : float) : float :=
  match x with
  | S754_finite s m e =>
      match hundredths m e with
      | Zpos k => of_ratio s k 100
      | _ => S754_zero s
      end
  | _ => x
  end.

Definition sign_str (s : bool) : str := if s then lit "-" else [].

(** [f"{x:.2f}"] *)
Definition format_2f (x : float) : str :=
  match x with
  | S754_nan => lit "nan"
  | S754_infinity s => sign_str s ++ lit "inf"
  | S754_zero s => sign_str s ++ lit "0.00"
  | S754_finite s m e =>
      let k := hundredths m e in
      sign_str s ++ Str.of_N (Z.to_N (k / 100)) ++ lit "."
        ++ Str.zfill 2 (Str.of_N (Z.to_N (k mod 100)))
  end.

(** [bool(x)]: false exactly for the two zeros. *)
Definition truthy (x : float) : bool :=
  match x with
  | S754_zero _ => false
  | _ => true
  end.

(** [sum(xs)] for floats: the additions from left to right, starting at
    the integer [0], as CPython computes it up to version 3.11 (later
    versions compensate the rounding errors of the additions). *)
Definition sum (xs : list float) : float := fold_left add xs zero.

End Float.

Import Float.

(** ** [float(s)] for a string *)

Module PyFloat.

Section Parse.

(** [Py_UNICODE_TODECIMAL] on the characters from 127 on: the decimal value
    of a character of Unicode category Nd.  The table depends on the Unicode
    version of the interpreter and is left open. *)
Variable unicode_decimal : char -> option N.

(** [_PyUnicode_TransformDecimalAndSpaceToASCII] on a string that is not
    all ASCII: spaces become [' '], decimal digits their ASCII digit, and
    the string is cut after the first other character, replaced by ['?']. *)
Fixpoint transform (s : str) : str :=
  match s with
  | [] => []
  | c :: s' =>
      if (c <? 127)%N then c :: transform s'
      else if Str.isspace c then 32%N :: transform s'
      else match unicode_decimal c with
           | Some d => (48 + d)%N :: transform s'
           | None => [63%N]
           end
  end.

Definition to_ascii (s : str) : str :=
  if forallb (fun c => (c <? 128)%N) s then s else transform s.

(** [Py_ISSPACE] *)
Definition isspace_ascii (c : char) : bool :=
  ((9 <=? c) && (c <=? 13) || (c =? 32))%N.

Fixpoint lstrip_ascii (s : str) : str :=
  match s with
  | [] => []
  | c :: s' => if isspace_ascii c then lstrip_ascii s' else s
  end.

Definition rstrip_ascii (s : str) : str := rev (lstrip_ascii (rev s)).

Definition isdigit (c : char) : bool := ((48 <=? c) && (c <=? 57))%N.

(** [_Py_string_to_number_with_underscores]: an underscore is dropped when
    it stands between two digits and is an error anywhere else; [prev] is
    the previous character, [0] at the start. *)
Fixpoint strip_underscores (prev : char) (s : str) : option str :=
  match s with
  | [] => if (prev =? 95)%N then None else Some []
  | c :: s' =>
      if (c =? 95)%N
      then if isdigit prev then strip_underscores c s' else None
      else if (prev =? 95)%N && negb (isdigit c) then None
      else option_map (cons c) (strip_underscores c s')
  end.

(** The longest prefix of digits, as digit values, and the rest. *)
Fixpoint span_digits (s : str) : list Z * str :=
  match s with
  | [] => ([], [])
  | c :: s' =>
      if isdigit c
      then let '(ds, r) := span_digits s' in ((Z.of_N c - 48)%Z :: ds, r)
      else ([], s)
  end.

Definition value_of (ds : list Z) : Z :=
  fold_left (fun acc d => (10 * acc + d)%Z) ds 0%Z.

Fixpoint drop_zeros (ds : list Z) : list Z :=
  match ds with
  | 0%Z :: ds' => drop_zeros ds'
  | _ => ds
  end.

Definition parse_sign (s : str) : bool * str :=
  match s with
  | 45%N :: s' => (true, s')
  | 43%N :: s' => (false, s')
  | _ => (false, s)
  end.

Definition MAX_DIGITS : Z := 1000000000.
Definition MAX_ABS_EXP : Z := 1100000000.

(** The exponent part at the head of [s], if there is one: its value and
    the rest.  An ['e'] that no digit follows is not consumed. *)
Definition parse_exponent (s : str) : Z * str :=
  match s with
  | c :: s1 =>
      if (c =? 101)%N || (c =? 69)%N
      then let '(esign, s2) := parse_sign s1 in
           let '(ds, s3) := span_digits s2 in
           match ds with
           | [] => (0%Z, s)
           | _ =>
               let sig := drop_zeros ds in
               let abs_exp :=
                 if (9 <? Z.of_nat (length sig))%Z
                    || (MAX_ABS_EXP <? value_of sig)%Z
                 then MAX_ABS_EXP else value_of sig in
               ((if esign then - abs_exp else abs_exp)%Z, s3)
           end
      else (0%Z, s)
  | [] => (0%Z, s)
  end.

(** [_Py_dg_strtod]: the value of the longest decimal literal at the head
    of [s], correctly rounded, and the rest; [None] when [s] does not start
    with one. *)
Definition strtod (s : str) : option (float * str) :=
  let '(sign, s1) := parse_sign s in
  let '(ip, s2) := span_digits s1 in
  let '(fp, s3) :=
    match s2 with
    | 46%N :: s2' => span_digits s2'
    | _ => ([], s2)
    end in
  match ip ++ fp with
  | [] => None
  | ds =>
      if (MAX_DIGITS <? Z.of_nat (length (drop_zeros ds)))%Z
         || (MAX_DIGITS <? Z.of_nat (length fp))%Z
      then None
      else let '(e, s4) := parse_exponent s3 in
           Some (Float.of_decimal sign (value_of ds)
                   (e - Z.of_nat (length fp)), s4)
  end.

Definition tolower (c : char) : char :=
  if ((65 <=? c) && (c <=? 90))%N then (c + 32)%N else c.

(** [case_insensitive_match]: [s] without the prefix [t] (in lower case). *)
Fixpoint match_prefix (t s : str) : option str :=
  match t, s with
  | [], _ => Some s
  | a :: t', c :: s' =>
      if (tolower c =? a)%N then match_prefix t' s' else None
  | _ :: _, [] => None
  end.

(** [_Py_parse_inf_or_nan] *)
Definition parse_inf_or_nan (s : str) : option (float * str) :=
  let '(negate, s1) := parse_sign s in
  match match_prefix (lit "inf") s1 with
  | Some s2 =>
      match match_prefix (lit "inity") s2 with
      | Some s3 => Some (S754_infinity negate, s3)
      | None => Some (S754_infinity negate, s2)
      end
  | None =>
      match match_prefix (lit "nan") s1 with
      | Some s2 => Some (S754_nan, s2)
      | None => None
      end
  end.

(** [float_from_string_inner]: the whole string has to be consumed. *)
Definition from_string_inner (s : str) : option float :=
  match strtod s with
  | Some (x, []) => Some x
  | Some (_, _ :: _) => None
  | None =>
      match parse_inf_or_nan s with
      | Some (x, []) => Some x
      | _ => None
      end
  end.

(** [float(s)]; [None] stands for [ValueError]. *)
Definition float_of_str (s : str) : option float :=
  match lstrip_ascii (to_ascii s) with
  | [] => None
  | s1 =>
      match strip_underscores 0%N (rstrip_ascii s1) with
      | Some s2 => from_string_inner s2
      | None => None
      end
  end.

End Parse.

End PyFloat.

(** ** Dates and times (UTC) *)

Module Time.

Record datetime := {
  year : Z; month : Z; day : Z;
  hour : Z; minute : Z; second : Z; microsecond : Z
}.

(** A calendar date: year, month, day. *)
Definition date := (Z * Z * Z)%type.

(** What [datetime.now(timezone.utc)] can return, as far as the handlers
    look at it. *)
Definition valid (t : datetime) : bool :=
  ((1 <=? year t) && (year t <=? 9999) && (1 <=? month t) && (month t <=? 12))%Z.

(** [datetime(y, m, 1, tzinfo=timezone.utc)]; [None] stands for the
    [ValueError] of a year or month out of range. *)
Definition first_of_month (y m : Z) : option datetime :=
  if ((1 <=? y) && (y <=? 9999) && (1 <=? m) && (m <=? 12))%Z
  then Some {| year := y; month := m; day := 1;
               hour := 0; minute := 0; second := 0; microsecond := 0 |}
  else None.

(** [t.date()] *)
Definition date_of (t : datetime) : date := (year t, month t, day t).

Definition date_eqb (a b : date) : bool :=
  let '(y1, m1, d1) := a in
  let '(y2, m2, d2) := b in
  ((y1 =? y2) && (m1 =? m2) && (d1 =? d2))%Z.

Definition fields (t : datetime) : list Z :=
  [year t; month t; day t; hour t; minute t; second t; microsecond t].

Fixpoint lex_leb (a b : list Z) : bool :=
  match a, b with
  | x :: a', y :: b' => ((x <? y) || ((x =? y) && lex_leb a' b'))%Z
  | _, _ => true
  end.

(** [a <= b] as instants. *)
Definition leb (a b : datetime) : bool := lex_leb (fields a) (fields b).

Definition pad (w : nat) (n : Z) : str := Str.zfill w (Str.of_N (Z.to_N n)).

(** [d.isoformat()], for instance [2024-05-01]. *)
Definition date_isoformat (d : date) : str :=
  let '(y, m, dd) := d in
  pad 4 y ++ lit "-" ++ pad 2 m ++ lit "-" ++ pad 2 dd.

(** [t.isoformat()] for an aware UTC datetime; the store returns its
    timestamps in the same layout. *)
Definition isoformat (t : datetime) : str :=
  date_isoformat (date_of t) ++ lit "T"
    ++ pad 2 (hour t) ++ lit ":" ++ pad 2 (minute t) ++ lit ":"
    ++ pad 2 (second t)
    ++ (if (microsecond t =? 0)%Z then []
        else lit "." ++ pad 6 (microsecond t))
    ++ lit "+00:00".

End Time.

(** ** The record store *)

(** The tables of the Supabase project are declared outside [bot.py]; their
    columns are the ones the requests of [bot.py] name, their keys and
    nullable columns follow the data model of the spec. *)

Module User.
(** Modelled from the spec: the declaration of [exp_users] (User), unique
    in [tg_user_id]; [id] is assigned by the store. *)
Record row := { id : Z; tg_user_id : Z; tg_chat_id : Z }.
End User.

Module State.
(** Modelled from the spec: the declaration of [exp_bot_state]
    (PendingAction), unique in [user_id], the conflict target of the
    upsert; [pending_action] and [temp_amount] may be null. *)
Record row := {
  user_id : Z;
  pending_action : option str;
  temp_amount : option float;
  updated_at : Time.datetime
}.
End State.

Module Expense.
(** Modelled from the spec: the declaration of [exp_expenses] (Expense);
    every expense has an amount. *)
Record row := {
  user_id : Z;
  amount : float;
  title : str;
  created_at : Time.datetime
}.
End Expense.

Module Total.
(** Modelled from the spec: the declaration of [exp_monthly_totals]
    (MonthlyTotal), keyed by user and month start; [total] may be null. *)
Record row := { user_id : Z; month_start : Time.date; total : option float }.
End Total.

Module Db.

Record t := {
  exp_users : list User.row;
  exp_users_seq : Z;   (* the next [id] the store assigns *)
  exp_bot_state : list State.row;
  exp_expenses : list Expense.row;
  exp_monthly_totals : list Total.row
}.

(** [.maybe_single()]: no row, the row, or an error for several rows. *)
Definition maybe_single {A} (rows : list A) : option (option A) :=
  match rows with
  | [] => Some None
  | [r] => Some (Some r)
  | _ => None
  end.

(** [.order("created_at", desc=True)], by insertion; rows of the same
    instant keep their order. *)
Fixpoint insert_desc (r : Expense.row) (l : list Expense.row) : list Expense.row :=
  match l with
  | [] => [r]
  | x :: l' =>
      if Time.leb (Expense.created_at x) (Expense.created_at r)
      then r :: l
      else x :: insert_desc r l'
  end.

Definition order_desc (l : list Expense.row) : list Expense.row :=
  fold_right insert_desc [] l.

(** [.eq("user_id", uid).gte("created_at", since)] on [exp_expenses]. *)
Definition expenses_since (uid : Z) (since : Time.datetime) (d : t)
  : list Expense.row :=
  filter (fun r => (Expense.user_id r =? uid)%Z
                   && Time.leb since (Expense.created_at r))
         (exp_expenses d).

(** The requests [bot.py] builds, indexed by the type of their [data]. *)
Inductive query : Type -> Type :=
| users_select_id (tg : Z) : query (option Z)
| users_update_chat (uid chat : Z) : query unit
| users_insert (tg chat : Z) : query (list User.row)
| state_upsert (r : State.row) : query unit
| state_select (uid : Z) : query (option State.row)
| state_delete (uid : Z) : query unit
| expenses_insert (uid : Z) (amount : option float) (title : str)
    (created_at : Time.datetime) : query unit
| expenses_list (uid : Z) (since : Time.datetime) (limit : nat)
    : query (list Expense.row)
| expenses_amounts (uid : Z) (since : Time.datetime) : query (list float)
| totals_get (uid : Z) (month_start : Time.date) : query (option (option float)).

Definition with_users (d : t) (us : list User.row) (seq : Z) : t :=
  {| exp_users := us; exp_users_seq := seq;
     exp_bot_state := exp_bot_state d; exp_expenses := exp_expenses d;
     exp_monthly_totals := exp_monthly_totals d |}.

Definition with_state (d : t) (st : list State.row) : t :=
  {| exp_users := exp_users d; exp_users_seq := exp_users_seq d;
     exp_bot_state := st; exp_expenses := exp_expenses d;
     exp_monthly_totals := exp_monthly_totals d |}.

Definition with_expenses (d : t) (es : list Expense.row) : t :=
  {| exp_users := exp_users d; exp_users_seq := exp_users_seq d;
     exp_bot_state := exp_bot_state d; exp_expenses := es;
     exp_monthly_totals := exp_monthly_totals d |}.

Definition owns (uid : Z) (r : State.row) : bool := (State.user_id r =? uid)%Z.

(** [.upsert(r, on_conflict="user_id")]: the row of that user is replaced,
    or [r] is added when there is none. *)
Definition upsert (r : State.row) (st : list State.row) : list State.row :=
  if existsb (owns (State.user_id r)) st
  then map (fun x => if owns (State.user_id r) x then r else x) st
  else st ++ [r].

(** [q.execute()] when the store answers: the data and the store after it;
    [None] when the store rejects the request: several rows for
    [maybe_single()], a second user with the same [tg_user_id], an expense
    without an amount. *)
Definition execute {A} (q : query A) (d : t) : option (A * t) :=
  match q in query A return option (A * t) with
  | users_select_id tg =>
      match maybe_single
              (filter (fun r => (User.tg_user_id r =? tg)%Z) (exp_users d)) with
      | Some r => Some (option_map User.id r, d)
      | None => None
      end
  | users_update_chat uid chat =>
      Some (tt, with_users d
                  (map (fun r => if (User.id r =? uid)%Z
                                 then {| User.id := User.id r;
                                         User.tg_user_id := User.tg_user_id r;
                                         User.tg_chat_id := chat |}
                                 else r) (exp_users d))
                  (exp_users_seq d))
  | users_insert tg chat =>
      if existsb (fun r => (User.tg_user_id r =? tg)%Z) (exp_users d)
      then None
      else let r := {| User.id := exp_users_seq d; User.tg_user_id := tg;
                       User.tg_chat_id := chat |} in
           Some ([r], with_users d (exp_users d ++ [r]) (exp_users_seq d + 1)%Z)
  | state_upsert r => Some (tt, with_state d (upsert r (exp_bot_state d)))
  | state_select uid =>
      match maybe_single (filter (owns uid) (exp_bot_state d)) with
      | Some r => Some (r, d)
      | None => None
      end
  | state_delete uid =>
      Some (tt, with_state d (filter (fun r => negb (owns uid r)) (exp_bot_state d)))
  | expenses_insert uid amount title created_at =>
      match amount with
      | Some a =>
          Some (tt, with_expenses d
                      (exp_expenses d
                         ++ [{| Expense.user_id := uid; Expense.amount := a;
                                Expense.title := title;
                                Expense.created_at := created_at |}]))
      | None => None
      end
  | expenses_list uid since limit =>
      Some (firstn limit (order_desc (expenses_since uid since d)), d)
  | expenses_amounts uid since =>
      Some (map Expense.amount (expenses_since uid since d), d)
  | totals_get uid month_start =>
      match maybe_single
              (filter (fun r => (Total.user_id r =? uid)%Z
                                && Time.date_eqb (Total.month_start r) month_start)
                      (exp_monthly_totals d)) with
      | Some r => Some (option_map Total.total r, d)
      | None => None
      end
  end.

End Db.

(** ** The world of a handler and its monad *)

(** A message sent through the gateway: [bot.send_message], or
    [bot.reply_to] when [reply_to] names the message answered. *)
Record outbound := {
  to_chat : Z;
  body : str;
  reply_to_message : option Z;
  reply_markup : bool   (* [reply_markup=kb], the three-button keyboard *)
}.

(** An inbound text message. *)
Record message := {
  message_id : Z;
  from_user_id : Z;   (* [message.from_user.id] *)
  chat_id : Z;        (* [message.chat.id] *)
  text : str
}.

Record world := {
  store : Db.t;
  requests : list (str * bool);  (* label and failure of every [supa_exec] so far *)
  ticks : nat;                   (* readings of the clock so far *)
  outbox : list outbound
}.

Inductive exn := TypeError | ValueError.

Inductive res (A : Type) :=
| Val (a : A)
| Exc (e : exn).

Arguments Val {A} a.
Arguments Exc {A} e.

Definition M (A : Type) := world -> res A * world.

Definition ret {A} (a : A) : M A := fun w => (Val a, w).

Definition raise {A} (e : exn) : M A := fun w => (Exc e, w).

Definition bind {A B} (m : M A) (f : A -> M B) : M B :=
  fun w =>
    match m w with
    | (Val a, w') => f a w'
    | (Exc e, w') => (Exc e, w')
    end.

Declare Scope py_scope.
Delimit Scope py_scope with py.

Notation "x <- c1 ;; c2" := (bind c1 (fun x => c2))
  (at level 61, c1 at next level, right associativity) : py_scope.
Notation "' pat <- c1 ;; c2" := (bind c1 (fun x => match x with pat => c2 end))
  (at level 61, pat pattern, c1 at next level, right associativity) : py_scope.
Notation "c1 ;; c2" := (bind c1 (fun _ => c2))
  (at level 61, right associativity) : py_scope.

Local Open Scope py_scope.

(** The world after a run, and its result. *)
Definition exec {A} (m : M A) (w : world) : world := snd (m w).
Definition eval {A} (m : M A) (w : world) : res A := fst (m w).

Definition with_store (w : world) (d : Db.t) (rq : list (str * bool)) : world :=
  {| store := d; requests := rq; ticks := ticks w; outbox := outbox w |}.

(** [bot.send_message(chat_id, text)], with [reply_markup=kb] when [kb]. *)
Definition send_message (chat : Z) (body : str) (kb : bool) : M unit :=
  fun w =>
    (Val tt,
     {| store := store w; requests := requests w; ticks := ticks w;
        outbox := outbox w ++ [{| to_chat := chat; body := body;
                                  reply_to_message := None;
                                  reply_markup := kb |}] |}).

(** [bot.reply_to(message, text)] *)
Definition reply_to (m : message) (body : str) : M unit :=
  fun w =>
    (Val tt,
     {| store := store w; requests := requests w; ticks := ticks w;
        outbox := outbox w ++ [{| to_chat := chat_id m; body := body;
                                  reply_to_message := Some (message_id m);
                                  reply_markup := false |}] |}).

(** ** The texts of the bot *)

(** The literal texts of the handlers. *)
Definition ADD_EXPENSE : str := lit "Add expense".
Definition SEE_EXPENSES : str := lit "See expenses".
Definition SEE_LAST_MONTH : str := lit "See last month".
Definition AWAIT_AMOUNT : str := lit "await_amount".
Definition AWAIT_TITLE : str := lit "await_title".

Definition msg_denied : str := lit "This bot is private. Access denied.".
Definition msg_access_error : str := lit "Access error (not whitelisted in DB).".
Definition msg_welcome : str :=
  lit "Welcome! Use the buttons below " ++ [128071%N].
Definition msg_send_amount : str := lit "Send the amount (e.g., 23.50)".
Definition msg_invalid_amount : str := lit "Invalid amount. Try again, e.g. 12.30".
Definition msg_title_empty : str := lit "Title can't be empty. Send a short title.".
Definition msg_save_failed : str := lit "Save failed. Check logs.".
Definition msg_fallback : str := lit "Use the buttons below to add or view expenses.".

(** [f"Amount: {amt:.2f} ✅\nNow send the title (e.g., Groceries)"] *)
Definition msg_amount_ok (amt : float) : str :=
  lit "Amount: " ++ Float.format_2f amt ++ lit " " ++ [9989%N; 10%N]
    ++ lit "Now send the title (e.g., Groceries)".

(** [f'Saved ✅ {amt:.2f} — "{title}"'] *)
Definition msg_saved (amt : float) (title : str) : str :=
  lit "Saved " ++ [9989%N] ++ lit " " ++ Float.format_2f amt ++ lit " "
    ++ [8212%N] ++ lit " " ++ [34%N] ++ title ++ [34%N].

(** [f"• {float(r['amount']):.2f} — {r['title']} ({d})"] with
    [d = r["created_at"][5:10]] *)
Definition report_line (r : Expense.row) : str :=
  [8226%N] ++ lit " " ++ Float.format_2f (Expense.amount r) ++ lit " "
    ++ [8212%N] ++ lit " " ++ Expense.title r ++ lit " ("
    ++ Str.slice 5 10 (Time.isoformat (Expense.created_at r)) ++ lit ")".

(** The text of the month-to-date report: its [lines], joined. *)
Definition report_text (total : float) (items : list Expense.row) : str :=
  Str.join [10%N]
    ((lit "This month total: " ++ Float.format_2f total)
       :: match items with
          | [] => [lit "(no items yet)"]
          | _ => map report_line items
          end).

(** [f"Your expenses for {last_start[:7]}: {total:.2f}"] *)
Definition msg_last_month (last_start : str) (total : float) : str :=
  lit "Your expenses for " ++ Str.slice 0 7 last_start ++ lit ": "
    ++ Float.format_2f total.

(** ** Sample data *)

(** 23.5 = 47 * 2^-1, in binary64 with mantissa 47 * 2^47. *)
Definition f_23_50 : float := S754_finite false 6614661952700416 (-48).

(** An interpreter whose [float()] knows the ASCII digits only. *)
Definition ascii_digits : char -> option N := fun _ => None.

Definition allow_42 : list str := [lit "42"].

Definition never (n : nat) : bool := false.

(** The request number [k] fails, the others are applied. *)
Definition only (k : nat) (n : nat) : bool := Nat.eqb n k.

Definition t_2024_01_15 : Time.datetime :=
  {| Time.year := 2024; Time.month := 1; Time.day := 15;
     Time.hour := 10; Time.minute := 0; Time.second := 0; Time.microsecond := 0 |}.

Definition stopped (n : nat) : Time.datetime := t_2024_01_15.

Definition empty_db : Db.t :=
  {| Db.exp_users := []; Db.exp_users_seq := 1; Db.exp_bot_state := [];
     Db.exp_expenses := []; Db.exp_monthly_totals := [] |}.

Definition world_of (d : Db.t) : world :=
  {| store := d; requests := []; ticks := 0; outbox := [] |}.

Definition from_42 (s : str) : message :=
  {| message_id := 7; from_user_id := 42; chat_id := 99; text := s |}.

Definition from_13 (s : str) : message :=
  {| message_id := 8; from_user_id := 13; chat_id := 77; text := s |}.

Definition user_1 : User.row :=
  {| User.id := 1; User.tg_user_id := 42; User.tg_chat_id := 99 |}.

(** User 1 has staged 23.50 and is asked for the title. *)
Definition db_title : Db.t :=
  {| Db.exp_users := [user_1]; Db.exp_users_seq := 2;
     Db.exp_bot_state :=
       [{| State.user_id := 1; State.pending_action := Some AWAIT_TITLE;
           State.temp_amount := Some f_23_50; State.updated_at := t_2024_01_15 |}];
     Db.exp_expenses := []; Db.exp_monthly_totals := [] |}.

Definition at_day (mo d : Z) : Time.datetime :=
  {| Time.year := 2024; Time.month := mo; Time.day := d;
     Time.hour := 9; Time.minute := 30; Time.second := 0; Time.microsecond := 0 |}.

Definition spent (uid : Z) (title : str) (t : Time.datetime) : Expense.row :=
  {| Expense.user_id := uid; Expense.amount := f_23_50; Expense.title := title;
     Expense.created_at := t |}.

(** Expenses of two users in December and January, and the December total
    of user 1. *)
Definition db_ledger : Db.t :=
  {| Db.exp_users := [user_1]; Db.exp_users_seq := 2;
     Db.exp_bot_state := [];
     Db.exp_expenses :=
       [spent 1 (lit "Rent") {| Time.year := 2023; Time.month := 12; Time.day := 31;
                                Time.hour := 23; Time.minute := 59; Time.second := 59;
                                Time.microsecond := 0 |};
        spent 1 (lit "Coffee") (at_day 1 3);
        spent 2 (lit "Books") (at_day 1 4);
        spent 1 (lit "Tea") (at_day 1 12)];
     Db.exp_monthly_totals :=
       [{| Total.user_id := 1; Total.month_start := (2023, 12, 1)%Z;
           Total.total := Some f_23_50 |}] |}.

(** ** The environment *)

(** [s.split(sep)] for a one-character separator; [cur] is the piece being
    read, reversed. *)
Fixpoint split_on_from (sep : char) (cur s : str) : list str :=
  match s with
  | [] => [rev cur]
  | c :: s' =>
      if (c =? sep)%N then rev cur :: split_on_from sep [] s'
      else split_on_from sep (c :: cur) s'
  end.

Definition split_on (sep : char) (s : str) : list str := split_on_from sep [] s.

(** [{s.strip() for s in v.split(",") if s.strip()}] for the value [v] of
    the variable [ALLOWED_TG_IDS]: the set as the list of its entries,
    which [is_allowed] reads by membership only. *)
Definition allowed_of_env (v : str) : list str :=
  filter (fun s => match s with [] => false | _ => true end)
         (map Str.strip (split_on 44%N v)).

(** User 1 is asked for the amount. *)
Definition db_amount : Db.t :=
  {| Db.exp_users := [user_1]; Db.exp_users_seq := 2;
     Db.exp_bot_state :=
       [{| State.user_id := 1; State.pending_action := Some AWAIT_AMOUNT;
           State.temp_amount := None; State.updated_at := t_2024_01_15 |}];
     Db.exp_expenses := []; Db.exp_monthly_totals := [] |}.

(** A registry whose row of the sender 42 has the id 0. *)
Definition db_zero : Db.t :=
  {| Db.exp_users := [{| User.id := 0; User.tg_user_id := 42; User.tg_chat_id := 99 |}];
     Db.exp_users_seq := 1; Db.exp_bot_state := [];
     Db.exp_expenses := []; Db.exp_monthly_totals := [] |}.

(** User 1 with one expense stamped five days after the clock of
    [stopped]. *)
Definition db_later : Db.t :=
  {| Db.exp_users := [user_1]; Db.exp_users_seq := 2;
     Db.exp_bot_state := [];
     Db.exp_expenses := [spent 1 (lit "Later") (at_day 1 20)];
     Db.exp_monthly_totals := [] |}.

(** ** The bot *)

Section Bot.

(** Unicode decimal digits beyond ASCII, for [float()]. *)
Variable unicode_decimal : char -> option N.

(** The allow-list read from the environment at start. *)
Variable ALLOWED_TG_IDS : list str.

(** Whether the [n]-th request to the store fails (an error in the response
    or an exception of [execute()]); a failed request leaves the store as
    it was. *)
Variable store_fails : nat -> bool.

(** The [n]-th reading of [datetime.now(timezone.utc)]. *)
Variable clock : nat -> Time.datetime.

(** [supa_exec(q, label)]: the pair [(data, err)]; it never raises. *)
Definition supa_exec {A} (q : Db.query A) (label : str) : M (option A * bool) :=
  fun w =>
    if store_fails (length (requests w))
    then (Val (None, true), with_store w (store w) (requests w ++ [(label, true)]))
    else match Db.execute q (store w) with
         | Some (data, d) =>
             (Val (Some data, false), with_store w d (requests w ++ [(label, false)]))
         | None =>
             (Val (None, true), with_store w (store w) (requests w ++ [(label, true)]))
         end.

Definition now : M Time.datetime :=
  fun w =>
    (Val (clock (ticks w)),
     {| store := store w; requests := requests w; ticks := S (ticks w);
        outbox := outbox w |}).

Definition is_allowed (tg_user_id : Z) : bool :=
  existsb (Str.eqb (Str.of_int tg_user_id)) ALLOWED_TG_IDS.

Definition ensure_user (tg_user_id chat_id : Z) : M (option Z) :=
  if negb (is_allowed tg_user_id) then ret None
  else
    '(data, err) <- supa_exec (Db.users_select_id tg_user_id) (lit "exp_users.select") ;;
    if err then ret None
    else match data with
         | Some (Some user_id) =>
             supa_exec (Db.users_update_chat user_id chat_id) (lit "exp_users.update") ;;
             ret (Some user_id)
         | _ =>
             '(ins_data, ins_err) <-
               supa_exec (Db.users_insert tg_user_id chat_id) (lit "exp_users.insert") ;;
             if ins_err then ret None
             else match ins_data with
                  | Some (r :: _) => ret (Some (User.id r))
                  | _ => ret None
                  end
         end.

Definition set_state (user_id : Z) (action : option str) (temp_amount : option float)
  : M unit :=
  t <- now ;;
  supa_exec (Db.state_upsert {| State.user_id := user_id;
                                State.pending_action := action;
                                State.temp_amount := temp_amount;
                                State.updated_at := t |})
            (lit "exp_bot_state.upsert") ;;
  ret tt.

Definition get_state (user_id : Z) : M (option State.row) :=
  '(data, _) <- supa_exec (Db.state_select user_id) (lit "exp_bot_state.select") ;;
  ret match data with
      | Some (Some r) => Some r
      | _ => None
      end.

Definition clear_state (user_id : Z) : M unit :=
  supa_exec (Db.state_delete user_id) (lit "exp_bot_state.delete") ;;
  ret tt.

Definition parse_amount (text : str) : option float :=
  match PyFloat.float_of_str unicode_decimal (Str.replace 44%N 46%N text) with
  | Some n => if Float.ltb Float.zero n then Some (Float.round2 n) else None
  | None => None
  end.

(** [cmd_start], the handler of [/start] and [/help]; [not uid] holds of
    [None] and of the id [0]. *)
Definition cmd_start (message : message) : M unit :=
  let tg_user_id := from_user_id message in
  if negb (is_allowed tg_user_id) then reply_to message msg_denied
  else
    uid <- ensure_user tg_user_id (chat_id message) ;;
    match uid with
    | None => reply_to message msg_access_error
    | Some user_id =>
        if (user_id =? 0)%Z then reply_to message msg_access_error
        else send_message (chat_id message) msg_welcome true
    end.

(** The branch of [handle_text] for ["See expenses"]. *)
Definition see_expenses (chat_id user_id : Z) : M unit :=
  t <- now ;;
  match Time.first_of_month (Time.year t) (Time.month t) with
  | None => raise ValueError
  | Some first =>
      '(items, _) <- supa_exec (Db.expenses_list user_id first 10)
                       (lit "exp_expenses.list_this_month") ;;
      '(all_rows, _) <- supa_exec (Db.expenses_amounts user_id first)
                          (lit "exp_expenses.amounts_this_month") ;;
      let total := Float.sum match all_rows with Some rows => rows | None => [] end in
      send_message chat_id
        (report_text total match items with Some rs => rs | None => [] end) true
  end.

(** The branch of [handle_text] for ["See last month"]. *)
Definition see_last_month (chat_id user_id : Z) : M unit :=
  t <- now ;;
  let m := if (Time.month t - 1 =? 0)%Z then 12%Z else (Time.month t - 1)%Z in
  let y := if negb (Time.month t =? 1)%Z then Time.year t else (Time.year t - 1)%Z in
  match Time.first_of_month y m with
  | None => raise ValueError
  | Some d =>
      let last_start := Time.date_of d in
      '(mt, _) <- supa_exec (Db.totals_get user_id last_start)
                    (lit "exp_monthly_totals.get_last") ;;
      let total := match mt with
                   | Some (Some (Some x)) => x
                   | _ => Float.zero
                   end in
      send_message chat_id
        (msg_last_month (Time.date_isoformat last_start) total) true
  end.

(** The state machine of [handle_text]: amount, then title. *)
Definition state_machine (chat_id user_id : Z) (text : str) : M unit :=
  state <- get_state user_id ;;
  match state with
  | Some st =>
      if match State.pending_action st with
         | Some a => Str.eqb a AWAIT_AMOUNT
         | None => false
         end
      then
        match parse_amount text with
        | Some amt =>
            if Float.truthy amt
            then set_state user_id (Some AWAIT_TITLE) (Some amt) ;;
                 send_message chat_id (msg_amount_ok amt) false
            else send_message chat_id msg_invalid_amount false
        | None => send_message chat_id msg_invalid_amount false
        end
      else if match State.pending_action st with
              | Some a => Str.eqb a AWAIT_TITLE
              | None => false
              end
      then
        let title := Str.strip (Str.join (lit " ") (Str.split text)) in
        match title with
        | [] => send_message chat_id msg_title_empty false
        | _ =>
            t <- now ;;
            '(_, err) <- supa_exec (Db.expenses_insert user_id (State.temp_amount st)
                                      title t)
                           (lit "exp_expenses.insert") ;;
            if err then send_message chat_id msg_save_failed false
            else
              clear_state user_id ;;
              match State.temp_amount st with
              | Some amt => send_message chat_id (msg_saved amt title) true
              | None => raise TypeError
              end
        end
      else send_message chat_id msg_fallback true
  | None => send_message chat_id msg_fallback true
  end.

(** The body of [handle_text] from the comment [# Buttons / commands] on:
    the fixed commands first, then the state machine. *)
Definition handle_command (chat_id user_id : Z) (text : str) : M unit :=
  if Str.eqb text ADD_EXPENSE
  then set_state user_id (Some AWAIT_AMOUNT) None ;;
       send_message chat_id msg_send_amount false
  else if Str.eqb text SEE_EXPENSES then see_expenses chat_id user_id
  else if Str.eqb text SEE_LAST_MONTH then see_last_month chat_id user_id
  else state_machine chat_id user_id text.

(** [handle_text], the handler of every other text message. *)
Definition handle_text (message : message) : M unit :=
  let tg_user_id := from_user_id message in
  let chat_id := chat_id message in
  let text := Str.strip (text message) in
  if negb (is_allowed tg_user_id) then reply_to message msg_denied
  else
    uid <- ensure_user tg_user_id chat_id ;;
    match uid with
    | None => reply_to message msg_access_error
    | Some user_id =>
        if (user_id =? 0)%Z then reply_to message msg_access_error
        else handle_command chat_id user_id text
    end.

(** The updates the gateway delivers, and the bot handling them in turn. *)
Inductive update :=
| Command (m : message)   (* [/start] or [/help] *)
| Text (m : message).

Definition handle (u : update) : M unit :=
  match u with
  | Command m => cmd_start m
  | Text m => handle_text m
  end.

Fixpoint run (us : list update) (w : world) : world :=
  match us with
  | [] => w
  | u :: us' => run us' (exec (handle u) w)
  end.

(** ** Predicates of the statements *)

(** A string of whitespace only. *)
Definition blank (s : str) : Prop := Forall (fun c => Str.isspace c = true) s.

(** A word of a split: not empty and without a space. *)
Definition word (s : str) : Prop :=
  s <> [] /\ Forall (fun c => Str.isspace c = false) s.

(** A value that is not a NaN and has the sign [s]. *)
Definition has_sign (s : bool) (x : float) : Prop :=
  match x with
  | S754_zero s' | S754_infinity s' | S754_finite s' _ _ => s' = s
  | S754_nan => False
  end.

(** A value with at most two fractional digits: the binary64 value nearest
    to [k / 100] for a natural [k]. *)
Definition two_places (v : float) : Prop :=
  exists k : Z, (0 <= k)%Z /\ v = Float.of_decimal false k (-2).

(** The requests on [exp_users] leave the other tables alone. *)
Definition same_ledger (d d' : Db.t) : Prop :=
  Db.exp_bot_state d' = Db.exp_bot_state d
  /\ Db.exp_expenses d' = Db.exp_expenses d
  /\ Db.exp_monthly_totals d' = Db.exp_monthly_totals d.

(** Relations between the world before and after a computation. *)
Definition preserves {A} (P : world -> world -> Prop) (m : M A) : Prop :=
  forall w r w', m w = (r, w') -> P w w'.

(** The world changed in [exp_users] and the request log only. *)
Definition users_only (w w1 : world) : Prop :=
  same_ledger (store w) (store w1)
  /\ outbox w1 = outbox w /\ ticks w1 = ticks w
  /\ exists rs, requests w1 = requests w ++ rs.

(** The row that [set_state] writes at the clock reading [n]. *)
Definition state_row (uid : Z) (action : option str) (amt : option float) (n : nat)
  : State.row :=
  {| State.user_id := uid; State.pending_action := action;
     State.temp_amount := amt; State.updated_at := clock n |}.

(** The unique key of [exp_bot_state]. *)
Definition one_row_per_user (st : list State.row) : Prop :=
  NoDup (map State.user_id st).

(** The reply [bot.reply_to(message, body)]. *)
Definition reply (m : message) (body : str) : outbound :=
  {| to_chat := chat_id m; body := body;
     reply_to_message := Some (message_id m); reply_markup := false |}.

(** The message [bot.send_message(chat, body)], with the keyboard if [kb]. *)
Definition sent (chat : Z) (body : str) (kb : bool) : outbound :=
  {| to_chat := chat; body := body; reply_to_message := None; reply_markup := kb |}.

(** The world [w] with one more message in the outbox and nothing else
    changed. *)
Definition and_sent (w : world) (o : outbound) : world :=
  {| store := store w; requests := requests w; ticks := ticks w;
     outbox := outbox w ++ [o] |}.

(** The title as [handle_text] computes it from the stripped text. *)
Definition title_of (text : str) : str :=
  Str.strip (Str.join (lit " ") (Str.split text)).

(** The expense row of a commit. *)
Definition expense_row (uid : Z) (amt : float) (title : str) (n : nat) : Expense.row :=
  {| Expense.user_id := uid; Expense.amount := amt; Expense.title := title;
     Expense.created_at := clock n |}.

(** The first day of the calendar month before [t]; January wraps to the
    December of the year before. *)
Definition prev_month_start (t : Time.datetime) : Time.date :=
  if (Time.month t =? 1)%Z then (Time.year t - 1, 12, 1)%Z
  else (Time.year t, Time.month t - 1, 1)%Z.

(** The rows of [exp_monthly_totals] of a user for a month start. *)
Definition totals_for (uid : Z) (key : Time.date) (d : Db.t) : list Total.row :=
  filter (fun r => (Total.user_id r =? uid)%Z
                   && Time.date_eqb (Total.month_start r) key)
         (Db.exp_monthly_totals d).

(** The total that the report of the last month shows. *)
Definition reported_total (failed : bool) (rows : list Total.row) : float :=
  if failed then Float.zero
  else match rows with
       | [r] => match Total.total r with Some x => x | None => Float.zero end
       | _ => Float.zero
       end.

(** [a] is at least as recent as [b]. *)
Definition not_older (a b : Expense.row) : Prop :=
  Time.leb (Expense.created_at b) (Expense.created_at a) = true.

(** The first instant of the calendar month of [t]. *)
Definition month_start (t : Time.datetime) : Time.datetime :=
  {| Time.year := Time.year t; Time.month := Time.month t; Time.day := 1;
     Time.hour := 0; Time.minute := 0; Time.second := 0; Time.microsecond := 0 |}.

(** The month-to-date window of a user at [t]: the rows of the user from
    the first instant of the calendar month of [t] through [t]. *)
Definition in_window (uid : Z) (t : Time.datetime) (r : Expense.row) : bool :=
  (Expense.user_id r =? uid)%Z
  && Time.leb (month_start t) (Expense.created_at r)
  && Time.leb (Expense.created_at r) t.

Definition month_to_date (uid : Z) (t : Time.datetime) (d : Db.t) : list Expense.row :=
  filter (in_window uid t) (Db.exp_expenses d).

(** No row is stamped later than [t]. *)
Definition none_after (t : Time.datetime) (d : Db.t) : Prop :=
  Forall (fun r => Time.leb (Expense.created_at r) t = true) (Db.exp_expenses d).

(** A request that failed. *)
Definition failed (x : str * bool) : Prop := snd x = true.

(** A row that stages no amount or a strictly positive one. *)
Definition good_row (r : State.row) : Prop :=
  State.pending_action r = Some AWAIT_TITLE ->
  exists v, State.temp_amount r = Some v /\ Float.ltb Float.zero v = true.

(** What a run does to [exp_bot_state]: nothing, or, when no request
    failed, one upsert of a good row of the user or the delete of the rows
    of the user. *)
Definition state_change (uid : Z) (w w' : world) (rs : list (str * bool)) : Prop :=
  Db.exp_bot_state (store w') = Db.exp_bot_state (store w)
  \/ (Forall (fun x => snd x = false) rs
      /\ ((exists row, good_row row /\ State.user_id row = uid
                       /\ Db.exp_bot_state (store w')
                          = Db.upsert row (Db.exp_bot_state (store w)))
          \/ Db.exp_bot_state (store w')
             = filter (fun r => negb (Db.owns uid r)) (Db.exp_bot_state (store w)))).

(** What a run does to [exp_expenses]: nothing, or one row stamped with
    the reading of the clock that the run took. *)
Definition expense_change (uid : Z) (w w' : world) : Prop :=
  Db.exp_expenses (store w') = Db.exp_expenses (store w)
  \/ (exists amt title,
        Db.exp_expenses (store w')
        = Db.exp_expenses (store w) ++ [expense_row uid amt title (ticks w)]
        /\ ticks w' = S (ticks w)).

(** What a run with a failed request answers: one message, which is the
    failure notice exactly when the insert of the expense failed. *)
Definition failure_reply (w w' : world) (r : res unit) (rs : list (str * bool)) : Prop :=
  Exists failed rs ->
  r = Val tt
  /\ exists o, outbox w' = outbox w ++ [o]
               /\ (body o = msg_save_failed <-> In (lit "exp_expenses.insert", true) rs).

(** What a run of [handle_command] does, in one statement. *)
Definition summary (uid : Z) (w w' : world) (r : res unit) : Prop :=
  exists rs,
    requests w' = requests w ++ rs
    /\ ticks w <= ticks w'
    /\ state_change uid w w' rs
    /\ expense_change uid w w'
    /\ failure_reply w w' r rs.

(** Two worlds that differ in the outbox at most. *)
Definition same_but_outbox (a b : world) : Prop :=
  store b = store a /\ ticks b = ticks a /\ requests b = requests a.

(** Every row that awaits a title stages a strictly positive amount. *)
Definition staged_positive (d : Db.t) : Prop :=
  Forall good_row (Db.exp_bot_state d).

(** Every expense is stamped with an earlier reading of the clock. *)
Definition stamped (w : world) : Prop :=
  Forall (fun r => exists k, k < ticks w /\ Expense.created_at r = clock k)
         (Db.exp_expenses (store w)).

(** The clock does not run backwards. *)
Definition monotone_clock : Prop :=
  forall i j, i <= j -> Time.leb (clock i) (clock j) = true.

(** ** Predicates of the further statements *)

(** The tables that no text message writes once the sender is resolved. *)
Definition registry_kept (w w' : world) : Prop :=
  Db.exp_users (store w') = Db.exp_users (store w)
  /\ Db.exp_users_seq (store w') = Db.exp_users_seq (store w)
  /\ Db.exp_monthly_totals (store w') = Db.exp_monthly_totals (store w).

(** What a run does to [exp_expenses], in full: nothing, or the commit of
    the amount staged in a row of the user that awaits a title, under the
    title of the text. *)
Definition commit (uid : Z) (text : str) (w w' : world) : Prop :=
  Db.exp_expenses (store w') = Db.exp_expenses (store w)
  \/ (exists st amt,
        filter (Db.owns uid) (Db.exp_bot_state (store w)) = [st]
        /\ State.pending_action st = Some AWAIT_TITLE
        /\ State.temp_amount st = Some amt
        /\ title_of text <> []
        /\ Db.exp_expenses (store w')
           = Db.exp_expenses (store w)
               ++ [expense_row uid amt (title_of text) (ticks w)]).

(** The clock reading from which the reports cannot build their month. *)
Definition no_month (t : Time.datetime) : Prop :=
  Time.valid t = false \/ (Time.year t = 1 /\ Time.month t = 1)%Z.

(** How a run ends: with one message to the chat, or with the
    [ValueError] of a month that cannot be built, before any request. *)
Definition outcome (chat : Z) (w w' : world) (r : res unit) : Prop :=
  (r = Val tt
   /\ exists o, outbox w' = outbox w ++ [o] /\ to_chat o = chat)
  \/ (r = Exc ValueError
      /\ outbox w' = outbox w /\ store w' = store w /\ requests w' = requests w
      /\ no_month (clock (ticks w))).

(** The rows of [exp_users] of a sender. *)
Definition users_of (tg : Z) (d : Db.t) : list User.row :=
  filter (fun r => (User.tg_user_id r =? tg)%Z) (Db.exp_users d).

(** [exp_users] after [.update({"tg_chat_id": chat}).eq("id", uid)]. *)
Definition rechat (uid chat : Z) (us : list User.row) : list User.row :=
  map (fun r => if (User.id r =? uid)%Z
                then {| User.id := User.id r; User.tg_user_id := User.tg_user_id r;
                        User.tg_chat_id := chat |}
                else r) us.

(** The identity of a row of [exp_users]: what no handler changes. *)
Definition identity (r : User.row) : Z * Z := (User.id r, User.tg_user_id r).

(** A well-formed expense: an amount above zero under a title that is not
    empty and is the title of some text. *)
Definition good_expense (r : Expense.row) : Prop :=
  Float.ltb Float.zero (Expense.amount r) = true
  /\ Expense.title r <> []
  /\ exists text, Expense.title r = title_of text.

(** [exp_users] keeps its rows, up to the chat, and grows at the end. *)
Definition registry_grows (d d' : Db.t) : Prop :=
  exists l, map identity (Db.exp_users d') = map identity (Db.exp_users d) ++ l.

(** What a sequence of updates does to the tables it does not own row by
    row: the users keep their identities, the expenses are appended, each
    stamped with a reading of the clock taken meanwhile, and the monthly
    totals are not written. *)
Definition grows (w w' : world) : Prop :=
  registry_grows (store w) (store w')
  /\ (exists l,
        Db.exp_expenses (store w') = Db.exp_expenses (store w) ++ l
        /\ Forall (fun r => exists k, ticks w <= k < ticks w'
                                     /\ Expense.created_at r = clock k) l)
  /\ Db.exp_monthly_totals (store w') = Db.exp_monthly_totals (store w)
  /\ ticks w <= ticks w'.

(** The expenses of a user. *)
Definition expenses_of (uid : Z) (d : Db.t) : list Expense.row :=
  filter (fun r => (Expense.user_id r =? uid)%Z) (Db.exp_expenses d).

(** [s.count(c)] *)
Definition occurrences (c : char) (s : str) : nat := count_occ N.eq_dec s c.

(** ** Predicates of the texts *)

(** [k] hundredths is the exact value [m * 2 ^ e] rounded to a nearest
    hundredth: the two differ by half a hundredth at most. *)
Definition nearest_hundredth (m : positive) (e : Z) (k : Z) : Prop :=
  (0 <= k)%Z
  /\ (2 * Z.abs (100 * Zpos m * 2 ^ Z.max e 0 - k * 2 ^ Z.max (- e) 0)
       <= 2 ^ Z.max (- e) 0)%Z.

(** [digits] writes the amount [x] with two places: the sign, the units
    in decimal, a dot and the two digits of the hundredths. *)
Definition two_place_text (x : float) (digits : str) : Prop :=
  match x with
  | S754_finite s m e =>
      exists k,
        nearest_hundredth m e k
        /\ digits = (if s then lit "-" else []) ++ Str.of_N (Z.to_N (k / 100))
                      ++ lit "." ++ Str.zfill 2 (Str.of_N (Z.to_N (k mod 100)))
  | S754_zero s => digits = (if s then lit "-" else []) ++ lit "0.00"
  | S754_infinity s => digits = (if s then lit "-" else []) ++ lit "inf"
  | S754_nan => digits = lit "nan"
  end.

(** The confirmation of a commit, spelled out. *)
Definition saved_text (digits title : str) : str :=
  lit "Saved " ++ [9989%N] ++ lit " " ++ digits ++ lit " " ++ [8212%N] ++ lit " "
    ++ [34%N] ++ title ++ [34%N].

(** [line] is the line of the month's report for the expense [r]: the
    amount with two places, the title and, in brackets, the characters 5
    to 9 of the timestamp. *)
Definition line_of (r : Expense.row) (line : str) : Prop :=
  exists digits,
    two_place_text (Expense.amount r) digits
    /\ line = [8226%N] ++ lit " " ++ digits ++ lit " " ++ [8212%N] ++ lit " "
               ++ Expense.title r ++ lit " ("
               ++ Str.slice 5 10 (Time.isoformat (Expense.created_at r)) ++ lit ")".

(** [body] is the month's report for the total [total] and the listed
    rows [items]: the line of the total, then one line for each row in
    their order, or the line "(no items yet)". *)
Definition report_of (total : float) (items : list Expense.row) (body : str) : Prop :=
  exists digits lines,
    two_place_text total digits
    /\ body = Str.join [10%N] ((lit "This month total: " ++ digits) :: lines)
    /\ match items with
       | [] => lines = [lit "(no items yet)"]
       | _ => Forall2 line_of items lines
       end.

(** The text of the report of the month that starts at [key], for the
    total written [digits]. *)
Definition last_month_text (key : Time.date) (digits : str) : str :=
  lit "Your expenses for " ++ Time.pad 4 (fst (fst key)) ++ lit "-"
    ++ Time.pad 2 (snd (fst key)) ++ lit ": " ++ digits.

(** Every row that awaits a title carries an amount. *)
Definition staged (d : Db.t) : Prop :=
  Forall (fun r => State.pending_action r = Some AWAIT_TITLE ->
                   State.temp_amount r <> None)
         (Db.exp_bot_state d).

(** ** Stripping and splitting *)

Lemma lstrip_decomp (s : str) : exists p, s = p ++ Str.lstrip s /\ blank p.
Proof.
  induction s as [|c s (p & Hp & Hb)]; simpl.
  - exists []; split; [reflexivity | constructor].
  - destruct (Str.isspace c) eqn:E.
    + exists (c :: p); split; [simpl; congruence | constructor; auto].
    + exists []; split; [reflexivity | constructor].
Qed.

Lemma rstrip_decomp (s : str) : exists q, s = Str.rstrip s ++ q /\ blank q.
Proof.
  unfold Str.rstrip.
  destruct (lstrip_decomp (rev s)) as (p & Hp & Hb).
  exists (rev p); split.
  - rewrite <- rev_app_distr, <- Hp, rev_involutive; reflexivity.
  - apply Forall_rev, Hb.
Qed.

Lemma split_from_blank (cur sp : str) :
  blank sp -> Str.split_from cur sp = Str.split_from cur [].
Proof.
  intros H; revert cur; induction H as [|c sp Hc _ IH]; intros cur; [reflexivity|].
  simpl; rewrite Hc. destruct cur; rewrite IH; reflexivity.
Qed.

Lemma split_from_trailing (cur s sp : str) :
  blank sp -> Str.split_from cur (s ++ sp) = Str.split_from cur s.
Proof.
  intros H; revert cur; induction s as [|c s IH]; intros cur; simpl.
  - apply split_from_blank, H.
  - destruct (Str.isspace c); [destruct cur|]; rewrite IH; reflexivity.
Qed.

Lemma split_leading (sp s : str) :
  blank sp -> Str.split (sp ++ s) = Str.split s.
Proof.
  unfold Str.split; induction 1 as [|c sp Hc _ IH]; simpl; [reflexivity|].
  rewrite Hc; exact IH.
Qed.

Lemma split_strip (s : str) : Str.split (Str.strip s) = Str.split s.
Proof.
  unfold Str.strip.
  destruct (lstrip_decomp s) as (p & Hp & Hb).
  destruct (rstrip_decomp (Str.lstrip s)) as (q & Hq & Hbq).
  rewrite Hp at 2. rewrite split_leading by exact Hb.
  rewrite Hq at 2. unfold Str.split. rewrite split_from_trailing by exact Hbq.
  reflexivity.
Qed.

Lemma split_from_words (cur s : str) :
  Forall (fun c => Str.isspace c = false) cur ->
  Forall word (Str.split_from cur s).
Proof.
  revert cur; induction s as [|c s IH]; intros cur Hcur; simpl.
  - destruct cur as [|x cur]; constructor; [|constructor].
    split; [|apply Forall_rev, Hcur].
    simpl; intros E; apply app_eq_nil in E as [_ E]; discriminate.
  - destruct (Str.isspace c) eqn:E.
    + destruct cur as [|x cur]; [apply IH; constructor|].
      constructor; [|apply IH; constructor].
      split; [|apply Forall_rev, Hcur].
      simpl; intros E'; apply app_eq_nil in E' as [_ E']; discriminate.
    + apply IH; constructor; auto.
Qed.

Lemma split_words (s : str) : Forall word (Str.split s).
Proof. apply split_from_words; constructor. Qed.

Lemma split_from_nil (cur s : str) :
  Str.split_from cur s = [] -> cur = [] /\ blank s.
Proof.
  revert cur; induction s as [|c s IH]; intros cur; simpl.
  - destruct cur; [split; [reflexivity | constructor] | discriminate].
  - destruct (Str.isspace c) eqn:E.
    + destruct cur; [|discriminate].
      intros H; apply IH in H as [_ H]; split; [reflexivity | constructor; auto].
    + intros H; apply IH in H as [H _]; discriminate.
Qed.

Lemma split_nil_iff (s : str) : Str.split s = [] <-> blank s.
Proof.
  split.
  - intros H; apply split_from_nil in H; tauto.
  - intros H; unfold Str.split.
    rewrite <- (app_nil_l s), split_from_trailing by exact H. reflexivity.
Qed.

Lemma lstrip_id (s : str) :
  match s with [] => True | c :: _ => Str.isspace c = false end ->
  Str.lstrip s = s.
Proof. destruct s as [|c s]; simpl; [reflexivity | intros ->; reflexivity]. Qed.

Lemma join_head (sep w : str) (ws : list str) :
  exists rest, Str.join sep (w :: ws) = w ++ rest.
Proof.
  destruct ws as [|w' ws]; simpl.
  - exists []; rewrite app_nil_r; reflexivity.
  - eexists; reflexivity.
Qed.

Lemma join_last (sep : str) (ws : list str) :
  ws <> [] -> exists pre w, Str.join sep ws = pre ++ w /\ In w ws.
Proof.
  induction ws as [|w ws IH]; [congruence|]; intros _.
  destruct ws as [|w' ws].
  - exists [], w; split; [reflexivity | left; reflexivity].
  - destruct IH as (pre & wl & E & Hin); [discriminate|].
    exists (w ++ sep ++ pre), wl; split.
    + change (Str.join sep (w :: w' :: ws)) with (w ++ sep ++ Str.join sep (w' :: ws)).
      rewrite E, <- !app_assoc; reflexivity.
    + right; exact Hin.
Qed.

(** A string put together from words has nothing to strip. *)
Lemma strip_join_words (sep : str) (ws : list str) :
  Forall word ws -> Str.strip (Str.join sep ws) = Str.join sep ws.
Proof.
  intros H. destruct ws as [|w ws]; [reflexivity|].
  unfold Str.strip.
  assert (L : Str.lstrip (Str.join sep (w :: ws)) = Str.join sep (w :: ws)).
  { apply lstrip_id. destruct (join_head sep w ws) as (rest & ->).
    inversion H as [|? ? [Hne Hw] _]; subst.
    destruct w as [|c w]; [congruence|]. simpl. inversion Hw; auto. }
  rewrite L. unfold Str.rstrip.
  destruct (join_last sep (w :: ws)) as (pre & wl & E & Hin); [discriminate|].
  rewrite E, rev_app_distr.
  rewrite lstrip_id; [rewrite <- rev_app_distr, rev_involutive; reflexivity|].
  rewrite Forall_forall in H. destruct (H wl Hin) as [Hne Hw].
  apply Forall_rev in Hw.
  destruct (rev wl) as [|c r] eqn:Er.
  - apply (f_equal (@rev _)) in Er; rewrite rev_involutive in Er; simpl in Er; congruence.
  - simpl. inversion Hw; auto.
Qed.

Lemma join_nil_iff (sep : str) (ws : list str) :
  Forall word ws -> (Str.join sep ws = [] <-> ws = []).
Proof.
  intros H; split; [|intros ->; reflexivity].
  destruct ws as [|w ws]; [reflexivity|].
  destruct (join_head sep w ws) as (rest & ->).
  inversion H as [|? ? [Hne _] _]; subst.
  destruct w; [congruence | discriminate].
Qed.

(** ** Signs of rounded values *)

Lemma shr_1_nonneg (mrs : shr_record) :
  (0 <= shr_m mrs)%Z -> (0 <= shr_m (shr_1 mrs))%Z.
Proof.
  destruct mrs as [m r s]; simpl.
  destruct m as [|p|p]; [easy | destruct p; simpl; lia | lia].
Qed.

Lemma iter_pos_invariant {A} (P : A -> Prop) (f : A -> A) :
  (forall x, P x -> P (f x)) ->
  forall p x, P x -> P (iter_pos f p x).
Proof.
  intros Hf; induction p as [p IH|p IH|]; simpl; intros x Hx; auto.
Qed.

Lemma shr_nonneg (mrs : shr_record) (e n : Z) :
  (0 <= shr_m mrs)%Z -> (0 <= shr_m (fst (shr mrs e n)))%Z.
Proof.
  intros H; destruct n as [|p|p]; simpl; auto.
  apply (iter_pos_invariant (fun r => (0 <= shr_m r)%Z)); auto using shr_1_nonneg.
Qed.

Lemma shr_fexp_nonneg (m e : Z) (l : location) :
  (0 <= m)%Z -> (0 <= shr_m (fst (shr_fexp prec emax m e l)))%Z.
Proof.
  intros H; unfold shr_fexp; apply shr_nonneg.
  destruct l as [|[]]; simpl; exact H.
Qed.

Lemma round_nearest_even_nonneg (m : Z) (l : location) :
  (0 <= m)%Z -> (0 <= round_nearest_even m l)%Z.
Proof.
  intros H; destruct l as [|[]]; simpl; try lia.
  destruct (Z.even m); lia.
Qed.

Lemma binary_round_aux_sign (s : bool) (mx ex : Z) (lx : location) :
  (0 <= mx)%Z -> has_sign s (binary_round_aux prec emax s mx ex lx).
Proof.
  intros H; unfold binary_round_aux.
  pose proof (shr_fexp_nonneg mx ex lx H) as H1.
  destruct (shr_fexp prec emax mx ex lx) as [mrs' e']; simpl in H1.
  pose proof (round_nearest_even_nonneg _ (loc_of_shr_record mrs') H1) as H2.
  pose proof (shr_fexp_nonneg _ e' loc_Exact H2) as H3.
  destruct (shr_fexp prec emax _ e' loc_Exact) as [mrs'' e'']; simpl in H3.
  destruct (shr_m mrs'') as [|p|p]; simpl; [reflexivity | | lia].
  destruct (e'' <=? _)%Z; simpl; reflexivity.
Qed.

Lemma of_ratio_sign (s : bool) (n d : positive) : has_sign s (Float.of_ratio s n d).
Proof.
  unfold Float.of_ratio, SFdiv.
  destruct (SFdiv_core_binary prec emax (Z.pos n) 0 (Z.pos d) 0) as [[q e] l] eqn:E.
  rewrite xorb_false_r. apply binary_round_aux_sign.
  unfold SFdiv_core_binary in E.
  set (m' := match _ with Z.pos _ => _ | Z0 => _ | Z.neg _ => _ end) in E.
  assert (Hm : (0 <= m')%Z).
  { subst m'. destruct (_ - _ - _)%Z; try lia. apply Z.shiftl_nonneg. lia. }
  pose proof (Z_div_mod m' (Z.pos d) eq_refl) as Hd.
  destruct (Z.div_eucl m' (Z.pos d)) as [q' r']. inversion E; subst.
  destruct Hd as [Hd1 Hd2]. nia.
Qed.

Lemma round2_sign (n : float) :
  Float.ltb Float.zero n = true -> has_sign false (Float.round2 n).
Proof.
  destruct n as [s|s| |s m e]; simpl; try discriminate.
  - destruct s; [discriminate | reflexivity].
  - unfold Float.ltb, SFltb; simpl. destruct s; [discriminate|]. intros _.
    destruct (Float.hundredths m e); simpl; try reflexivity.
    apply of_ratio_sign.
Qed.

Lemma has_sign_positive (v : float) :
  has_sign false v -> Float.truthy v = true -> Float.ltb Float.zero v = true.
Proof.
  destruct v as [s|s| |s m e]; simpl; try easy; intros ->; reflexivity.
Qed.

Lemma has_sign_nonneg (v : float) :
  has_sign false v -> v = Float.zero \/ Float.ltb Float.zero v = true.
Proof.
  destruct v as [s|s| |s m e]; simpl; try easy; intros ->; auto.
Qed.

(** ** The amounts as text *)

Lemma round_half_even_nearest (num den : Z) :
  (0 <= num)%Z -> (0 < den)%Z ->
  (0 <= Float.round_half_even num den)%Z
  /\ (2 * Z.abs (num - Float.round_half_even num den * den) <= den)%Z.
Proof.
  intros Hn Hd. unfold Float.round_half_even.
  pose proof (Z.div_mod num den ltac:(lia)) as E.
  pose proof (Z.mod_pos_bound num den Hd) as B.
  pose proof (Z.div_pos num den Hn Hd) as Q.
  set (q := (num / den)%Z) in *. set (r := (num mod den)%Z) in *.
  assert (Eq : (q * den = num - r)%Z) by lia.
  assert (Eq1 : ((q + 1) * den = num - r + den)%Z) by lia.
  destruct (Z.compare_spec (2 * r) den) as [H|H|H].
  - destruct (Z.even q); [rewrite Eq | rewrite Eq1]; lia.
  - rewrite Eq; lia.
  - rewrite Eq1; lia.
Qed.

(** [format_2f] writes the hundredths nearest to the value. *)
Lemma format_2f_spec (x : float) : two_place_text x (Float.format_2f x).
Proof.
  destruct x as [s|s| |s m e]; cbn [two_place_text Float.format_2f];
    try reflexivity; try (destruct s; reflexivity).
  exists (Float.hundredths m e). split.
  - unfold nearest_hundredth, Float.hundredths.
    apply round_half_even_nearest.
    + pose proof (Z.pow_nonneg 2 (Z.max e 0) ltac:(lia)). nia.
    + apply Z.pow_pos_nonneg; lia.
  - destruct s; reflexivity.
Qed.

(** ** The amount parser *)

Lemma replace_comma_idem (t : str) :
  Str.replace 44%N 46%N (Str.replace 44%N 46%N t) = Str.replace 44%N 46%N t.
Proof.
  unfold Str.replace; rewrite map_map; apply map_ext; intros c.
  destruct (c =? 44)%N eqn:E; [reflexivity | rewrite E; reflexivity].
Qed.

Lemma replace_comma_dot (t : str) :
  Str.replace 44%N 46%N (Str.replace 46%N 44%N t) = Str.replace 44%N 46%N t.
Proof.
  unfold Str.replace; rewrite map_map; apply map_ext; intros c.
  destruct (c =? 46)%N eqn:E.
  - apply N.eqb_eq in E; subst c; reflexivity.
  - destruct (c =? 44)%N; reflexivity.
Qed.

Lemma round2_two_places (n : float) :
  Float.ltb Float.zero n = true ->
  Float.round2 n = S754_infinity false \/ two_places (Float.round2 n).
Proof.
  destruct n as [s|s| |s m e]; try discriminate.
  - destruct s; [discriminate | left; reflexivity].
  - destruct s; [discriminate | intros _; right].
    unfold Float.round2.
    destruct (Float.hundredths m e) as [|k|k].
    + exists 0%Z; split; [lia | reflexivity].
    + exists (Z.pos k); split; [lia|].
      unfold Float.of_decimal.
      change (Z.max (-2) 0) with 0%Z; change (Z.max (- -2) 0) with 2%Z.
      rewrite Z.pow_0_r, Z.mul_1_r; reflexivity.
    + exists 0%Z; split; [lia | reflexivity].
Qed.

Lemma parse_amount_inv (t : str) (v : float) :
  parse_amount t = Some v ->
  exists n, PyFloat.float_of_str unicode_decimal (Str.replace 44%N 46%N t) = Some n
            /\ Float.ltb Float.zero n = true /\ v = Float.round2 n.
Proof.
  unfold parse_amount.
  destruct (PyFloat.float_of_str _ _) as [n|]; [|discriminate].
  destruct (Float.ltb Float.zero n) eqn:E; [|discriminate].
  intros [= <-]; exists n; auto.
Qed.

Lemma parse_amount_sign (t : str) (v : float) :
  parse_amount t = Some v -> has_sign false v.
Proof.
  intros H; apply parse_amount_inv in H as (n & _ & Hn & ->).
  apply round2_sign, Hn.
Qed.

(** What the engine stages: a parsed amount that is truthy is strictly
    positive. *)
Lemma parse_amount_truthy_positive (t : str) (v : float) :
  parse_amount t = Some v -> Float.truthy v = true ->
  Float.ltb Float.zero v = true.
Proof.
  intros H; apply has_sign_positive; eapply parse_amount_sign; eauto.
Qed.

(** C2 (amended): [parse_amount] reads [,] as [.]; it returns [None] for
    text that [float()] rejects and for values that are not greater than
    zero (zero, negatives, NaN); every value it returns is [round(n, 2)] of
    the parsed [n > 0], that is +infinity or a value with two fractional
    digits, and is greater than or equal to zero, not always greater:
    ["0.004"] is accepted and returns [0.0].  [parse("23.50")] and
    [parse("23,50")] are 23.5; [parse("0")], [parse("-5")] and
    [parse("abc")] are [None]. *)
Theorem C2_parse_amount_amended :
  (forall t, parse_amount (Str.replace 44%N 46%N t) = parse_amount t
             /\ parse_amount (Str.replace 46%N 44%N t) = parse_amount t)
  /\ (forall t, PyFloat.float_of_str unicode_decimal (Str.replace 44%N 46%N t) = None ->
                parse_amount t = None)
  /\ (forall t n, PyFloat.float_of_str unicode_decimal (Str.replace 44%N 46%N t) = Some n ->
                  Float.ltb Float.zero n = false -> parse_amount t = None)
  /\ (forall t v, parse_amount t = Some v ->
        (exists n, PyFloat.float_of_str unicode_decimal (Str.replace 44%N 46%N t) = Some n
                   /\ Float.ltb Float.zero n = true /\ v = Float.round2 n)
        /\ (v = S754_infinity false \/ two_places v)
        /\ (v = Float.zero \/ Float.ltb Float.zero v = true))
  /\ parse_amount (lit "23.50") = Some f_23_50
  /\ parse_amount (lit "23,50") = Some f_23_50
  /\ parse_amount (lit "0") = None
  /\ parse_amount (lit "-5") = None
  /\ parse_amount (lit "abc") = None
  /\ parse_amount (lit "0.004") = Some Float.zero.
Proof.
  split; [|split; [|split; [|split]]].
  - intros t; unfold parse_amount.
    rewrite replace_comma_idem, replace_comma_dot; auto.
  - intros t H; unfold parse_amount; rewrite H; reflexivity.
  - intros t n H Hn; unfold parse_amount; rewrite H, Hn; reflexivity.
  - intros t v H. pose proof (parse_amount_sign _ _ H) as Hs.
    destruct (parse_amount_inv _ _ H) as (n & Hf & Hn & Hv).
    split; [exists n; auto|]. split.
    + subst v; apply round2_two_places, Hn.
    + apply has_sign_nonneg, Hs.
  - repeat split; vm_compute; reflexivity.
Qed.

(** [round(12.345, 2)]: the binary64 value of 12.345 lies above the tie
    and rounds to 12.35. *)
Example parse_amount_12_345 :
  parse_amount (lit "12.345") = Some (Float.of_decimal false 1235 (-2)).
Proof. vm_compute; reflexivity. Qed.

(** [round(0.125, 2)]: an exact tie rounds to the even digit, 0.12. *)
Example parse_amount_tie :
  parse_amount (lit "0.125") = Some (Float.of_decimal false 12 (-2)).
Proof. vm_compute; reflexivity. Qed.

(** ** Running the handlers *)

Lemma str_eqb_eq (a b : str) : Str.eqb a b = true <-> a = b.
Proof.
  revert b; induction a as [|x a IH]; destruct b as [|y b]; simpl;
    try (split; [discriminate | discriminate]); try tauto.
  rewrite andb_true_iff, N.eqb_eq, IH. split; [intros [-> ->] | intros [= -> ->]]; auto.
Qed.

Lemma str_eqb_refl (a : str) : Str.eqb a a = true.
Proof. apply str_eqb_eq; reflexivity. Qed.

Lemma str_eqb_neq (a b : str) : Str.eqb a b = false <-> a <> b.
Proof.
  rewrite <- str_eqb_eq. destruct (Str.eqb a b); split; congruence.
Qed.

Ltac invert_pairs :=
  repeat match goal with
         | H : (_, _) = (_, _) |- _ => inversion H; subst; clear H
         | H : Some _ = Some _ |- _ => inversion H; subst; clear H
         | H : Val _ = Val _ |- _ => inversion H; subst; clear H
         | H : Some _ = None |- _ => discriminate H
         | H : None = Some _ |- _ => discriminate H
         | H : Val _ = Exc _ |- _ => discriminate H
         | H : Exc _ = Val _ |- _ => discriminate H
         end.

Lemma same_ledger_refl (d : Db.t) : same_ledger d d.
Proof. repeat split. Qed.

Lemma execute_users_select (tg : Z) (d : Db.t) r d' :
  Db.execute (Db.users_select_id tg) d = Some (r, d') -> d' = d.
Proof.
  simpl. destruct (Db.maybe_single _); intros H; invert_pairs; reflexivity.
Qed.

Lemma execute_users_update (uid chat : Z) (d : Db.t) r d' :
  Db.execute (Db.users_update_chat uid chat) d = Some (r, d') -> same_ledger d d'.
Proof. simpl; intros H; invert_pairs; repeat split. Qed.

Lemma execute_users_insert (tg chat : Z) (d : Db.t) r d' :
  Db.execute (Db.users_insert tg chat) d = Some (r, d') -> same_ledger d d'.
Proof.
  simpl. destruct (existsb _ _); intros H; invert_pairs; repeat split.
Qed.

Section Preserves.

Variable P : world -> world -> Prop.
Hypothesis P_refl : forall w, P w w.
Hypothesis P_trans : forall a b c, P a b -> P b c -> P a c.

Lemma preserves_ret {A} (a : A) : preserves P (ret a).
Proof. intros w r w' H; unfold ret in H; invert_pairs; apply P_refl. Qed.

Lemma preserves_raise {A} (e : exn) : preserves P (@raise A e).
Proof. intros w r w' H; unfold raise in H; invert_pairs; apply P_refl. Qed.

Lemma preserves_bind {A B} (m : M A) (f : A -> M B) :
  preserves P m -> (forall a, preserves P (f a)) -> preserves P (bind m f).
Proof.
  intros Hm Hf w r w' H; unfold bind in H.
  destruct (m w) as [[a|e] w1] eqn:E.
  - eapply P_trans; [eapply Hm, E | eapply Hf, H].
  - invert_pairs; eapply Hm, E.
Qed.

(** A request preserves [P] when logging an outcome does and applying the
    request to the store does. *)
Lemma preserves_supa_exec {A} (q : Db.query A) (label : str) :
  (forall w b, P w (with_store w (store w) (requests w ++ [(label, b)]))) ->
  (forall w a d, Db.execute q (store w) = Some (a, d) ->
                 P w (with_store w d (requests w ++ [(label, false)]))) ->
  preserves P (supa_exec q label).
Proof.
  intros Hlog Hrun w r w' H; unfold supa_exec in H.
  destruct (store_fails _); [invert_pairs; apply Hlog|].
  destruct (Db.execute q (store w)) as [[a d]|] eqn:E; invert_pairs.
  - eapply Hrun, E.
  - apply Hlog.
Qed.

End Preserves.

Lemma users_only_refl (w : world) : users_only w w.
Proof. repeat split; exists []; rewrite app_nil_r; reflexivity. Qed.

Lemma users_only_trans (a b c : world) :
  users_only a b -> users_only b c -> users_only a c.
Proof.
  intros ((H1 & H2 & H3) & H4 & H5 & r1 & H6) ((G1 & G2 & G3) & G4 & G5 & r2 & G6).
  repeat split; try congruence.
  exists (r1 ++ r2); rewrite app_assoc; congruence.
Qed.

Lemma users_only_log (label : str) (w : world) (b : bool) :
  users_only w (with_store w (store w) (requests w ++ [(label, b)])).
Proof. repeat split; eexists; reflexivity. Qed.

(** [ensure_user] touches [exp_users] only, sends nothing and does not
    read the clock. *)
Lemma ensure_user_frame (tg chat : Z) : preserves users_only (ensure_user tg chat).
Proof.
  pose proof users_only_refl as R; pose proof users_only_trans as T.
  unfold ensure_user. destruct (negb (is_allowed tg)); [apply preserves_ret, R|].
  apply preserves_bind; auto.
  { apply preserves_supa_exec; [apply users_only_log|].
    intros w a d E; apply execute_users_select in E; subst d; apply users_only_log. }
  intros [data err]. destruct err; [apply preserves_ret, R|].
  destruct data as [[user_id|]|].
  - apply preserves_bind; auto; [|intros; apply preserves_ret, R].
    apply preserves_supa_exec; [apply users_only_log|].
    intros w a d E; apply execute_users_update in E.
    split; [exact E|]; repeat split; eexists; reflexivity.
  - apply preserves_bind; auto.
    { apply preserves_supa_exec; [apply users_only_log|].
      intros w a d E; apply execute_users_insert in E.
      split; [exact E|]; repeat split; eexists; reflexivity. }
    intros [d e]; destruct e; [apply preserves_ret, R|].
    destruct d as [[|x l]|]; apply preserves_ret, R.
  - apply preserves_bind; auto.
    { apply preserves_supa_exec; [apply users_only_log|].
      intros w a d E; apply execute_users_insert in E.
      split; [exact E|]; repeat split; eexists; reflexivity. }
    intros [d e]; destruct e; [apply preserves_ret, R|].
    destruct d as [[|x l]|]; apply preserves_ret, R.
Qed.

(** A user that [ensure_user] resolves is on the allow-list. *)
Lemma ensure_user_allowed (tg chat : Z) (w w1 : world) (uid : Z) :
  ensure_user tg chat w = (Val (Some uid), w1) -> is_allowed tg = true.
Proof.
  unfold ensure_user. destruct (is_allowed tg); [reflexivity|].
  simpl; unfold ret; intros H; invert_pairs.
Qed.

(** After the authorization, [handle_text] is [handle_command] on the
    stripped text. *)
Lemma handle_text_resolved (m : message) (w w1 : world) (uid : Z) :
  ensure_user (from_user_id m) (chat_id m) w = (Val (Some uid), w1) ->
  uid <> 0%Z ->
  handle_text m w = handle_command (chat_id m) uid (Str.strip (text m)) w1.
Proof.
  intros He Hu. unfold handle_text.
  rewrite (ensure_user_allowed _ _ _ _ _ He); simpl.
  unfold bind; rewrite He.
  apply Z.eqb_neq in Hu; rewrite Hu; reflexivity.
Qed.

(** Equations for running one step. *)

Lemma bind_val {A B} (m : M A) (f : A -> M B) (w w1 : world) (a : A) :
  m w = (Val a, w1) -> bind m f w = f a w1.
Proof. intros H; unfold bind; rewrite H; reflexivity. Qed.

Lemma supa_exec_ok {A} (q : Db.query A) (label : str) (w : world) (a : A) (d : Db.t) :
  store_fails (length (requests w)) = false ->
  Db.execute q (store w) = Some (a, d) ->
  supa_exec q label w
  = (Val (Some a, false), with_store w d (requests w ++ [(label, false)])).
Proof. intros H1 H2; unfold supa_exec; rewrite H1, H2; reflexivity. Qed.

Lemma supa_exec_failed {A} (q : Db.query A) (label : str) (w : world) :
  store_fails (length (requests w)) = true ->
  supa_exec q label w
  = (Val (None, true), with_store w (store w) (requests w ++ [(label, true)])).
Proof. intros H1; unfold supa_exec; rewrite H1; reflexivity. Qed.

Lemma supa_exec_rejected {A} (q : Db.query A) (label : str) (w : world) :
  Db.execute q (store w) = None ->
  supa_exec q label w
  = (Val (None, true), with_store w (store w) (requests w ++ [(label, true)])).
Proof.
  intros H1; unfold supa_exec; rewrite H1; destruct (store_fails _); reflexivity.
Qed.

(** A request either is applied to the store or fails and leaves it. *)
Lemma supa_exec_cases {A} (q : Db.query A) (label : str) (w : world) :
  (exists a d, Db.execute q (store w) = Some (a, d)
               /\ store_fails (length (requests w)) = false
               /\ supa_exec q label w
                  = (Val (Some a, false),
                     with_store w d (requests w ++ [(label, false)])))
  \/ supa_exec q label w
     = (Val (None, true), with_store w (store w) (requests w ++ [(label, true)])).
Proof.
  destruct (store_fails (length (requests w))) eqn:F.
  - right; apply supa_exec_failed, F.
  - destruct (Db.execute q (store w)) as [[a d]|] eqn:E.
    + left; exists a, d; auto using supa_exec_ok.
    + right; apply supa_exec_rejected, E.
Qed.

Lemma set_state_ok (uid : Z) (action : option str) (amt : option float) (w : world) :
  store_fails (length (requests w)) = false ->
  set_state uid action amt w
  = (Val tt,
     {| store := Db.with_state (store w)
                   (Db.upsert (state_row uid action amt (ticks w))
                      (Db.exp_bot_state (store w)));
        requests := requests w ++ [(lit "exp_bot_state.upsert", false)];
        ticks := S (ticks w);
        outbox := outbox w |}).
Proof.
  intros H; unfold set_state, now, bind, supa_exec, ret, with_store; cbn.
  rewrite H; reflexivity.
Qed.

Lemma set_state_failed (uid : Z) (action : option str) (amt : option float) (w : world) :
  store_fails (length (requests w)) = true ->
  set_state uid action amt w
  = (Val tt,
     {| store := store w;
        requests := requests w ++ [(lit "exp_bot_state.upsert", true)];
        ticks := S (ticks w);
        outbox := outbox w |}).
Proof.
  intros H; unfold set_state, now, bind, supa_exec, ret, with_store; cbn.
  rewrite H; reflexivity.
Qed.

(** ** The upsert *)

Lemma upsert_owned (r x : State.row) (st : list State.row) :
  In x (Db.upsert r st) -> Db.owns (State.user_id r) x = true -> x = r.
Proof.
  unfold Db.upsert. destruct (existsb _ st) eqn:Ex.
  - rewrite in_map_iff; intros (y & Hy & _) Hx.
    destruct (Db.owns (State.user_id r) y) eqn:E; congruence.
  - rewrite in_app_iff; intros [H|[H|[]]] Hx; [|auto].
    assert (existsb (Db.owns (State.user_id r)) st = true)
      by (apply existsb_exists; eauto).
    congruence.
Qed.

Lemma upsert_In (r : State.row) (st : list State.row) : In r (Db.upsert r st).
Proof.
  unfold Db.upsert. destruct (existsb _ st) eqn:Ex.
  - apply existsb_exists in Ex as (y & Hy & Ho).
    apply in_map_iff; exists y; rewrite Ho; auto.
  - apply in_app_iff; right; left; reflexivity.
Qed.

Lemma owns_self (r : State.row) : Db.owns (State.user_id r) r = true.
Proof. apply Z.eqb_refl. Qed.

(** The rows of the other users are not touched. *)
Lemma upsert_others (r : State.row) (st : list State.row) :
  filter (fun x => negb (Db.owns (State.user_id r) x)) (Db.upsert r st)
  = filter (fun x => negb (Db.owns (State.user_id r) x)) st.
Proof.
  unfold Db.upsert. destruct (existsb _ st).
  - induction st as [|y st IH]; simpl; [reflexivity|].
    destruct (Db.owns (State.user_id r) y) eqn:E; simpl.
    + rewrite owns_self; simpl; exact IH.
    + rewrite E; simpl; f_equal; exact IH.
  - rewrite filter_app; simpl. rewrite owns_self; simpl. apply app_nil_r.
Qed.

Lemma upsert_keys (r : State.row) (st : list State.row) :
  existsb (Db.owns (State.user_id r)) st = true ->
  map State.user_id (map (fun x => if Db.owns (State.user_id r) x then r else x) st)
  = map State.user_id st.
Proof.
  intros _. rewrite map_map; apply map_ext; intros x.
  destruct (Db.owns (State.user_id r) x) eqn:E; [|reflexivity].
  apply Z.eqb_eq in E; auto.
Qed.

Lemma upsert_one_row_per_user (r : State.row) (st : list State.row) :
  one_row_per_user st -> one_row_per_user (Db.upsert r st).
Proof.
  unfold one_row_per_user, Db.upsert; intros H.
  destruct (existsb _ st) eqn:Ex.
  - rewrite upsert_keys; auto.
  - rewrite map_app; simpl.
    apply NoDup_app; [exact H | repeat constructor; intros [] |].
    intros a Ha [<-|[]].
    apply in_map_iff in Ha as (y & Hy & Hin).
    assert (existsb (Db.owns (State.user_id r)) st = true); [|congruence].
    apply existsb_exists; exists y; split; [exact Hin|].
    apply Z.eqb_eq; exact Hy.
Qed.

Lemma filter_owner_unique (uid : Z) (st : list State.row) (r : State.row) :
  one_row_per_user st -> In r st -> Db.owns uid r = true ->
  filter (Db.owns uid) st = [r].
Proof.
  unfold one_row_per_user.
  induction st as [|x st IH]; simpl; [easy|].
  intros Hnd Hin Ho. inversion Hnd as [|? ? Hx Hnd']; subst.
  assert (Hnone : forall l, ~ In uid (map State.user_id l) -> filter (Db.owns uid) l = []).
  { induction l as [|y l IHl]; simpl; [reflexivity|]. intros Hn.
    destruct (Db.owns uid y) eqn:E.
    - apply Z.eqb_eq in E; tauto.
    - apply IHl; tauto. }
  destruct Hin as [->|Hin].
  - rewrite Ho. f_equal. apply Hnone. apply Z.eqb_eq in Ho; congruence.
  - destruct (Db.owns uid x) eqn:E.
    + exfalso; apply Hx. apply Z.eqb_eq in E, Ho.
      apply in_map_iff; exists r; split; [congruence | exact Hin].
    + apply IH; auto.
Qed.

(** After a successful upsert the user has exactly the row written. *)
Lemma upsert_exactly_one (r : State.row) (st : list State.row) :
  one_row_per_user st ->
  filter (Db.owns (State.user_id r)) (Db.upsert r st) = [r].
Proof.
  intros H; apply filter_owner_unique.
  - apply upsert_one_row_per_user, H.
  - apply upsert_In.
  - apply owns_self.
Qed.

(** ** Authorization *)

(** C5: for a sender that is not on the allow-list the handler answers with
    the denial message and does nothing else: the store and the log of
    requests are the ones before, whatever they were; [ensure_user] on its
    own issues no request for such a sender either, and [/start] is
    answered the same way. *)
Theorem C5_denied_without_store_access (m : message) (w : world) :
  is_allowed (from_user_id m) = false ->
  handle_text m w = (Val tt, and_sent w (reply m msg_denied))
  /\ store (exec (handle_text m) w) = store w
  /\ requests (exec (handle_text m) w) = requests w
  /\ ensure_user (from_user_id m) (chat_id m) w = (Val None, w)
  /\ cmd_start m w = (Val tt, and_sent w (reply m msg_denied)).
Proof.
  intros H.
  unfold handle_text, cmd_start, ensure_user, exec; rewrite H; simpl.
  repeat split.
Qed.

(** ** The fixed command "Add expense" *)

(** C3: whatever the pending action of the user is, a message whose text is
    "Add expense" is answered by the amount prompt after one upsert of
    [exp_bot_state] and no read of it: the row of the user becomes
    [await_amount] with no staged amount, the rows of the other users stay,
    and [exp_expenses] is not touched. *)
Theorem C3_add_expense_takes_precedence (m : message) (w w1 : world) (uid : Z) :
  ensure_user (from_user_id m) (chat_id m) w = (Val (Some uid), w1) ->
  uid <> 0%Z ->
  Str.strip (text m) = ADD_EXPENSE ->
  store_fails (length (requests w1)) = false ->
  let w' := exec (handle_text m) w in
  let row := state_row uid (Some AWAIT_AMOUNT) None (ticks w) in
  eval (handle_text m) w = Val tt
  /\ Db.exp_bot_state (store w') = Db.upsert row (Db.exp_bot_state (store w))
  /\ In row (Db.exp_bot_state (store w'))
  /\ (forall r, In r (Db.exp_bot_state (store w')) -> Db.owns uid r = true ->
                State.pending_action r = Some AWAIT_AMOUNT
                /\ State.temp_amount r = None)
  /\ filter (fun r => negb (Db.owns uid r)) (Db.exp_bot_state (store w'))
     = filter (fun r => negb (Db.owns uid r)) (Db.exp_bot_state (store w))
  /\ Db.exp_expenses (store w') = Db.exp_expenses (store w)
  /\ outbox w' = outbox w ++ [sent (chat_id m) msg_send_amount false]
  /\ requests w' = requests w1 ++ [(lit "exp_bot_state.upsert", false)].
Proof.
  intros He Hu Ht Hok w' row.
  destruct (ensure_user_frame _ _ _ _ _ He) as ((F1 & F2 & F3) & F4 & F5 & _).
  assert (E : handle_text m w
              = (Val tt,
                 and_sent
                   {| store := Db.with_state (store w1)
                                 (Db.upsert (state_row uid (Some AWAIT_AMOUNT) None (ticks w1))
                                    (Db.exp_bot_state (store w1)));
                      requests := requests w1 ++ [(lit "exp_bot_state.upsert", false)];
                      ticks := S (ticks w1);
                      outbox := outbox w1 |}
                   (sent (chat_id m) msg_send_amount false))).
  { rewrite (handle_text_resolved _ _ _ _ He Hu). unfold handle_command.
    rewrite Ht, str_eqb_refl.
    rewrite (bind_val _ _ _ _ _ (set_state_ok uid _ _ w1 Hok)). reflexivity. }
  subst w'; unfold exec, eval; rewrite E; simpl.
  rewrite F1, F2, F4, F5. fold row.
  repeat split.
  - apply upsert_In.
  - apply (upsert_owned row) in H; [subst r; reflexivity | exact H0].
  - apply (upsert_owned row) in H; [subst r; reflexivity | exact H0].
  - apply (upsert_others row).
Qed.

(** ** The state store adapter *)

Lemma upsert_length_present (r : State.row) (st : list State.row) :
  In r st -> length (Db.upsert r st) = length st.
Proof.
  intros H; unfold Db.upsert.
  assert (E : existsb (Db.owns (State.user_id r)) st = true).
  { apply existsb_exists; exists r; split; [exact H | apply owns_self]. }
  rewrite E; apply length_map.
Qed.

(** Two upserts for one user in a row: the table holds exactly one row of
    the user, the second one, and nothing of the first. *)
Lemma upsert_twice (r1 r2 : State.row) (st : list State.row) :
  State.user_id r1 = State.user_id r2 ->
  one_row_per_user st ->
  filter (Db.owns (State.user_id r2)) (Db.upsert r2 (Db.upsert r1 st)) = [r2]
  /\ length (Db.upsert r2 (Db.upsert r1 st)) = length (Db.upsert r1 st)
  /\ filter (fun r => negb (Db.owns (State.user_id r2) r)) (Db.upsert r2 (Db.upsert r1 st))
     = filter (fun r => negb (Db.owns (State.user_id r2) r)) st
  /\ one_row_per_user (Db.upsert r2 (Db.upsert r1 st)).
Proof.
  intros Hu Hk.
  assert (K1 : one_row_per_user (Db.upsert r1 st))
    by apply upsert_one_row_per_user, Hk.
  repeat split.
  - apply upsert_exactly_one, K1.
  - unfold Db.upsert at 1.
    assert (E : existsb (Db.owns (State.user_id r2)) (Db.upsert r1 st) = true).
    { apply existsb_exists; exists r1; split; [apply upsert_In|].
      rewrite <- Hu; apply owns_self. }
    rewrite E; apply length_map.
  - rewrite (upsert_others r2), <- Hu. apply (upsert_others r1).
  - apply upsert_one_row_per_user, K1.
Qed.

(** C9: on a table with one row per user, two calls of [set_state] with
    the same arguments, both applied by the store, leave exactly one row
    for the user, the one of the second call; the second call adds no row
    and the rows of the other users are the ones before. *)
Theorem C9_set_state_idempotent
    (uid : Z) (action : option str) (amt : option float) (w : world) :
  one_row_per_user (Db.exp_bot_state (store w)) ->
  store_fails (length (requests w)) = false ->
  store_fails (S (length (requests w))) = false ->
  let w1 := exec (set_state uid action amt) w in
  let w2 := exec (set_state uid action amt) w1 in
  filter (Db.owns uid) (Db.exp_bot_state (store w1))
  = [state_row uid action amt (ticks w)]
  /\ filter (Db.owns uid) (Db.exp_bot_state (store w2))
     = [state_row uid action amt (S (ticks w))]
  /\ length (Db.exp_bot_state (store w2)) = length (Db.exp_bot_state (store w1))
  /\ filter (fun r => negb (Db.owns uid r)) (Db.exp_bot_state (store w2))
     = filter (fun r => negb (Db.owns uid r)) (Db.exp_bot_state (store w))
  /\ one_row_per_user (Db.exp_bot_state (store w2)).
Proof.
  intros Hk H1 H2 w1 w2.
  (* the first call *)
  assert (E1 : w1 = snd (set_state uid action amt w)) by reflexivity.
  rewrite (set_state_ok uid action amt w H1) in E1; simpl in E1.
  assert (H2' : store_fails (length (requests w1)) = false).
  { rewrite E1; simpl. rewrite length_app, Nat.add_1_r; exact H2. }
  (* the second call *)
  assert (E2 : w2 = snd (set_state uid action amt w1)) by reflexivity.
  rewrite (set_state_ok uid action amt w1 H2') in E2; simpl in E2.
  assert (T : ticks w1 = S (ticks w)) by (rewrite E1; reflexivity).
  rewrite T in E2.
  set (r1 := state_row uid action amt (ticks w)) in *.
  set (r2 := state_row uid action amt (S (ticks w))) in *.
  assert (S1 : Db.exp_bot_state (store w1) = Db.upsert r1 (Db.exp_bot_state (store w)))
    by (rewrite E1; reflexivity).
  assert (S2 : Db.exp_bot_state (store w2) = Db.upsert r2 (Db.exp_bot_state (store w1)))
    by (rewrite E2; reflexivity).
  destruct (upsert_twice r1 r2 (Db.exp_bot_state (store w)) eq_refl Hk)
    as (U1 & U2 & U3 & U4).
  rewrite S2, S1. repeat split; try assumption.
  apply (upsert_exactly_one r1), Hk.
Qed.

(** ** The state machine: the title *)

Lemma length_snoc {A} (l : list A) (x : A) : length (l ++ [x]) = S (length l).
Proof. apply last_length. Qed.

Lemma get_state_ok (uid : Z) (w : world) (r : option State.row) :
  store_fails (length (requests w)) = false ->
  Db.maybe_single (filter (Db.owns uid) (Db.exp_bot_state (store w))) = Some r ->
  get_state uid w
  = (Val r, with_store w (store w) (requests w ++ [(lit "exp_bot_state.select", false)])).
Proof.
  intros H1 H2; unfold get_state, bind, supa_exec, ret; cbn.
  rewrite H1, H2; destruct r; reflexivity.
Qed.

Lemma get_state_failed (uid : Z) (w : world) :
  store_fails (length (requests w)) = true
  \/ Db.maybe_single (filter (Db.owns uid) (Db.exp_bot_state (store w))) = None ->
  get_state uid w
  = (Val None, with_store w (store w) (requests w ++ [(lit "exp_bot_state.select", true)])).
Proof.
  intros H; unfold get_state, bind, supa_exec, ret; cbn.
  destruct (store_fails _); [reflexivity|].
  destruct H as [H|H]; [discriminate | rewrite H; reflexivity].
Qed.

(** The run of the title step when the state is read and the insert is
    applied; the delete is applied or not. *)
Lemma await_title_run (chat uid : Z) (text : str) (w : world) (st : State.row) (amt : float) :
  store_fails (length (requests w)) = false ->
  filter (Db.owns uid) (Db.exp_bot_state (store w)) = [st] ->
  State.pending_action st = Some AWAIT_TITLE ->
  State.temp_amount st = Some amt ->
  title_of text <> [] ->
  store_fails (S (length (requests w))) = false ->
  let cleared := store_fails (S (S (length (requests w)))) in
  let d1 := Db.with_expenses (store w)
              (Db.exp_expenses (store w)
                 ++ [expense_row uid amt (title_of text) (ticks w)]) in
  state_machine chat uid text w
  = (Val tt,
     {| store := if cleared then d1
                 else Db.with_state d1
                        (filter (fun r => negb (Db.owns uid r)) (Db.exp_bot_state (store w)));
        requests := requests w ++ [(lit "exp_bot_state.select", false)]
                      ++ [(lit "exp_expenses.insert", false)]
                      ++ [(lit "exp_bot_state.delete", cleared)];
        ticks := S (ticks w);
        outbox := outbox w
                    ++ [sent chat (msg_saved amt (title_of text)) true] |}).
Proof.
  intros H1 Hst Hpa Hamt Ht H2 cleared d1.
  unfold state_machine.
  rewrite (bind_val _ _ _ _ _ (get_state_ok uid w (Some st) H1 ltac:(rewrite Hst; reflexivity))).
  cbv beta iota. rewrite Hpa, Hamt.
  change (Str.eqb AWAIT_TITLE AWAIT_AMOUNT) with false.
  change (Str.eqb AWAIT_TITLE AWAIT_TITLE) with true.
  cbv iota. fold (title_of text).
  destruct (title_of text) as [|c t] eqn:Et; [congruence|].
  unfold clear_state, bind, now, supa_exec, ret, send_message, with_store; cbn.
  rewrite !length_snoc, H2. cbn. rewrite !length_snoc.
  fold cleared. destruct cleared; cbn; rewrite <- !app_assoc; reflexivity.
Qed.

Lemma title_of_strip (t : str) :
  title_of (Str.strip t) = Str.join (lit " ") (Str.split t).
Proof.
  unfold title_of. rewrite split_strip. apply strip_join_words, split_words.
Qed.

Lemma title_empty_iff (t : str) :
  Str.join (lit " ") (Str.split t) = [] <-> blank t.
Proof. rewrite (join_nil_iff _ _ (split_words t)). apply split_nil_iff. Qed.

Example title_grocery :
  title_of (Str.strip (lit "  Grocery   Shopping  ")) = lit "Grocery Shopping".
Proof. vm_compute; reflexivity. Qed.

Example title_blank : title_of (Str.strip (lit "   ")) = [].
Proof. vm_compute; reflexivity. Qed.

(** The run of the title step on a text without a word. *)
Lemma await_title_empty (chat uid : Z) (text : str) (w : world) (st : State.row) :
  store_fails (length (requests w)) = false ->
  filter (Db.owns uid) (Db.exp_bot_state (store w)) = [st] ->
  State.pending_action st = Some AWAIT_TITLE ->
  title_of text = [] ->
  state_machine chat uid text w
  = (Val tt,
     and_sent (with_store w (store w)
                 (requests w ++ [(lit "exp_bot_state.select", false)]))
              (sent chat msg_title_empty false)).
Proof.
  intros H1 Hst Hpa Ht.
  unfold state_machine.
  rewrite (bind_val _ _ _ _ _ (get_state_ok uid w (Some st) H1 ltac:(rewrite Hst; reflexivity))).
  cbv beta iota. rewrite Hpa.
  change (Str.eqb AWAIT_TITLE AWAIT_AMOUNT) with false.
  change (Str.eqb AWAIT_TITLE AWAIT_TITLE) with true.
  cbv iota. fold (title_of text). rewrite Ht. reflexivity.
Qed.

Lemma handle_command_free_text (chat uid : Z) (text : str) (w : world) :
  text <> ADD_EXPENSE -> text <> SEE_EXPENSES -> text <> SEE_LAST_MONTH ->
  handle_command chat uid text w = state_machine chat uid text w.
Proof.
  intros H1 H2 H3; unfold handle_command.
  apply str_eqb_neq in H1, H2, H3. rewrite H1, H2, H3; reflexivity.
Qed.

Lemma filter_owner_removed (uid : Z) (st : list State.row) :
  filter (Db.owns uid) (filter (fun r => negb (Db.owns uid r)) st) = [].
Proof.
  induction st as [|r st IH]; simpl; [reflexivity|].
  destruct (Db.owns uid r) eqn:E; simpl; [|rewrite E]; exact IH.
Qed.

(** C4: in state [await_title], for a text that is not one of the fixed
    commands: the title is the words of the text joined by single spaces;
    if there is a word and the store applies the insert and the delete,
    exactly one expense, with the staged amount and that title, is added,
    the confirmation is sent and the user has no pending action left; if
    the text is only whitespace, the answer is the empty-title prompt and
    the store stays as it was. *)
Theorem C4_title_step (m : message) (w w1 : world) (uid : Z) (st : State.row) (amt : float) :
  ensure_user (from_user_id m) (chat_id m) w = (Val (Some uid), w1) ->
  uid <> 0%Z ->
  Str.strip (text m) <> ADD_EXPENSE ->
  Str.strip (text m) <> SEE_EXPENSES ->
  Str.strip (text m) <> SEE_LAST_MONTH ->
  store_fails (length (requests w1)) = false ->
  filter (Db.owns uid) (Db.exp_bot_state (store w)) = [st] ->
  State.pending_action st = Some AWAIT_TITLE ->
  State.temp_amount st = Some amt ->
  let words := Str.split (text m) in
  let title := Str.join (lit " ") words in
  let w' := exec (handle_text m) w in
  title_of (Str.strip (text m)) = title
  /\ Forall word words
  /\ (title = [] <-> blank (text m))
  /\ (title <> [] ->
      store_fails (S (length (requests w1))) = false ->
      store_fails (S (S (length (requests w1)))) = false ->
      eval (handle_text m) w = Val tt
      /\ Db.exp_expenses (store w')
         = Db.exp_expenses (store w) ++ [expense_row uid amt title (ticks w)]
      /\ outbox w' = outbox w ++ [sent (chat_id m) (msg_saved amt title) true]
      /\ Db.exp_bot_state (store w')
         = filter (fun r => negb (Db.owns uid r)) (Db.exp_bot_state (store w))
      /\ filter (Db.owns uid) (Db.exp_bot_state (store w')) = [])
  /\ (blank (text m) ->
      eval (handle_text m) w = Val tt
      /\ store w' = store w1
      /\ Db.exp_bot_state (store w') = Db.exp_bot_state (store w)
      /\ Db.exp_expenses (store w') = Db.exp_expenses (store w)
      /\ outbox w' = outbox w ++ [sent (chat_id m) msg_title_empty false]).
Proof.
  intros He Hu N1 N2 N3 H1 Hst Hpa Hamt words title w'.
  destruct (ensure_user_frame _ _ _ _ _ He) as ((F1 & F2 & F3) & F4 & F5 & _).
  pose proof (title_of_strip (text m)) as Ht. fold words in Ht; fold title in Ht.
  assert (E : handle_text m w = state_machine (chat_id m) uid (Str.strip (text m)) w1).
  { rewrite (handle_text_resolved _ _ _ _ He Hu).
    apply handle_command_free_text; assumption. }
  rewrite <- F1 in Hst.
  split; [exact Ht|]. split; [apply split_words|].
  split; [apply title_empty_iff|]. split.
  - intros Hne H2 H3.
    rewrite <- Ht in Hne.
    pose proof (await_title_run (chat_id m) uid (Str.strip (text m)) w1 st amt
                  H1 Hst Hpa Hamt Hne H2) as R.
    cbv zeta in R. rewrite H3, Ht in R.
    subst w'; unfold exec, eval; rewrite E, R; simpl.
    rewrite F1, F2, F4, F5. repeat split.
    apply filter_owner_removed.
  - intros Hb. apply title_empty_iff in Hb. fold words in Hb; fold title in Hb.
    rewrite <- Ht in Hb.
    pose proof (await_title_empty (chat_id m) uid (Str.strip (text m)) w1 st
                  H1 Hst Hpa Hb) as R.
    subst w'; unfold exec, eval; rewrite E, R; simpl.
    rewrite F1, F2, F4. repeat split.
Qed.

(** C6: in state [await_title], when the insert of the expense is applied
    and the delete of the pending action then fails, the user still gets
    the confirmation, which contains the staged amount with two places and
    the title: the text is [Saved], the check mark, the amount written as
    its nearest hundredths, a dash and the title in quotes; the expense is
    stored and the pending action stays as it was. *)
Theorem C6_cleanup_is_best_effort
    (m : message) (w w1 : world) (uid : Z) (st : State.row) (amt : float) :
  ensure_user (from_user_id m) (chat_id m) w = (Val (Some uid), w1) ->
  uid <> 0%Z ->
  Str.strip (text m) <> ADD_EXPENSE ->
  Str.strip (text m) <> SEE_EXPENSES ->
  Str.strip (text m) <> SEE_LAST_MONTH ->
  store_fails (length (requests w1)) = false ->
  filter (Db.owns uid) (Db.exp_bot_state (store w)) = [st] ->
  State.pending_action st = Some AWAIT_TITLE ->
  State.temp_amount st = Some amt ->
  let title := Str.join (lit " ") (Str.split (text m)) in
  title <> [] ->
  store_fails (S (length (requests w1))) = false ->
  store_fails (S (S (length (requests w1)))) = true ->
  let w' := exec (handle_text m) w in
  eval (handle_text m) w = Val tt
  /\ outbox w' = outbox w ++ [sent (chat_id m) (msg_saved amt title) true]
  /\ (exists pre mid post,
        msg_saved amt title = pre ++ Float.format_2f amt ++ mid ++ title ++ post)
  /\ Db.exp_expenses (store w')
     = Db.exp_expenses (store w) ++ [expense_row uid amt title (ticks w)]
  /\ Db.exp_bot_state (store w') = Db.exp_bot_state (store w)
  /\ requests w'
     = requests w1 ++ [(lit "exp_bot_state.select", false);
                       (lit "exp_expenses.insert", false);
                       (lit "exp_bot_state.delete", true)]
  /\ (exists digits,
        two_place_text amt digits
        /\ outbox w' = outbox w ++ [sent (chat_id m) (saved_text digits title) true]).
Proof.
  intros He Hu N1 N2 N3 H1 Hst Hpa Hamt title Hne H2 H3 w'.
  destruct (ensure_user_frame _ _ _ _ _ He) as ((F1 & F2 & F3) & F4 & F5 & _).
  pose proof (title_of_strip (text m)) as Ht. fold title in Ht.
  assert (E : handle_text m w = state_machine (chat_id m) uid (Str.strip (text m)) w1).
  { rewrite (handle_text_resolved _ _ _ _ He Hu).
    apply handle_command_free_text; assumption. }
  rewrite <- F1 in Hst. rewrite <- Ht in Hne.
  pose proof (await_title_run (chat_id m) uid (Str.strip (text m)) w1 st amt
                H1 Hst Hpa Hamt Hne H2) as R.
  cbv zeta in R. rewrite H3, Ht in R.
  subst w'; unfold exec, eval; rewrite E, R; simpl.
  rewrite F1, F2, F4, F5. repeat split.
  - unfold msg_saved.
    exists (lit "Saved " ++ [9989%N] ++ lit " "),
           (lit " " ++ [8212%N] ++ lit " " ++ [34%N]), [34%N].
    rewrite <- !app_assoc; reflexivity.
  - exists (Float.format_2f amt). split; [apply format_2f_spec|].
    unfold msg_saved, saved_text. reflexivity.
Qed.

(** ** The report of the previous month *)

Lemma last_month_key (t : Time.datetime) :
  Time.valid t = true ->
  (1 < Time.year t \/ 1 < Time.month t)%Z ->
  exists d,
    Time.first_of_month
      (if negb (Time.month t =? 1)%Z then Time.year t else (Time.year t - 1)%Z)
      (if (Time.month t - 1 =? 0)%Z then 12%Z else (Time.month t - 1)%Z) = Some d
    /\ Time.date_of d = prev_month_start t.
Proof.
  unfold Time.valid, prev_month_start, Time.first_of_month; intros Hv Hy.
  rewrite !andb_true_iff, !Z.leb_le in Hv.
  destruct (Time.month t =? 1)%Z eqn:E1; simpl negb; cbv iota.
  - apply Z.eqb_eq in E1. rewrite E1; simpl.
    assert (H : ((1 <=? Time.year t - 1) && (Time.year t - 1 <=? 9999))%Z = true).
    { rewrite andb_true_iff, !Z.leb_le; lia. }
    rewrite H; simpl. eexists; split; reflexivity.
  - apply Z.eqb_neq in E1.
    assert (E0 : (Time.month t - 1 =? 0)%Z = false) by (apply Z.eqb_neq; lia).
    rewrite E0.
    assert (H : ((1 <=? Time.year t) && (Time.year t <=? 9999)
                 && (1 <=? Time.month t - 1) && (Time.month t - 1 <=? 12))%Z = true).
    { rewrite !andb_true_iff, !Z.leb_le; lia. }
    rewrite H. eexists; split; reflexivity.
Qed.

(** The run of the branch for "See last month". *)
Lemma see_last_month_run (chat uid : Z) (w : world) :
  Time.valid (clock (ticks w)) = true ->
  (1 < Time.year (clock (ticks w)) \/ 1 < Time.month (clock (ticks w)))%Z ->
  let key := prev_month_start (clock (ticks w)) in
  let failed :=
    store_fails (length (requests w))
    || match Db.maybe_single (totals_for uid key (store w)) with
       | None => true
       | Some _ => false
       end in
  see_last_month chat uid w
  = (Val tt,
     {| store := store w;
        requests := requests w ++ [(lit "exp_monthly_totals.get_last", failed)];
        ticks := S (ticks w);
        outbox := outbox w
                    ++ [sent chat
                          (msg_last_month (Time.date_isoformat key)
                             (reported_total (store_fails (length (requests w)))
                                (totals_for uid key (store w))))
                          true] |}).
Proof.
  intros Hv Hy key failed.
  destruct (last_month_key _ Hv Hy) as (d & Hd & Hk).
  unfold see_last_month, now. unfold bind at 1. cbv beta iota.
  rewrite Hd, Hk. fold key.
  unfold bind, supa_exec, send_message, with_store, reported_total; cbn.
  subst failed. fold (totals_for uid key (store w)).
  destruct (store_fails (length (requests w))); [reflexivity|]. cbn.
  destruct (totals_for uid key (store w)) as [|r [|r' rows]]; cbn; reflexivity.
Qed.

Lemma pad_length (w : nat) (bound : nat) (n : Z) :
  forallb (fun k => Nat.eqb (length (Time.pad w (Z.of_nat k))) w) (seq 0 bound) = true ->
  (0 <= n < Z.of_nat bound)%Z ->
  length (Time.pad w n) = w.
Proof.
  intros F H. rewrite forallb_forall in F.
  specialize (F (Z.to_nat n)). rewrite Z2Nat.id in F by lia.
  apply Nat.eqb_eq, F, in_seq. lia.
Qed.

(** The first seven characters of the ISO date of a month start are the
    year and the month. *)
Lemma year_month_slice (y mo d : Z) :
  (1 <= y <= 9999)%Z -> (1 <= mo <= 12)%Z ->
  Str.slice 0 7 (Time.date_isoformat (y, mo, d))
  = Time.pad 4 y ++ lit "-" ++ Time.pad 2 mo.
Proof.
  intros Hy Hm.
  assert (L4 : length (Time.pad 4 y) = 4).
  { apply (pad_length 4 (Z.to_nat 10000)); [vm_compute; reflexivity | lia]. }
  assert (L2 : length (Time.pad 2 mo) = 2).
  { apply (pad_length 2 (Z.to_nat 13)); [vm_compute; reflexivity | lia]. }
  unfold Str.slice, Time.date_isoformat. cbn [skipn Nat.sub].
  replace (Time.pad 4 y ++ lit "-" ++ Time.pad 2 mo ++ lit "-" ++ Time.pad 2 d)
    with ((Time.pad 4 y ++ lit "-" ++ Time.pad 2 mo) ++ (lit "-" ++ Time.pad 2 d))
    by (rewrite <- !app_assoc; reflexivity).
  replace 7 with (length (Time.pad 4 y ++ lit "-" ++ Time.pad 2 mo) + 0).
  - rewrite firstn_app_2. cbn [firstn]. apply app_nil_r.
  - rewrite !length_app, L4, L2. reflexivity.
Qed.

(** The text of the report of the last month, spelled out. *)
Lemma last_month_body (t : Time.datetime) (total : float) :
  Time.valid t = true ->
  (1 < Time.year t \/ 1 < Time.month t)%Z ->
  msg_last_month (Time.date_isoformat (prev_month_start t)) total
  = last_month_text (prev_month_start t) (Float.format_2f total).
Proof.
  unfold Time.valid; intros Hv Hy.
  rewrite !andb_true_iff, !Z.leb_le in Hv.
  unfold msg_last_month, last_month_text, prev_month_start.
  destruct (Z.eqb_spec (Time.month t) 1) as [E|E]; cbn [fst snd];
    rewrite year_month_slice by lia; rewrite <- !app_assoc; reflexivity.
Qed.

(** C8: "See last month" reads [exp_monthly_totals] once, at the first day
    of the calendar month before now (December of the year before in
    January); it shows the total of the row, and zero when there is no row;
    it sends one message with the total and no listing, and writes
    nothing.  The message is "Your expenses for", the year and the month of
    that month start, a colon and the total written as its nearest
    hundredths, [0.00] when there is no row. *)
Theorem C8_see_last_month (m : message) (w w1 : world) (uid : Z) :
  ensure_user (from_user_id m) (chat_id m) w = (Val (Some uid), w1) ->
  uid <> 0%Z ->
  Str.strip (text m) = SEE_LAST_MONTH ->
  let t := clock (ticks w) in
  Time.valid t = true ->
  (1 < Time.year t \/ 1 < Time.month t)%Z ->
  let key := prev_month_start t in
  let rows := totals_for uid key (store w) in
  let total := reported_total (store_fails (length (requests w1))) rows in
  let w' := exec (handle_text m) w in
  eval (handle_text m) w = Val tt
  /\ outbox w' = outbox w
                   ++ [sent (chat_id m) (msg_last_month (Time.date_isoformat key) total) true]
  /\ (rows = [] -> total = Float.zero)
  /\ (forall r x, rows = [r] -> Total.total r = Some x ->
                  store_fails (length (requests w1)) = false -> total = x)
  /\ (Time.month t = 1%Z -> key = (Time.year t - 1, 12, 1)%Z)
  /\ (Time.month t <> 1%Z -> key = (Time.year t, Time.month t - 1, 1)%Z)
  /\ store w' = store w1
  /\ Db.exp_bot_state (store w') = Db.exp_bot_state (store w)
  /\ (exists failed,
        requests w' = requests w1 ++ [(lit "exp_monthly_totals.get_last", failed)])
  /\ (exists digits,
        two_place_text total digits
        /\ outbox w' = outbox w ++ [sent (chat_id m) (last_month_text key digits) true])
  /\ (rows = [] ->
      outbox w' = outbox w ++ [sent (chat_id m) (last_month_text key (lit "0.00")) true]).
Proof.
  intros He Hu Ht t Hv Hy key rows total w'.
  destruct (ensure_user_frame _ _ _ _ _ He) as ((F1 & F2 & F3) & F4 & F5 & _).
  assert (E : handle_text m w = see_last_month (chat_id m) uid w1).
  { rewrite (handle_text_resolved _ _ _ _ He Hu). unfold handle_command.
    rewrite Ht. reflexivity. }
  subst t. rewrite <- F5 in Hv, Hy.
  pose proof (see_last_month_run (chat_id m) uid w1 Hv Hy) as R.
  cbv zeta in R.
  subst w'; unfold exec, eval; rewrite E, R; simpl.
  subst total rows key. unfold totals_for. rewrite F3, F4, F5, F1.
  repeat split.
  - intros H0. unfold totals_for in H0. unfold reported_total; rewrite H0.
    destruct (store_fails _); reflexivity.
  - intros r x H0 Hx Hok. unfold reported_total; rewrite Hok, H0, Hx; reflexivity.
  - intros H0. unfold prev_month_start. rewrite H0; reflexivity.
  - intros H0. unfold prev_month_start. apply Z.eqb_neq in H0; rewrite H0; reflexivity.
  - eexists; reflexivity.
  - rewrite F5 in Hv, Hy. eexists. split; [apply format_2f_spec|].
    rewrite (last_month_body _ _ Hv Hy). reflexivity.
  - rewrite F5 in Hv, Hy. intros H0. unfold totals_for in H0.
    rewrite (last_month_body _ _ Hv Hy). unfold reported_total; rewrite H0.
    destruct (store_fails _); reflexivity.
Qed.

(** ** The month-to-date report *)

Lemma lex_leb_total (a b : list Z) :
  Time.lex_leb a b = false -> Time.lex_leb b a = true.
Proof.
  revert b; induction a as [|x a IH]; destruct b as [|y b]; simpl; try discriminate.
  rewrite orb_false_iff, andb_false_iff, orb_true_iff, andb_true_iff.
  rewrite Z.ltb_ge, Z.ltb_lt, !Z.eqb_neq, Z.eqb_eq.
  intros [H1 [H2|H2]]; [left; lia|].
  destruct (Z.eq_dec x y); [right; split; auto | left; lia].
Qed.

Lemma lex_leb_trans (a b c : list Z) :
  length a = length b -> length b = length c ->
  Time.lex_leb a b = true -> Time.lex_leb b c = true -> Time.lex_leb a c = true.
Proof.
  revert b c; induction a as [|x a IH]; destruct b as [|y b], c as [|z c];
    simpl; try discriminate; auto.
  intros [= L1] [= L2].
  rewrite !orb_true_iff, !andb_true_iff, !Z.ltb_lt, !Z.eqb_eq.
  intros [H1|[H1 H1']] [H2|[H2 H2']]; try (left; lia).
  right; split; [lia | eapply IH; eauto].
Qed.

Lemma leb_total (a b : Time.datetime) :
  Time.leb a b = false -> Time.leb b a = true.
Proof. apply lex_leb_total. Qed.

Lemma leb_trans (a b c : Time.datetime) :
  Time.leb a b = true -> Time.leb b c = true -> Time.leb a c = true.
Proof. apply lex_leb_trans; reflexivity. Qed.

Lemma insert_desc_perm (r : Expense.row) (l : list Expense.row) :
  Permutation (Db.insert_desc r l) (r :: l).
Proof.
  induction l as [|x l IH]; simpl; [reflexivity|].
  destruct (Time.leb _ _); [reflexivity|].
  rewrite IH; apply perm_swap.
Qed.

Lemma order_desc_perm (l : list Expense.row) : Permutation (Db.order_desc l) l.
Proof.
  induction l as [|x l IH]; simpl; [reflexivity|].
  rewrite insert_desc_perm; constructor; exact IH.
Qed.

Lemma insert_desc_sorted (r : Expense.row) (l : list Expense.row) :
  StronglySorted not_older l -> StronglySorted not_older (Db.insert_desc r l).
Proof.
  induction 1 as [|x l Hs IH Hx]; simpl.
  - repeat constructor.
  - destruct (Time.leb (Expense.created_at x) (Expense.created_at r)) eqn:E.
    + constructor; [constructor; assumption|].
      constructor; [exact E|].
      eapply Forall_impl; [|exact Hx].
      intros y Hy; unfold not_older in *; eapply leb_trans; eauto.
    + constructor; [exact IH|].
      apply (Permutation_Forall (x := r :: l)).
      * symmetry; apply insert_desc_perm.
      * constructor; [apply leb_total, E | exact Hx].
Qed.

Lemma order_desc_sorted (l : list Expense.row) :
  StronglySorted not_older (Db.order_desc l).
Proof.
  induction l as [|x l IH]; simpl; [constructor | apply insert_desc_sorted, IH].
Qed.

(** In a list sorted from recent to old, a row among the first [n] is not
    older than one after them. *)
Lemma sorted_firstn_recent (n : nat) (l : list Expense.row) (a b : Expense.row) :
  StronglySorted not_older l ->
  In a (firstn n l) -> In b (skipn n l) -> not_older a b.
Proof.
  intros H; revert n; induction H as [|x l Hs IH Hx]; intros n.
  - rewrite firstn_nil; intros [].
  - destruct n as [|n]; simpl; [intros []|].
    intros [<-|Ha] Hb.
    + rewrite Forall_forall in Hx; apply Hx.
      rewrite <- (firstn_skipn n l); apply in_or_app; right; exact Hb.
    + eapply IH; eauto.
Qed.

Lemma expenses_since_window (uid : Z) (t : Time.datetime) (d : Db.t) :
  none_after t d ->
  Db.expenses_since uid (month_start t) d = month_to_date uid t d.
Proof.
  unfold none_after, Db.expenses_since, month_to_date, in_window.
  rewrite Forall_forall; intros H.
  apply filter_ext_in; intros r Hr. rewrite (H r Hr), andb_true_r; reflexivity.
Qed.

(** The run of the branch for "See expenses". *)
Lemma see_expenses_run (chat uid : Z) (w : world) :
  Time.valid (clock (ticks w)) = true ->
  let first := month_start (clock (ticks w)) in
  let n := length (requests w) in
  let rows := Db.expenses_since uid first (store w) in
  see_expenses chat uid w
  = (Val tt,
     {| store := store w;
        requests := requests w
                      ++ [(lit "exp_expenses.list_this_month", store_fails n);
                          (lit "exp_expenses.amounts_this_month", store_fails (S n))];
        ticks := S (ticks w);
        outbox := outbox w
                    ++ [sent chat
                          (report_text
                             (Float.sum (if store_fails (S n) then []
                                         else map Expense.amount rows))
                             (if store_fails n then []
                              else firstn 10 (Db.order_desc rows)))
                          true] |}).
Proof.
  intros Hv first n rows.
  unfold see_expenses, now. unfold bind at 1. cbv beta iota.
  unfold Time.first_of_month. unfold Time.valid in Hv. rewrite Hv.
  fold (month_start (clock (ticks w))). fold first.
  unfold bind, supa_exec, send_message, with_store; cbn.
  fold n. destruct (store_fails n); cbn; rewrite length_snoc; fold n;
    destruct (store_fails (S n)); cbn; rewrite <- app_assoc; reflexivity.
Qed.

Lemma sum_is_fold (xs : list float) :
  Float.sum xs = fold_left (SFadd 53 1024) xs (S754_zero false).
Proof. reflexivity. Qed.

Lemma report_line_spec (r : Expense.row) : line_of r (report_line r).
Proof.
  exists (Float.format_2f (Expense.amount r)). split; [apply format_2f_spec|].
  unfold report_line. reflexivity.
Qed.

(** The text of the month's report, line by line. *)
Lemma report_text_spec (total : float) (items : list Expense.row) :
  report_of total items (report_text total items).
Proof.
  exists (Float.format_2f total),
         (match items with
          | [] => [lit "(no items yet)"]
          | _ => map report_line items
          end).
  split; [apply format_2f_spec|]. split; [reflexivity|].
  destruct items as [|x l]; [reflexivity|].
  generalize (x :: l) as rs. clear x l.
  induction rs as [|r rs IH]; cbn [map]; constructor;
    [apply report_line_spec | exact IH].
Qed.

(** C7 (amended): "See expenses" asks the store for the rows of the user
    stamped at or after the first instant of the current month, with no
    bound above, twice: once ordered from recent to old and cut at ten,
    once for the amounts alone.  The total is the sum, computed by the
    handler by adding from left to right, of the amounts of all of these
    rows; the listing is the first ten of them in an order from recent to
    old, so no row left out is more recent than a listed one; the report is
    the line of the total followed by one line for each listed row; the
    store is not written.  The rows are the month-to-date window when no
    row is stamped later than now. *)
Theorem C7_see_expenses_amended (m : message) (w w1 : world) (uid : Z) :
  ensure_user (from_user_id m) (chat_id m) w = (Val (Some uid), w1) ->
  uid <> 0%Z ->
  Str.strip (text m) = SEE_EXPENSES ->
  let t := clock (ticks w) in
  Time.valid t = true ->
  store_fails (length (requests w1)) = false ->
  store_fails (S (length (requests w1))) = false ->
  let rows := Db.expenses_since uid (month_start t) (store w) in
  let total := fold_left (SFadd 53 1024) (map Expense.amount rows) (S754_zero false) in
  let ordered := Db.order_desc rows in
  let w' := exec (handle_text m) w in
  eval (handle_text m) w = Val tt
  /\ (forall r, In r rows
                <-> In r (Db.exp_expenses (store w))
                    /\ Expense.user_id r = uid
                    /\ Time.leb (month_start t) (Expense.created_at r) = true)
  /\ (none_after t (store w) -> rows = month_to_date uid t (store w))
  /\ outbox w'
     = outbox w ++ [sent (chat_id m) (report_text total (firstn 10 ordered)) true]
  /\ report_of total (firstn 10 ordered) (report_text total (firstn 10 ordered))
  /\ Permutation ordered rows
  /\ StronglySorted not_older ordered
  /\ (forall a b, In a (firstn 10 ordered) -> In b (skipn 10 ordered) -> not_older a b)
  /\ store w' = store w1
  /\ Db.exp_bot_state (store w') = Db.exp_bot_state (store w)
  /\ requests w'
     = requests w1 ++ [(lit "exp_expenses.list_this_month", false);
                       (lit "exp_expenses.amounts_this_month", false)].
Proof.
  intros He Hu Ht t Hv H1 H2 rows total ordered w'.
  destruct (ensure_user_frame _ _ _ _ _ He) as ((F1 & F2 & F3) & F4 & F5 & _).
  assert (E : handle_text m w = see_expenses (chat_id m) uid w1).
  { rewrite (handle_text_resolved _ _ _ _ He Hu). unfold handle_command.
    rewrite Ht. reflexivity. }
  subst t. rewrite <- F5 in Hv.
  pose proof (see_expenses_run (chat_id m) uid w1 Hv) as R.
  cbv zeta in R. rewrite H1, H2 in R.
  assert (W : Db.expenses_since uid (month_start (clock (ticks w1))) (store w1) = rows).
  { subst rows. rewrite F5. unfold Db.expenses_since; rewrite F2; reflexivity. }
  rewrite W, sum_is_fold in R. fold total ordered in R.
  assert (O : outbox w'
              = outbox w
                  ++ [sent (chat_id m) (report_text total (firstn 10 ordered)) true]).
  { subst w'; unfold exec; rewrite E, R; cbn [snd outbox]. rewrite F4. reflexivity. }
  split; [unfold eval; rewrite E, R; reflexivity|].
  split.
  { intros r. subst rows. unfold Db.expenses_since.
    rewrite filter_In, andb_true_iff, Z.eqb_eq. tauto. }
  split; [intros Hna; subst rows; apply expenses_since_window, Hna|].
  split; [exact O|].
  split; [apply report_text_spec|].
  split; [apply order_desc_perm|].
  split; [apply order_desc_sorted|].
  split; [intros a b; apply (sorted_firstn_recent 10 ordered a b), order_desc_sorted|].
  subst w'; unfold exec; rewrite E, R; cbn [snd store requests].
  rewrite F1. repeat split.
Qed.

(** ** Every run of the handler, summarised *)

Lemma bind_inv {A B} (m : M A) (f : A -> M B) (w w' : world) (r : res B) :
  bind m f w = (r, w') ->
  (exists a w1, m w = (Val a, w1) /\ f a w1 = (r, w'))
  \/ (exists e, m w = (Exc e, w') /\ r = Exc e).
Proof.
  unfold bind; destruct (m w) as [[a|e] w1]; intros H.
  - left; eauto.
  - right; exists e; invert_pairs; auto.
Qed.

Lemma set_state_cases (uid : Z) (action : option str) (amt : option float) (w : world) :
  set_state uid action amt w
  = (Val tt,
     {| store := Db.with_state (store w)
                   (Db.upsert (state_row uid action amt (ticks w))
                      (Db.exp_bot_state (store w)));
        requests := requests w ++ [(lit "exp_bot_state.upsert", false)];
        ticks := S (ticks w);
        outbox := outbox w |})
  \/ set_state uid action amt w
     = (Val tt,
        {| store := store w;
           requests := requests w ++ [(lit "exp_bot_state.upsert", true)];
           ticks := S (ticks w);
           outbox := outbox w |}).
Proof.
  destruct (store_fails (length (requests w))) eqn:F.
  - right; apply set_state_failed, F.
  - left; apply set_state_ok, F.
Qed.

Lemma get_state_cases (uid : Z) (w : world) :
  exists r b,
    get_state uid w
    = (Val r, with_store w (store w) (requests w ++ [(lit "exp_bot_state.select", b)]))
    /\ (b = true -> r = None).
Proof.
  destruct (store_fails (length (requests w))) eqn:F.
  - exists None, true; split; [apply get_state_failed; auto | auto].
  - destruct (Db.maybe_single (filter (Db.owns uid) (Db.exp_bot_state (store w))))
      as [r|] eqn:E.
    + exists r, false; split; [apply get_state_ok; auto | discriminate].
    + exists None, true; split; [apply get_state_failed; auto | auto].
Qed.

Lemma clear_state_cases (uid : Z) (w : world) :
  clear_state uid w
  = (Val tt,
     {| store := Db.with_state (store w)
                   (filter (fun r => negb (Db.owns uid r)) (Db.exp_bot_state (store w)));
        requests := requests w ++ [(lit "exp_bot_state.delete", false)];
        ticks := ticks w;
        outbox := outbox w |})
  \/ clear_state uid w
     = (Val tt,
        {| store := store w;
           requests := requests w ++ [(lit "exp_bot_state.delete", true)];
           ticks := ticks w;
           outbox := outbox w |}).
Proof.
  unfold clear_state, bind, supa_exec, ret, with_store; cbn.
  destruct (store_fails _); [right | left]; reflexivity.
Qed.

Lemma insert_cases (uid : Z) (amount : option float) (title : str) (t : Time.datetime)
    (w : world) :
  (exists amt, amount = Some amt
     /\ supa_exec (Db.expenses_insert uid amount title t) (lit "exp_expenses.insert") w
        = (Val (Some tt, false),
           {| store := Db.with_expenses (store w)
                         (Db.exp_expenses (store w)
                            ++ [{| Expense.user_id := uid; Expense.amount := amt;
                                   Expense.title := title; Expense.created_at := t |}]);
              requests := requests w ++ [(lit "exp_expenses.insert", false)];
              ticks := ticks w;
              outbox := outbox w |}))
  \/ supa_exec (Db.expenses_insert uid amount title t) (lit "exp_expenses.insert") w
     = (Val (None, true),
        {| store := store w;
           requests := requests w ++ [(lit "exp_expenses.insert", true)];
           ticks := ticks w;
           outbox := outbox w |}).
Proof.
  unfold supa_exec, with_store.
  destruct (store_fails _); [right; reflexivity|].
  destruct amount as [amt|]; cbn; [left; exists amt; auto | right; reflexivity].
Qed.

Lemma report_text_head (total : float) (items : list Expense.row) :
  exists rest, report_text total items = lit "This month total: " ++ rest.
Proof.
  unfold report_text.
  match goal with
  | |- exists rest, Str.join ?sep (?w :: ?ws) = _ =>
      destruct (join_head sep w ws) as (rest & E);
      exists (Float.format_2f total ++ rest); rewrite app_assoc; exact E
  end.
Qed.

(** None of the other replies is the failure notice. *)
Lemma not_notice_prefix (s : str) :
  firstn 5 s <> firstn 5 msg_save_failed -> s <> msg_save_failed.
Proof. congruence. Qed.

Lemma send_amount_not_notice : msg_send_amount <> msg_save_failed.
Proof. apply not_notice_prefix; vm_compute; discriminate. Qed.

Lemma invalid_amount_not_notice : msg_invalid_amount <> msg_save_failed.
Proof. apply not_notice_prefix; vm_compute; discriminate. Qed.

Lemma title_empty_not_notice : msg_title_empty <> msg_save_failed.
Proof. apply not_notice_prefix; vm_compute; discriminate. Qed.

Lemma fallback_not_notice : msg_fallback <> msg_save_failed.
Proof. apply not_notice_prefix; vm_compute; discriminate. Qed.

Lemma amount_ok_not_notice (amt : float) : msg_amount_ok amt <> msg_save_failed.
Proof. apply not_notice_prefix; vm_compute; discriminate. Qed.

Lemma saved_not_notice (amt : float) (title : str) :
  msg_saved amt title <> msg_save_failed.
Proof. apply not_notice_prefix; vm_compute; discriminate. Qed.

Lemma last_month_not_notice (s : str) (total : float) :
  msg_last_month s total <> msg_save_failed.
Proof. apply not_notice_prefix; vm_compute; discriminate. Qed.

Lemma report_not_notice (total : float) (items : list Expense.row) :
  report_text total items <> msg_save_failed.
Proof.
  destruct (report_text_head total items) as (rest & ->).
  apply not_notice_prefix; vm_compute; discriminate.
Qed.

Create HintDb notice.
#[local] Hint Resolve send_amount_not_notice invalid_amount_not_notice
  title_empty_not_notice fallback_not_notice amount_ok_not_notice
  saved_not_notice last_month_not_notice report_not_notice : notice.

Ltac no_request_failed :=
  let H := fresh "H" in
  intros H; exfalso;
  repeat (apply Exists_cons in H as [H|H]; [discriminate H|]);
  apply Exists_nil in H; exact H.

Ltac not_insert H :=
  simpl in H;
  repeat (destruct H as [H|H]; [vm_compute in H; discriminate H|]);
  exact H.

(** A run that answers another reply than the failure notice while the
    insert has not failed. *)
Ltac other_reply :=
  intros _; split; [reflexivity|];
  eexists; split; [reflexivity|];
  split; [let N := fresh "N" in
          intros N; exfalso; revert N; cbn [body];
          match goal with |- ?a = ?b -> False => change (a <> b) end;
          auto with notice
         | let H := fresh "H" in intros H; exfalso; not_insert H].

Ltac log_shape :=
  simpl; rewrite <- ?app_assoc; reflexivity.

Lemma handle_command_summary (chat uid : Z) (text : str) (w w' : world) (r : res unit) :
  handle_command chat uid text w = (r, w') -> summary uid w w' r.
Proof.
  unfold handle_command.
  destruct (Str.eqb text ADD_EXPENSE).
  { (* "Add expense" *)
    intros H; apply bind_inv in H as [(a & w1 & Hs & H) | (e & Hs & ->)].
    2:{ destruct (set_state_cases uid (Some AWAIT_AMOUNT) None w) as [E|E];
        rewrite E in Hs; discriminate. }
    unfold send_message in H; invert_pairs.
    destruct (set_state_cases uid (Some AWAIT_AMOUNT) None w) as [E|E];
      rewrite E in Hs; invert_pairs; eexists; (split; [log_shape|]);
      (split; [simpl; lia|]).
    - split; [|split; [left; reflexivity | no_request_failed]].
      right; split; [repeat constructor|]. left.
      exists (state_row uid (Some AWAIT_AMOUNT) None (ticks w)).
      split; [|split; reflexivity].
      intros Hp; vm_compute in Hp; discriminate Hp.
    - split; [left; reflexivity|]. split; [left; reflexivity|]. other_reply. }
  destruct (Str.eqb text SEE_EXPENSES).
  { (* "See expenses" *)
    unfold see_expenses, now. intros H; unfold bind at 1 in H; cbv beta iota in H.
    destruct (Time.first_of_month _ _) as [first|].
    2:{ unfold raise in H; invert_pairs. exists []; rewrite app_nil_r.
        split; [reflexivity|]. split; [simpl; lia|].
        split; [left; reflexivity|]. split; [left; reflexivity | no_request_failed]. }
    unfold bind, supa_exec, send_message, with_store in H;
      cbn [Db.execute store requests ticks outbox] in H.
    destruct (store_fails (length (requests w)));
      cbn [Db.execute store requests ticks outbox] in H;
      rewrite length_snoc in H;
      destruct (store_fails (S (length (requests w))));
      cbn [Db.execute store requests ticks outbox] in H;
      invert_pairs; eexists; (split; [log_shape|]); (split; [simpl; lia|]);
      (split; [left; reflexivity|]); (split; [left; reflexivity|]);
      first [no_request_failed | other_reply]. }
  destruct (Str.eqb text SEE_LAST_MONTH).
  { (* "See last month" *)
    unfold see_last_month, now. intros H; unfold bind at 1 in H; cbv beta iota in H.
    destruct (Time.first_of_month _ _) as [d|].
    2:{ unfold raise in H; invert_pairs. exists []; rewrite app_nil_r.
        split; [reflexivity|]. split; [simpl; lia|].
        split; [left; reflexivity|]. split; [left; reflexivity | no_request_failed]. }
    apply bind_inv in H as [(a & w1 & Hs & H) | (e & Hs & ->)].
    2:{ destruct (supa_exec_cases (Db.totals_get uid (Time.date_of d))
                    (lit "exp_monthly_totals.get_last")
                    {| store := store w; requests := requests w;
                       ticks := S (ticks w); outbox := outbox w |})
          as [(x & d' & _ & _ & E)|E]; rewrite E in Hs; discriminate. }
    destruct (supa_exec_cases (Db.totals_get uid (Time.date_of d))
                (lit "exp_monthly_totals.get_last")
                {| store := store w; requests := requests w;
                   ticks := S (ticks w); outbox := outbox w |})
      as [(x & d' & Hx & _ & E)|E]; rewrite E in Hs; invert_pairs;
      unfold send_message in H; cbn in H; invert_pairs.
    - assert (d' = store w).
      { cbn in Hx. destruct (Db.maybe_single _); invert_pairs; reflexivity. }
      subst d'. eexists; (split; [log_shape|]); (split; [simpl; lia|]);
      (split; [left; reflexivity|]); (split; [left; reflexivity|]).
      no_request_failed.
    - eexists; (split; [log_shape|]); (split; [simpl; lia|]);
      (split; [left; reflexivity|]); (split; [left; reflexivity|]).
      other_reply. }
  (* the state machine *)
  unfold state_machine. intros H.
  destruct (get_state_cases uid w) as (st & b & Eg & Hb).
  rewrite (bind_val _ _ _ _ _ Eg) in H.
  assert (Fallback :
            send_message chat msg_fallback true
              (with_store w (store w) (requests w ++ [(lit "exp_bot_state.select", b)]))
            = (r, w') -> summary uid w w' r).
  { clear H. intros H. unfold send_message in H; cbn in H; invert_pairs.
    eexists; (split; [log_shape|]); (split; [simpl; lia|]);
      (split; [left; reflexivity|]); (split; [left; reflexivity|]).
    destruct b; [other_reply | no_request_failed]. }
  destruct st as [st|]; [|exact (Fallback H)].
  destruct b; [specialize (Hb eq_refl); discriminate|]. clear Hb.
  destruct (match State.pending_action st with
            | Some a => Str.eqb a AWAIT_AMOUNT
            | None => false
            end).
  { (* the amount *)
    assert (Invalid :
              send_message chat msg_invalid_amount false
                (with_store w (store w) (requests w ++ [(lit "exp_bot_state.select", false)]))
              = (r, w') -> summary uid w w' r).
    { clear H. intros H. unfold send_message in H; cbn in H; invert_pairs.
      eexists; (split; [log_shape|]); (split; [simpl; lia|]);
        (split; [left; reflexivity|]); (split; [left; reflexivity|]).
      no_request_failed. }
    destruct (parse_amount text) as [amt|] eqn:Ep; [|exact (Invalid H)].
    destruct (Float.truthy amt) eqn:Et; [|exact (Invalid H)].
    apply bind_inv in H as [(a & w1 & Hs & H) | (e & Hs & ->)].
    2:{ match type of Hs with
        | set_state ?u ?a ?t ?w0 = _ =>
            destruct (set_state_cases u a t w0) as [E|E]; rewrite E in Hs; discriminate
        end. }
    unfold send_message in H; invert_pairs.
    match type of Hs with
    | set_state ?u ?a ?t ?w0 = _ =>
        destruct (set_state_cases u a t w0) as [E|E]; rewrite E in Hs; invert_pairs
    end; eexists; (split; [log_shape|]); (split; [simpl; lia|]).
    - split; [|split; [left; reflexivity | no_request_failed]].
      right; split; [repeat constructor|]. left.
      exists (state_row uid (Some AWAIT_TITLE) (Some amt) (ticks w)).
      split; [|split; reflexivity].
      intros _; exists amt; split; [reflexivity|].
      eapply parse_amount_truthy_positive; eauto.
    - split; [left; reflexivity|]. split; [left; reflexivity|]. other_reply. }
  destruct (match State.pending_action st with
            | Some a => Str.eqb a AWAIT_TITLE
            | None => false
            end); [|exact (Fallback H)].
  (* the title *)
  destruct (Str.strip (Str.join (lit " ") (Str.split text))) as [|c title'] eqn:Etitle.
  { unfold send_message in H; cbn in H; invert_pairs.
    eexists; (split; [log_shape|]); (split; [simpl; lia|]);
      (split; [left; reflexivity|]); (split; [left; reflexivity|]).
    no_request_failed. }
  unfold now in H. unfold bind at 1 in H; cbv beta iota in H.
  apply bind_inv in H as [(a & w1 & Hs & H) | (e & Hs & ->)].
  2:{ match type of Hs with
      | supa_exec (Db.expenses_insert ?u ?a ?t ?c0) _ ?w0 = _ =>
          destruct (insert_cases u a t c0 w0) as [(amt & _ & E)|E];
          rewrite E in Hs; discriminate
      end. }
  match type of Hs with
  | supa_exec (Db.expenses_insert ?u ?a ?t ?c0) _ ?w0 = _ =>
      destruct (insert_cases u a t c0 w0) as [(amt & Ea & E)|E];
      rewrite E in Hs; invert_pairs
  end.
  - (* the insert is applied *)
    cbv beta iota in H. rewrite Ea in H.
    apply bind_inv in H as [(a & w1 & Hs & H) | (e & Hs & ->)].
    2:{ match type of Hs with
        | clear_state ?u ?w0 = _ =>
            destruct (clear_state_cases u w0) as [E'|E']; rewrite E' in Hs; discriminate
        end. }
    unfold send_message in H; invert_pairs.
    match type of Hs with
    | clear_state ?u ?w0 = _ =>
        destruct (clear_state_cases u w0) as [E'|E']; rewrite E' in Hs; invert_pairs
    end; eexists; (split; [log_shape|]); (split; [simpl; lia|]).
    + split; [right; split; [repeat constructor | right; reflexivity]|].
      split; [right; exists amt, (c :: title'); split; reflexivity|].
      no_request_failed.
    + split; [left; reflexivity|].
      split; [right; exists amt, (c :: title'); split; reflexivity|].
      other_reply.
  - (* the insert fails *)
    cbv beta iota in H. unfold send_message in H; cbn in H; invert_pairs.
    eexists; (split; [log_shape|]); (split; [simpl; lia|]);
      (split; [left; reflexivity|]); (split; [left; reflexivity|]).
    intros _; split; [reflexivity|]. eexists; split; [reflexivity|].
    split; [intros _; simpl; auto | reflexivity].
Qed.

(** ** What every handler keeps *)

Lemma handle_text_cases (m : message) (w : world) :
  (exists uid w1,
      ensure_user (from_user_id m) (chat_id m) w = (Val (Some uid), w1)
      /\ uid <> 0%Z)
  \/ (exists w1, users_only w w1 /\ same_but_outbox w1 (exec (handle_text m) w)).
Proof.
  unfold handle_text, exec.
  destruct (negb (is_allowed (from_user_id m))).
  { right; exists w; split; [apply users_only_refl | repeat split]. }
  unfold bind.
  destruct (ensure_user (from_user_id m) (chat_id m) w) as [[[uid|]|e] w1] eqn:E.
  - destruct (uid =? 0)%Z eqn:Z0.
    + right; exists w1; split; [eapply ensure_user_frame, E | repeat split].
    + left; exists uid, w1; split; [reflexivity | apply Z.eqb_neq, Z0].
  - right; exists w1; split; [eapply ensure_user_frame, E | repeat split].
  - right; exists w1; split; [eapply ensure_user_frame, E | repeat split].
Qed.

Lemma cmd_start_cases (m : message) (w : world) :
  exists w1, users_only w w1 /\ same_but_outbox w1 (exec (cmd_start m) w).
Proof.
  unfold cmd_start, exec.
  destruct (negb (is_allowed (from_user_id m))).
  { exists w; split; [apply users_only_refl | repeat split]. }
  unfold bind.
  destruct (ensure_user (from_user_id m) (chat_id m) w) as [[[uid|]|e] w1] eqn:E;
    exists w1; (split; [eapply ensure_user_frame, E|]);
    try destruct (uid =? 0)%Z; repeat split.
Qed.

Lemma upsert_Forall (P : State.row -> Prop) (r : State.row) (st : list State.row) :
  P r -> Forall P st -> Forall P (Db.upsert r st).
Proof.
  intros Hr H; unfold Db.upsert. destruct (existsb _ st).
  - apply Forall_map. eapply Forall_impl; [|exact H].
    intros x Hx; destruct (Db.owns _ x); assumption.
  - apply Forall_app; split; [exact H | repeat constructor; exact Hr].
Qed.

Lemma filter_Forall {A} (P : A -> Prop) (f : A -> bool) (l : list A) :
  Forall P l -> Forall P (filter f l).
Proof.
  rewrite !Forall_forall; intros H x Hx; apply filter_In in Hx as [Hx _]; auto.
Qed.

Lemma handle_command_staged (chat uid : Z) (text : str) (w : world) :
  staged_positive (store w) ->
  staged_positive (store (exec (handle_command chat uid text) w)).
Proof.
  unfold exec, staged_positive; intros H.
  destruct (handle_command chat uid text w) as [r w'] eqn:E.
  apply handle_command_summary in E as (rs & _ & _ & Hs & _).
  cbn [snd]. destruct Hs as [->|(_ & [(row & Hg & _ & ->)| ->])]; simpl.
  - exact H.
  - apply upsert_Forall; assumption.
  - apply filter_Forall, H.
Qed.

Lemma handle_staged (u : update) (w : world) :
  staged_positive (store w) -> staged_positive (store (exec (handle u) w)).
Proof.
  intros H; destruct u as [m|m]; simpl.
  - destruct (cmd_start_cases m w) as (w1 & ((F1 & _) & _) & (S1 & _)).
    unfold staged_positive; rewrite S1, F1; exact H.
  - destruct (handle_text_cases m w) as [(uid & w1 & He & Hu) | (w1 & ((F1 & _) & _) & (S1 & _))].
    + unfold exec. rewrite (handle_text_resolved _ _ _ _ He Hu).
      apply handle_command_staged.
      destruct (ensure_user_frame _ _ _ _ _ He) as ((F1 & _) & _).
      unfold staged_positive; rewrite F1; exact H.
    + unfold staged_positive; rewrite S1, F1; exact H.
Qed.

(** The run of the amount step on a text whose parsed amount is zero. *)
Lemma await_amount_zero (chat uid : Z) (text : str) (w : world) (st : State.row)
    (v : float) :
  store_fails (length (requests w)) = false ->
  filter (Db.owns uid) (Db.exp_bot_state (store w)) = [st] ->
  State.pending_action st = Some AWAIT_AMOUNT ->
  parse_amount text = Some v -> Float.truthy v = false ->
  state_machine chat uid text w
  = (Val tt,
     and_sent (with_store w (store w)
                 (requests w ++ [(lit "exp_bot_state.select", false)]))
              (sent chat msg_invalid_amount false)).
Proof.
  intros H1 Hst Hpa Hp Ht.
  unfold state_machine.
  rewrite (bind_val _ _ _ _ _ (get_state_ok uid w (Some st) H1 ltac:(rewrite Hst; reflexivity))).
  cbv beta iota. rewrite Hpa.
  change (Str.eqb AWAIT_AMOUNT AWAIT_AMOUNT) with true.
  cbv iota. rewrite Hp, Ht. reflexivity.
Qed.

(** C10: the engine stages an amount only when the parsed value is truthy,
    so along every sequence of updates the rows that await a title carry a
    strictly positive amount, if they did at the start; [parse_amount]
    itself returns 0.0 for ["0.004"], and in state [await_amount] a text
    whose parsed amount is zero is answered as an invalid amount, with the
    store left as it was. *)
Theorem C10_staged_amount_positive :
  (forall (us : list update) (w : world),
      staged_positive (store w) -> staged_positive (store (run us w)))
  /\ parse_amount (lit "0.004") = Some Float.zero
  /\ Float.truthy Float.zero = false
  /\ (forall (chat uid : Z) (text : str) (w : world) (st : State.row) (v : float),
        store_fails (length (requests w)) = false ->
        filter (Db.owns uid) (Db.exp_bot_state (store w)) = [st] ->
        State.pending_action st = Some AWAIT_AMOUNT ->
        parse_amount text = Some v -> Float.truthy v = false ->
        eval (state_machine chat uid text) w = Val tt
        /\ store (exec (state_machine chat uid text) w) = store w
        /\ outbox (exec (state_machine chat uid text) w)
           = outbox w ++ [sent chat msg_invalid_amount false]).
Proof.
  split; [|split; [vm_compute; reflexivity | split; [reflexivity|]]].
  - induction us as [|u us IH]; intros w H; simpl; [exact H|].
    apply IH, handle_staged, H.
  - intros chat uid text w st v H1 Hst Hpa Hp Ht.
    unfold eval, exec.
    rewrite (await_amount_zero chat uid text w st v H1 Hst Hpa Hp Ht).
    repeat split.
Qed.

(** ** Store errors *)

(** C1 (amended): for a resolved user, when a request of the handler fails
    (loading or setting the state, listing the expenses, reading the
    monthly total, inserting the expense, clearing the state), the handler
    still ends with exactly one reply and [exp_bot_state] is as it was
    before the message; the reply is the failure notice "Save failed. Check
    logs." exactly when the failed request is the insert of the expense:
    the other failures are not reported to the user. *)
Theorem C1_store_errors_amended (m : message) (w w1 : world) (uid : Z)
    (rs : list (str * bool)) :
  ensure_user (from_user_id m) (chat_id m) w = (Val (Some uid), w1) ->
  uid <> 0%Z ->
  let w' := exec (handle_text m) w in
  requests w' = requests w1 ++ rs ->
  Exists failed rs ->
  eval (handle_text m) w = Val tt
  /\ Db.exp_bot_state (store w') = Db.exp_bot_state (store w)
  /\ exists o, outbox w' = outbox w ++ [o]
               /\ (body o = msg_save_failed
                   <-> In (lit "exp_expenses.insert", true) rs).
Proof.
  intros He Hu w' Hrs Hex.
  destruct (ensure_user_frame _ _ _ _ _ He) as ((F1 & F2 & F3) & F4 & F5 & _).
  subst w'; unfold exec, eval in *.
  rewrite (handle_text_resolved _ _ _ _ He Hu) in *.
  destruct (handle_command (chat_id m) uid (Str.strip (text m)) w1) as [r w'] eqn:E.
  apply handle_command_summary in E as (rs' & Hr & _ & Hs & _ & Hf).
  simpl in *. rewrite Hr in Hrs. apply app_inv_head in Hrs; subst rs'.
  destruct (Hf Hex) as (-> & o & Ho & Hiff).
  split; [reflexivity|]. split.
  - destruct Hs as [->|(Hall & _)]; [exact F1|].
    exfalso. apply Exists_exists in Hex as (x & Hin & Hx).
    rewrite Forall_forall in Hall. specialize (Hall x Hin).
    unfold failed in Hx; congruence.
  - exists o; rewrite <- F4; auto.
Qed.

(** ** The stamps of the expenses *)

Lemma stamped_later (w w' : world) :
  ticks w <= ticks w' ->
  Db.exp_expenses (store w') = Db.exp_expenses (store w) ->
  stamped w -> stamped w'.
Proof.
  unfold stamped; intros Ht ->; apply Forall_impl.
  intros r (k & Hk & E); exists k; split; [lia | exact E].
Qed.

Lemma handle_command_stamped (chat uid : Z) (text : str) (w : world) :
  stamped w -> stamped (exec (handle_command chat uid text) w).
Proof.
  unfold exec; intros H.
  destruct (handle_command chat uid text w) as [r w'] eqn:E.
  apply handle_command_summary in E as (rs & _ & Ht & _ & He & _).
  cbn [snd]. destruct He as [He|(amt & title & He & Hs)].
  - eapply stamped_later; eauto.
  - unfold stamped; rewrite He, Hs. apply Forall_app; split.
    + eapply Forall_impl; [|exact H].
      intros x (k & Hk & Ex); exists k; split; [lia | exact Ex].
    + repeat constructor. exists (ticks w); split; [lia | reflexivity].
Qed.

Lemma handle_stamped (u : update) (w : world) :
  stamped w -> stamped (exec (handle u) w).
Proof.
  intros H; destruct u as [m|m]; simpl.
  - destruct (cmd_start_cases m w) as (w1 & ((_ & F2 & _) & _ & F5 & _) & (S1 & T1 & _)).
    eapply stamped_later; [| |exact H]; [lia | congruence].
  - destruct (handle_text_cases m w)
      as [(uid & w1 & He & Hu) | (w1 & ((_ & F2 & _) & _ & F5 & _) & (S1 & T1 & _))].
    + unfold exec. rewrite (handle_text_resolved _ _ _ _ He Hu).
      apply handle_command_stamped.
      destruct (ensure_user_frame _ _ _ _ _ He) as ((_ & F2 & _) & _ & F5 & _).
      eapply stamped_later; [| |exact H]; [lia | congruence].
    + eapply stamped_later; [| |exact H]; [lia | congruence].
Qed.

Lemma run_stamped (us : list update) (w : world) :
  stamped w -> stamped (run us w).
Proof.
  revert w; induction us as [|u us IH]; intros w H; simpl; [exact H|].
  apply IH, handle_stamped, H.
Qed.

(** With a clock that does not run backwards, in every world reached from
    an empty table of expenses no expense is stamped later than now: the
    month-to-date window of C7 then has all the rows since the first of the
    month. *)
Lemma none_after_reachable (us : list update) (w0 : world) :
  monotone_clock ->
  Db.exp_expenses (store w0) = [] ->
  none_after (clock (ticks (run us w0))) (store (run us w0)).
Proof.
  intros Hm H0.
  assert (Hs : stamped (run us w0)).
  { apply run_stamped; unfold stamped; rewrite H0; constructor. }
  unfold none_after. eapply Forall_impl; [|exact Hs].
  intros r (k & Hk & ->). apply Hm; lia.
Qed.

(** ** Every run of the handler, in more detail *)

Lemma get_state_found (uid : Z) (w : world) :
  exists r b,
    get_state uid w
    = (Val r, with_store w (store w) (requests w ++ [(lit "exp_bot_state.select", b)]))
    /\ (forall st, r = Some st ->
                   filter (Db.owns uid) (Db.exp_bot_state (store w)) = [st]).
Proof.
  destruct (store_fails (length (requests w))) eqn:F.
  - exists None, true; split; [apply get_state_failed; auto | discriminate].
  - destruct (filter (Db.owns uid) (Db.exp_bot_state (store w))) as [|x [|y l]] eqn:E.
    + exists None, false; split; [|discriminate].
      apply get_state_ok; [exact F | rewrite E; reflexivity].
    + exists (Some x), false; split; [|intros st [= <-]; reflexivity].
      apply get_state_ok; [exact F | rewrite E; reflexivity].
    + exists None, true; split; [|discriminate].
      apply get_state_failed; right; rewrite E; reflexivity.
Qed.

Lemma first_of_month_none_now (t : Time.datetime) :
  Time.first_of_month (Time.year t) (Time.month t) = None -> no_month t.
Proof.
  unfold Time.first_of_month, no_month, Time.valid.
  destruct (_ && _ && _ && _)%bool; [discriminate | auto].
Qed.

Lemma first_of_month_none_last (t : Time.datetime) :
  Time.first_of_month
    (if negb (Time.month t =? 1)%Z then Time.year t else (Time.year t - 1)%Z)
    (if (Time.month t - 1 =? 0)%Z then 12%Z else (Time.month t - 1)%Z) = None ->
  no_month t.
Proof.
  intros H. unfold no_month.
  destruct (Time.valid t) eqn:V; [|auto]. right.
  destruct (Z_lt_dec 1 (Time.year t)) as [Hy|Hy].
  { destruct (last_month_key t V (or_introl Hy)) as (d & Hd & _); congruence. }
  destruct (Z_lt_dec 1 (Time.month t)) as [Hm|Hm].
  { destruct (last_month_key t V (or_intror Hm)) as (d & Hd & _); congruence. }
  unfold Time.valid in V. rewrite !andb_true_iff, !Z.leb_le in V. lia.
Qed.

Ltac kept := repeat split.

Ltac one_message :=
  left; split; [reflexivity|]; eexists; split; [reflexivity | reflexivity].

Lemma handle_command_effects (chat uid : Z) (text : str) (w w' : world) (r : res unit) :
  handle_command chat uid text w = (r, w') ->
  registry_kept w w' /\ commit uid text w w' /\ outcome chat w w' r.
Proof.
  unfold handle_command.
  destruct (Str.eqb text ADD_EXPENSE).
  { intros H; apply bind_inv in H as [(a & w1 & Hs & H) | (e & Hs & ->)].
    2:{ destruct (set_state_cases uid (Some AWAIT_AMOUNT) None w) as [E|E];
        rewrite E in Hs; discriminate. }
    unfold send_message in H; invert_pairs.
    destruct (set_state_cases uid (Some AWAIT_AMOUNT) None w) as [E|E];
      rewrite E in Hs; invert_pairs;
      (split; [kept | split; [left; reflexivity | one_message]]). }
  destruct (Str.eqb text SEE_EXPENSES).
  { unfold see_expenses, now. intros H; unfold bind at 1 in H; cbv beta iota in H.
    destruct (Time.first_of_month _ _) as [first|] eqn:Ef.
    2:{ unfold raise in H; invert_pairs.
        split; [kept | split; [left; reflexivity|]].
        right; repeat split. apply first_of_month_none_now, Ef. }
    unfold bind, supa_exec, send_message, with_store in H;
      cbn [Db.execute store requests ticks outbox] in H.
    destruct (store_fails (length (requests w)));
      cbn [Db.execute store requests ticks outbox] in H;
      rewrite length_snoc in H;
      destruct (store_fails (S (length (requests w))));
      cbn [Db.execute store requests ticks outbox] in H;
      invert_pairs; (split; [kept | split; [left; reflexivity | one_message]]). }
  destruct (Str.eqb text SEE_LAST_MONTH).
  { unfold see_last_month, now. intros H; unfold bind at 1 in H; cbv beta iota in H.
    destruct (Time.first_of_month _ _) as [d|] eqn:Ef.
    2:{ unfold raise in H; invert_pairs.
        split; [kept | split; [left; reflexivity|]].
        right; repeat split. apply first_of_month_none_last, Ef. }
    apply bind_inv in H as [(a & w1 & Hs & H) | (e & Hs & ->)].
    2:{ destruct (supa_exec_cases (Db.totals_get uid (Time.date_of d))
                    (lit "exp_monthly_totals.get_last")
                    {| store := store w; requests := requests w;
                       ticks := S (ticks w); outbox := outbox w |})
          as [(x & d' & _ & _ & E)|E]; rewrite E in Hs; discriminate. }
    destruct (supa_exec_cases (Db.totals_get uid (Time.date_of d))
                (lit "exp_monthly_totals.get_last")
                {| store := store w; requests := requests w;
                   ticks := S (ticks w); outbox := outbox w |})
      as [(x & d' & Hx & _ & E)|E]; rewrite E in Hs; invert_pairs;
      unfold send_message in H; cbn in H; invert_pairs.
    - assert (d' = store w).
      { cbn in Hx. destruct (Db.maybe_single _); invert_pairs; reflexivity. }
      subst d'. split; [kept | split; [left; reflexivity | one_message]].
    - split; [kept | split; [left; reflexivity | one_message]]. }
  unfold state_machine. intros H.
  destruct (get_state_found uid w) as (st & b & Eg & Hfound).
  rewrite (bind_val _ _ _ _ _ Eg) in H.
  assert (Plain : forall body kb,
            send_message chat body kb
              (with_store w (store w) (requests w ++ [(lit "exp_bot_state.select", b)]))
            = (r, w') ->
            registry_kept w w' /\ commit uid text w w' /\ outcome chat w w' r).
  { clear H. intros body kb H. unfold send_message in H; cbn in H; invert_pairs.
    split; [kept | split; [left; reflexivity | one_message]]. }
  destruct st as [st|]; [|exact (Plain _ _ H)].
  specialize (Hfound st eq_refl).
  destruct (match State.pending_action st with
            | Some a => Str.eqb a AWAIT_AMOUNT
            | None => false
            end).
  { destruct (parse_amount text) as [amt|] eqn:Ep; [|exact (Plain _ _ H)].
    destruct (Float.truthy amt) eqn:Et; [|exact (Plain _ _ H)].
    apply bind_inv in H as [(a & w1 & Hs & H) | (e & Hs & ->)].
    2:{ match type of Hs with
        | set_state ?u ?a ?t ?w0 = _ =>
            destruct (set_state_cases u a t w0) as [E|E]; rewrite E in Hs; discriminate
        end. }
    unfold send_message in H; invert_pairs.
    match type of Hs with
    | set_state ?u ?a ?t ?w0 = _ =>
        destruct (set_state_cases u a t w0) as [E|E]; rewrite E in Hs; invert_pairs
    end; (split; [kept | split; [left; reflexivity | one_message]]). }
  destruct (match State.pending_action st with
            | Some a => Str.eqb a AWAIT_TITLE
            | None => false
            end) eqn:Epa; [|exact (Plain _ _ H)].
  assert (Hpa : State.pending_action st = Some AWAIT_TITLE).
  { destruct (State.pending_action st) as [a|]; [|discriminate].
    apply str_eqb_eq in Epa; congruence. }
  fold (title_of text) in H.
  destruct (title_of text) as [|c title'] eqn:Etitle; [exact (Plain _ _ H)|].
  unfold now in H. unfold bind at 1 in H; cbv beta iota in H.
  apply bind_inv in H as [(a & w1 & Hs & H) | (e & Hs & ->)].
  2:{ match type of Hs with
      | supa_exec (Db.expenses_insert ?u ?a ?t ?c0) _ ?w0 = _ =>
          destruct (insert_cases u a t c0 w0) as [(amt & _ & E)|E];
          rewrite E in Hs; discriminate
      end. }
  match type of Hs with
  | supa_exec (Db.expenses_insert ?u ?a ?t ?c0) _ ?w0 = _ =>
      destruct (insert_cases u a t c0 w0) as [(amt & Ea & E)|E];
      rewrite E in Hs; invert_pairs
  end.
  - cbv beta iota in H. rewrite Ea in H.
    apply bind_inv in H as [(a & w1 & Hs & H) | (e & Hs & ->)].
    2:{ match type of Hs with
        | clear_state ?u ?w0 = _ =>
            destruct (clear_state_cases u w0) as [E'|E']; rewrite E' in Hs; discriminate
        end. }
    unfold send_message in H; invert_pairs.
    match type of Hs with
    | clear_state ?u ?w0 = _ =>
        destruct (clear_state_cases u w0) as [E'|E']; rewrite E' in Hs; invert_pairs
    end;
      (split; [kept | split; [|one_message]]);
      right; exists st, amt;
      repeat split; try assumption; try (rewrite Etitle; discriminate);
      rewrite Etitle; reflexivity.
  - cbv beta iota in H. unfold send_message in H; cbn in H; invert_pairs.
    split; [kept | split; [left; reflexivity | one_message]].
Qed.

(** ** The user registry *)

(** The run of [ensure_user] for a sender with one row: the id of the row,
    whether the update of the chat is applied or not. *)
Lemma ensure_user_known (tg chat : Z) (w : world) (u : User.row) :
  is_allowed tg = true ->
  store_fails (length (requests w)) = false ->
  users_of tg (store w) = [u] ->
  let lost := store_fails (S (length (requests w))) in
  ensure_user tg chat w
  = (Val (Some (User.id u)),
     {| store := if lost then store w
                 else Db.with_users (store w)
                        (rechat (User.id u) chat (Db.exp_users (store w)))
                        (Db.exp_users_seq (store w));
        requests := requests w ++ [(lit "exp_users.select", false);
                                   (lit "exp_users.update", lost)];
        ticks := ticks w;
        outbox := outbox w |}).
Proof.
  intros Ha H1 Hu lost.
  unfold ensure_user; rewrite Ha; cbn [negb].
  unfold bind, supa_exec, ret, with_store; cbn [Db.execute store requests ticks outbox].
  unfold users_of in Hu. rewrite H1, Hu; cbn.
  rewrite length_snoc. fold lost.
  destruct lost; cbn; rewrite <- app_assoc; reflexivity.
Qed.

(** The run of [ensure_user] for a sender without a row, when the store
    applies the select and the insert. *)
Lemma ensure_user_new (tg chat : Z) (w : world) :
  is_allowed tg = true ->
  store_fails (length (requests w)) = false ->
  store_fails (S (length (requests w))) = false ->
  users_of tg (store w) = [] ->
  let u := {| User.id := Db.exp_users_seq (store w); User.tg_user_id := tg;
              User.tg_chat_id := chat |} in
  ensure_user tg chat w
  = (Val (Some (Db.exp_users_seq (store w))),
     {| store := Db.with_users (store w) (Db.exp_users (store w) ++ [u])
                   (Db.exp_users_seq (store w) + 1);
        requests := requests w ++ [(lit "exp_users.select", false);
                                   (lit "exp_users.insert", false)];
        ticks := ticks w;
        outbox := outbox w |}).
Proof.
  intros Ha H1 H2 Hu u.
  assert (Hex : existsb (fun r => (User.tg_user_id r =? tg)%Z)
                  (Db.exp_users (store w)) = false).
  { unfold users_of in Hu.
    destruct (existsb _ _) eqn:E; [|reflexivity].
    apply existsb_exists in E as (x & Hx & Ht).
    assert (In x []) as []. rewrite <- Hu. apply filter_In; auto. }
  unfold ensure_user; rewrite Ha; cbn [negb].
  unfold bind, supa_exec, ret, with_store; cbn [Db.execute store requests ticks outbox].
  unfold users_of in Hu. rewrite H1, Hu; cbn.
  rewrite length_snoc, H2, Hex; cbn. rewrite <- app_assoc; reflexivity.
Qed.

(** The run of [ensure_user] when the select fails. *)
Lemma ensure_user_select_failed (tg chat : Z) (w : world) :
  is_allowed tg = true ->
  store_fails (length (requests w)) = true ->
  ensure_user tg chat w
  = (Val None, with_store w (store w) (requests w ++ [(lit "exp_users.select", true)])).
Proof.
  intros Ha H1. unfold ensure_user; rewrite Ha; cbn [negb].
  unfold bind, supa_exec, ret, with_store; cbn [Db.execute store requests ticks outbox].
  rewrite H1; reflexivity.
Qed.

(** [ensure_user] never raises. *)
Lemma ensure_user_returns (tg chat : Z) (w : world) :
  exists r, eval (ensure_user tg chat) w = Val r.
Proof.
  unfold eval, ensure_user. destruct (negb (is_allowed tg)); [eexists; reflexivity|].
  unfold bind, supa_exec, ret, with_store.
  destruct (store_fails (length (requests w))); [eexists; reflexivity|].
  destruct (Db.execute (Db.users_select_id tg) (store w)) as [[[uid|] d]|];
    cbn [fst snd store requests];
    try (eexists; reflexivity);
    destruct (store_fails _); cbn; try (eexists; reflexivity).
  - destruct (existsb _ _); cbn; eexists; reflexivity.
Qed.

Lemma rechat_identity (uid chat : Z) (us : list User.row) :
  map identity (rechat uid chat us) = map identity us.
Proof.
  unfold rechat; rewrite map_map; apply map_ext; intros r.
  destruct (User.id r =? uid)%Z; reflexivity.
Qed.

Lemma rechat_spec (uid chat : Z) (us : list User.row) (r : User.row) :
  In r (rechat uid chat us) ->
  (User.id r = uid /\ User.tg_chat_id r = chat) \/ (User.id r <> uid /\ In r us).
Proof.
  unfold rechat; rewrite in_map_iff; intros (x & Hx & Hin).
  destruct (User.id x =? uid)%Z eqn:E.
  - left; subst r; simpl; split; [apply Z.eqb_eq, E | reflexivity].
  - right; subst r; split; [apply Z.eqb_neq, E | exact Hin].
Qed.

(** X1: for an allowed sender with one row in [exp_users] and an applied
    select, [ensure_user] returns the id of the row whether the update of
    the chat is applied or lost; no row is added or removed, ids and
    senders stay, and after an applied update the rows with that id carry
    the new chat while the others are the ones before. *)
Theorem ensure_user_resolves_known (tg chat : Z) (w : world) (u : User.row) :
  is_allowed tg = true ->
  store_fails (length (requests w)) = false ->
  users_of tg (store w) = [u] ->
  let w' := exec (ensure_user tg chat) w in
  eval (ensure_user tg chat) w = Val (Some (User.id u))
  /\ map identity (Db.exp_users (store w')) = map identity (Db.exp_users (store w))
  /\ Db.exp_users_seq (store w') = Db.exp_users_seq (store w)
  /\ (store_fails (S (length (requests w))) = true -> store w' = store w)
  /\ (store_fails (S (length (requests w))) = false ->
      forall r, In r (Db.exp_users (store w')) ->
                (User.id r = User.id u /\ User.tg_chat_id r = chat)
                \/ (User.id r <> User.id u /\ In r (Db.exp_users (store w)))).
Proof.
  intros Ha H1 Hu w'. subst w'; unfold exec, eval.
  rewrite (ensure_user_known tg chat w u Ha H1 Hu). cbn [fst snd store].
  destruct (store_fails (S (length (requests w)))); cbn.
  - repeat split; discriminate.
  - split; [reflexivity|]. split; [apply rechat_identity|].
    split; [reflexivity|]. split; [discriminate|].
    intros _ r; apply rechat_spec.
Qed.

(** X2: registration and lookup compose.  For an allowed sender without a
    row, with the select and the insert applied, [ensure_user] adds exactly
    one row, with the next id of the store, and returns that id; a second
    call whose select is applied returns the same id and adds no row. *)
Theorem ensure_user_registers_once (tg chat chat' : Z) (w : world) :
  is_allowed tg = true ->
  users_of tg (store w) = [] ->
  store_fails (length (requests w)) = false ->
  store_fails (S (length (requests w))) = false ->
  store_fails (S (S (length (requests w)))) = false ->
  let uid := Db.exp_users_seq (store w) in
  let w1 := exec (ensure_user tg chat) w in
  let w2 := exec (ensure_user tg chat') w1 in
  eval (ensure_user tg chat) w = Val (Some uid)
  /\ Db.exp_users (store w1)
     = Db.exp_users (store w)
         ++ [{| User.id := uid; User.tg_user_id := tg; User.tg_chat_id := chat |}]
  /\ eval (ensure_user tg chat') w1 = Val (Some uid)
  /\ map identity (Db.exp_users (store w2)) = map identity (Db.exp_users (store w1)).
Proof.
  intros Ha Hu H1 H2 H3 uid w1 w2.
  pose proof (ensure_user_new tg chat w Ha H1 H2 Hu) as E1. cbv zeta in E1.
  assert (W1 : w1 = snd (ensure_user tg chat w)) by reflexivity.
  rewrite E1 in W1; cbn [snd] in W1.
  set (u := {| User.id := uid; User.tg_user_id := tg; User.tg_chat_id := chat |}) in *.
  assert (Hu1 : users_of tg (store w1) = [u]).
  { rewrite W1; unfold users_of; cbn [store Db.exp_users Db.with_users].
    rewrite filter_app. unfold users_of in Hu; rewrite Hu.
    cbn. rewrite Z.eqb_refl; reflexivity. }
  assert (H1' : store_fails (length (requests w1)) = false).
  { rewrite W1; cbn [requests]. rewrite length_app; cbn [length].
    rewrite Nat.add_comm; exact H3. }
  pose proof (ensure_user_known tg chat' w1 u Ha H1' Hu1) as E2. cbv zeta in E2.
  subst w2; unfold exec, eval. rewrite E2, E1. cbn [fst snd store].
  split; [reflexivity|]. split; [rewrite W1; reflexivity|].
  split; [reflexivity|].
  destruct (store_fails (S (length (requests w1)))); [reflexivity|].
  apply rechat_identity.
Qed.

(** X3: when the select on [exp_users] fails, an allowed sender is
    answered "Access error (not whitelisted in DB)." by [handle_text],
    whatever the text, and by [cmd_start]; the store is as before and no
    other request is made. *)
Theorem registry_failure_is_access_error (m : message) (w : world) :
  is_allowed (from_user_id m) = true ->
  store_fails (length (requests w)) = true ->
  let w1 := with_store w (store w) (requests w ++ [(lit "exp_users.select", true)]) in
  handle_text m w = (Val tt, and_sent w1 (reply m msg_access_error))
  /\ cmd_start m w = (Val tt, and_sent w1 (reply m msg_access_error)).
Proof.
  intros Ha H1 w1.
  pose proof (ensure_user_select_failed (from_user_id m) (chat_id m) w Ha H1) as E.
  unfold handle_text, cmd_start. rewrite Ha; cbn [negb].
  rewrite !(bind_val _ _ _ _ _ E). split; reflexivity.
Qed.

(** X4: the test [if not user_id] takes the id 0 for a failure: a sender
    whose row in [exp_users] has the id 0 is answered with the access
    error, after the select and the update of the chat, and no command or
    state is looked at. *)
Theorem user_id_zero_is_access_error (m : message) (w : world) (u : User.row) :
  is_allowed (from_user_id m) = true ->
  store_fails (length (requests w)) = false ->
  users_of (from_user_id m) (store w) = [u] ->
  User.id u = 0%Z ->
  let w' := exec (handle_text m) w in
  eval (handle_text m) w = Val tt
  /\ outbox w' = outbox w ++ [reply m msg_access_error]
  /\ Db.exp_bot_state (store w') = Db.exp_bot_state (store w)
  /\ Db.exp_expenses (store w') = Db.exp_expenses (store w)
  /\ requests w'
     = requests w ++ [(lit "exp_users.select", false);
                      (lit "exp_users.update", store_fails (S (length (requests w))))].
Proof.
  intros Ha H1 Hu H0 w'.
  pose proof (ensure_user_known (from_user_id m) (chat_id m) w u Ha H1 Hu) as E.
  cbv zeta in E.
  subst w'; unfold exec, eval, handle_text. rewrite Ha; cbn [negb].
  rewrite (bind_val _ _ _ _ _ E), H0. cbn.
  destruct (store_fails (S (length (requests w)))); repeat split.
Qed.

(** ** The state store: round trips *)

Lemma upsert_filter_other (uid : Z) (r : State.row) (st : list State.row) :
  State.user_id r <> uid ->
  filter (Db.owns uid) (Db.upsert r st) = filter (Db.owns uid) st.
Proof.
  intros Hn.
  assert (Hr : Db.owns uid r = false) by (apply Z.eqb_neq; exact Hn).
  unfold Db.upsert. destruct (existsb _ st).
  - induction st as [|x st IH]; simpl; [reflexivity|].
    destruct (Db.owns (State.user_id r) x) eqn:E.
    + rewrite Hr. apply Z.eqb_eq in E.
      assert (Hx : Db.owns uid x = false) by (apply Z.eqb_neq; congruence).
      rewrite Hx; exact IH.
    + destruct (Db.owns uid x); [f_equal|]; exact IH.
  - rewrite filter_app; simpl; rewrite Hr; apply app_nil_r.
Qed.

Lemma delete_filter_other (uid uid' : Z) (st : list State.row) :
  uid' <> uid ->
  filter (Db.owns uid') (filter (fun r => negb (Db.owns uid r)) st)
  = filter (Db.owns uid') st.
Proof.
  intros Hn. induction st as [|x st IH]; simpl; [reflexivity|].
  destruct (Db.owns uid x) eqn:E; simpl.
  - apply Z.eqb_eq in E.
    assert (Hx : Db.owns uid' x = false) by (apply Z.eqb_neq; congruence).
    rewrite Hx; exact IH.
  - destruct (Db.owns uid' x); [f_equal|]; exact IH.
Qed.

(** An upsert on a table with exactly one row of the user replaces it. *)
Lemma upsert_replaces (r x : State.row) (st : list State.row) :
  filter (Db.owns (State.user_id r)) st = [x] ->
  filter (Db.owns (State.user_id r)) (Db.upsert r st) = [r].
Proof.
  intros H. unfold Db.upsert.
  assert (E : existsb (Db.owns (State.user_id r)) st = true).
  { apply existsb_exists; exists x.
    apply filter_In; rewrite H; left; reflexivity. }
  rewrite E. clear E. revert H.
  induction st as [|y st IH]; simpl; [discriminate|].
  destruct (Db.owns (State.user_id r) y) eqn:E; simpl.
  - rewrite owns_self. intros [= _ H]. f_equal.
    clear IH. induction st as [|z st IH]; simpl; [reflexivity|].
    simpl in H. destruct (Db.owns (State.user_id r) z) eqn:Ez; [discriminate|].
    simpl; rewrite Ez; apply IH, H.
  - rewrite E; exact IH.
Qed.

Lemma clear_state_ok (uid : Z) (w : world) :
  store_fails (length (requests w)) = false ->
  clear_state uid w
  = (Val tt,
     {| store := Db.with_state (store w)
                   (filter (fun r => negb (Db.owns uid r)) (Db.exp_bot_state (store w)));
        requests := requests w ++ [(lit "exp_bot_state.delete", false)];
        ticks := ticks w;
        outbox := outbox w |}).
Proof.
  intros H; unfold clear_state, bind, supa_exec, ret, with_store; cbn.
  rewrite H; reflexivity.
Qed.

(** X5: what [set_state] writes, [get_state] reads.  On a table with one
    row per user, after an applied [set_state] an applied [get_state] of the
    same user returns the row just written and changes nothing; for another
    user it returns the rows that were there before. *)
Theorem set_state_then_get_state
    (uid : Z) (action : option str) (amt : option float) (w : world) :
  one_row_per_user (Db.exp_bot_state (store w)) ->
  store_fails (length (requests w)) = false ->
  store_fails (S (length (requests w))) = false ->
  let w1 := exec (set_state uid action amt) w in
  eval (get_state uid) w1 = Val (Some (state_row uid action amt (ticks w)))
  /\ store (exec (get_state uid) w1) = store w1
  /\ (forall uid', uid' <> uid ->
        filter (Db.owns uid') (Db.exp_bot_state (store w1))
        = filter (Db.owns uid') (Db.exp_bot_state (store w))).
Proof.
  intros Hk H1 H2 w1.
  assert (W1 : w1 = snd (set_state uid action amt w)) by reflexivity.
  rewrite (set_state_ok uid action amt w H1) in W1; cbn [snd] in W1.
  set (row := state_row uid action amt (ticks w)) in *.
  assert (Hf : filter (Db.owns uid) (Db.exp_bot_state (store w1)) = [row]).
  { rewrite W1; cbn [store Db.exp_bot_state Db.with_state].
    apply (upsert_exactly_one row), Hk. }
  assert (H2' : store_fails (length (requests w1)) = false).
  { rewrite W1; cbn [requests]. rewrite length_snoc; exact H2. }
  unfold eval, exec.
  rewrite (get_state_ok uid w1 (Some row) H2' ltac:(rewrite Hf; reflexivity)).
  cbn [fst snd store with_store].
  split; [reflexivity|]. split; [reflexivity|].
  intros uid' Hn. rewrite W1; cbn [store Db.exp_bot_state Db.with_state].
  apply upsert_filter_other. cbn. congruence.
Qed.

(** X6: what [clear_state] deletes, [get_state] no longer finds.  After an
    applied [clear_state] an applied [get_state] of the user returns [None],
    the rows of the other users are the ones before, and a [set_state]
    followed by [clear_state] leaves the table as [clear_state] alone
    does. *)
Theorem clear_state_then_get_state
    (uid : Z) (action : option str) (amt : option float) (w : world) :
  store_fails (length (requests w)) = false ->
  store_fails (S (length (requests w))) = false ->
  let w1 := exec (clear_state uid) w in
  eval (get_state uid) w1 = Val None
  /\ Db.exp_bot_state (store w1)
     = filter (fun r => negb (Db.owns uid r)) (Db.exp_bot_state (store w))
  /\ (forall uid', uid' <> uid ->
        filter (Db.owns uid') (Db.exp_bot_state (store w1))
        = filter (Db.owns uid') (Db.exp_bot_state (store w)))
  /\ Db.exp_bot_state (store (exec (clear_state uid) (exec (set_state uid action amt) w)))
     = Db.exp_bot_state (store w1).
Proof.
  intros H1 H2 w1.
  assert (W1 : w1 = snd (clear_state uid w)) by reflexivity.
  rewrite (clear_state_ok uid w H1) in W1; cbn [snd] in W1.
  assert (H2' : store_fails (length (requests w1)) = false).
  { rewrite W1; cbn [requests]. rewrite length_snoc; exact H2. }
  assert (Hf : filter (Db.owns uid) (Db.exp_bot_state (store w1)) = []).
  { rewrite W1; cbn [store Db.exp_bot_state Db.with_state].
    apply filter_owner_removed. }
  unfold eval.
  rewrite (get_state_ok uid w1 None H2' ltac:(rewrite Hf; reflexivity)).
  split; [reflexivity|]. split; [rewrite W1; reflexivity|]. split.
  - intros uid' Hn. rewrite W1; cbn [store Db.exp_bot_state Db.with_state].
    apply delete_filter_other, Hn.
  - unfold exec at 2. rewrite (set_state_ok uid action amt w H1). cbn [snd].
    unfold exec. rewrite clear_state_ok by (cbn [requests]; rewrite length_snoc; exact H2).
    cbn [snd store Db.exp_bot_state Db.with_state].
    rewrite W1; cbn [store Db.exp_bot_state Db.with_state].
    apply (upsert_others (state_row uid action amt (ticks w))).
Qed.

(** ** The state machine: the amount, and the text nobody waits for *)

Lemma await_amount_run (chat uid : Z) (text : str) (w : world) (st : State.row)
    (amt : float) :
  store_fails (length (requests w)) = false ->
  filter (Db.owns uid) (Db.exp_bot_state (store w)) = [st] ->
  State.pending_action st = Some AWAIT_AMOUNT ->
  parse_amount text = Some amt -> Float.truthy amt = true ->
  let w1 := with_store w (store w) (requests w ++ [(lit "exp_bot_state.select", false)]) in
  state_machine chat uid text w
  = (Val tt, and_sent (exec (set_state uid (Some AWAIT_TITLE) (Some amt)) w1)
                      (sent chat (msg_amount_ok amt) false)).
Proof.
  intros H1 Hst Hpa Hp Ht w1.
  unfold state_machine.
  rewrite (bind_val _ _ _ _ _ (get_state_ok uid w (Some st) H1 ltac:(rewrite Hst; reflexivity))).
  cbv beta iota. rewrite Hpa.
  change (Str.eqb AWAIT_AMOUNT AWAIT_AMOUNT) with true.
  cbv iota. rewrite Hp, Ht. fold w1.
  unfold bind, exec.
  destruct (set_state_cases uid (Some AWAIT_TITLE) (Some amt) w1) as [E|E];
    rewrite E; reflexivity.
Qed.

Lemma await_amount_rejected (chat uid : Z) (text : str) (w : world) (st : State.row) :
  store_fails (length (requests w)) = false ->
  filter (Db.owns uid) (Db.exp_bot_state (store w)) = [st] ->
  State.pending_action st = Some AWAIT_AMOUNT ->
  parse_amount text = None
  \/ (exists v, parse_amount text = Some v /\ Float.truthy v = false) ->
  state_machine chat uid text w
  = (Val tt,
     and_sent (with_store w (store w)
                 (requests w ++ [(lit "exp_bot_state.select", false)]))
              (sent chat msg_invalid_amount false)).
Proof.
  intros H1 Hst Hpa [Hp|(v & Hp & Ht)].
  - unfold state_machine.
    rewrite (bind_val _ _ _ _ _ (get_state_ok uid w (Some st) H1 ltac:(rewrite Hst; reflexivity))).
    cbv beta iota. rewrite Hpa.
    change (Str.eqb AWAIT_AMOUNT AWAIT_AMOUNT) with true.
    cbv iota. rewrite Hp. reflexivity.
  - eapply await_amount_zero; eassumption.
Qed.

(** A state that asks for nothing: no row, or a row whose pending action
    is neither of the two that [handle_text] knows. *)
Lemma state_machine_idle (chat uid : Z) (text : str) (w w2 : world)
    (r : option State.row) :
  get_state uid w = (Val r, w2) ->
  match r with
  | None => True
  | Some st => State.pending_action st <> Some AWAIT_AMOUNT
               /\ State.pending_action st <> Some AWAIT_TITLE
  end ->
  state_machine chat uid text w = (Val tt, and_sent w2 (sent chat msg_fallback true)).
Proof.
  intros E Hi. unfold state_machine.
  rewrite (bind_val _ _ _ _ _ E).
  destruct r as [st|]; [|reflexivity].
  destruct Hi as [Ha Ht].
  destruct (State.pending_action st) as [a|]; [|reflexivity].
  assert (Ea : Str.eqb a AWAIT_AMOUNT = false) by (apply str_eqb_neq; congruence).
  assert (Et : Str.eqb a AWAIT_TITLE = false) by (apply str_eqb_neq; congruence).
  rewrite Ea, Et. reflexivity.
Qed.

(** X7: the amount step.  For a resolved user whose state awaits an amount,
    a free text that [parse_amount] accepts with a truthy value is answered
    with the amount and the request for a title; the value is greater than
    zero, no expense is written, and when the upsert is applied the user
    has exactly one state row: [await_title] with that amount.  When the
    upsert fails the same answer is sent and the state still awaits the
    amount. *)
Theorem amount_step (m : message) (w w1 : world) (uid : Z) (st : State.row)
    (amt : float) :
  let text := Str.strip (text m) in
  let n := length (requests w1) in
  ensure_user (from_user_id m) (chat_id m) w = (Val (Some uid), w1) ->
  uid <> 0%Z ->
  text <> ADD_EXPENSE -> text <> SEE_EXPENSES -> text <> SEE_LAST_MONTH ->
  store_fails n = false ->
  filter (Db.owns uid) (Db.exp_bot_state (store w1)) = [st] ->
  State.pending_action st = Some AWAIT_AMOUNT ->
  parse_amount text = Some amt -> Float.truthy amt = true ->
  let w' := exec (handle_text m) w in
  eval (handle_text m) w = Val tt
  /\ Float.ltb Float.zero amt = true
  /\ outbox w' = outbox w ++ [sent (chat_id m) (msg_amount_ok amt) false]
  /\ Db.exp_expenses (store w') = Db.exp_expenses (store w)
  /\ (store_fails (S n) = false ->
      filter (Db.owns uid) (Db.exp_bot_state (store w'))
      = [state_row uid (Some AWAIT_TITLE) (Some amt) (ticks w)])
  /\ (store_fails (S n) = true -> store w' = store w1).
Proof.
  intros text n He Hu T1 T2 T3 H1 Hst Hpa Hp Ht w'.
  destruct (ensure_user_frame _ _ _ _ _ He) as ((_ & Fe & _) & Fo & Ft & _).
  assert (E : handle_text m w
              = (Val tt,
                 and_sent (exec (set_state uid (Some AWAIT_TITLE) (Some amt))
                             (with_store w1 (store w1)
                                (requests w1 ++ [(lit "exp_bot_state.select", false)])))
                          (sent (chat_id m) (msg_amount_ok amt) false))).
  { rewrite (handle_text_resolved _ _ _ _ He Hu). fold text.
    rewrite (handle_command_free_text _ _ _ _ T1 T2 T3).
    apply (await_amount_run _ _ _ _ st); assumption. }
  unfold eval; subst w'; unfold exec; rewrite E; cbn [fst snd].
  split; [reflexivity|].
  split; [eapply parse_amount_truthy_positive; eassumption|].
  unfold exec.
  destruct (store_fails (S n)) eqn:F2.
  - rewrite set_state_failed
      by (cbn [requests with_store]; rewrite length_snoc; exact F2).
    cbn [snd and_sent outbox store with_store].
    rewrite Fo. split; [reflexivity|]. split; [exact Fe|].
    split; [discriminate | reflexivity].
  - rewrite set_state_ok
      by (cbn [requests with_store]; rewrite length_snoc; exact F2).
    cbn [snd and_sent outbox store with_store ticks Db.exp_expenses Db.with_state
         Db.exp_bot_state].
    rewrite Fo, Ft. split; [reflexivity|]. split; [exact Fe|].
    split; [|discriminate]. intros _.
    apply (upsert_replaces (state_row uid (Some AWAIT_TITLE) (Some amt) (ticks w)) st).
    exact Hst.
Qed.

(** X8: a text that is no amount.  For a resolved user whose state awaits
    an amount, a free text that [parse_amount] rejects, or accepts with the
    value zero, is answered with the invalid-amount notice; only the read
    of the state is issued and the store is left as it was, so the state
    still awaits the amount. *)
Theorem invalid_amount_keeps_waiting (m : message) (w w1 : world) (uid : Z)
    (st : State.row) :
  let text := Str.strip (text m) in
  ensure_user (from_user_id m) (chat_id m) w = (Val (Some uid), w1) ->
  uid <> 0%Z ->
  text <> ADD_EXPENSE -> text <> SEE_EXPENSES -> text <> SEE_LAST_MONTH ->
  store_fails (length (requests w1)) = false ->
  filter (Db.owns uid) (Db.exp_bot_state (store w1)) = [st] ->
  State.pending_action st = Some AWAIT_AMOUNT ->
  parse_amount text = None
  \/ (exists v, parse_amount text = Some v /\ Float.truthy v = false) ->
  let w' := exec (handle_text m) w in
  eval (handle_text m) w = Val tt
  /\ outbox w' = outbox w ++ [sent (chat_id m) msg_invalid_amount false]
  /\ store w' = store w1
  /\ requests w' = requests w1 ++ [(lit "exp_bot_state.select", false)]
  /\ ticks w' = ticks w.
Proof.
  intros text He Hu T1 T2 T3 H1 Hst Hpa Hp w'.
  destruct (ensure_user_frame _ _ _ _ _ He) as (_ & Fo & Ft & _).
  assert (E : handle_text m w
              = (Val tt,
                 and_sent (with_store w1 (store w1)
                             (requests w1 ++ [(lit "exp_bot_state.select", false)]))
                          (sent (chat_id m) msg_invalid_amount false))).
  { rewrite (handle_text_resolved _ _ _ _ He Hu). fold text.
    rewrite (handle_command_free_text _ _ _ _ T1 T2 T3).
    apply (await_amount_rejected _ _ _ _ st); assumption. }
  unfold eval; subst w'; unfold exec; rewrite E; cbn.
  rewrite Fo, Ft. repeat split.
Qed.

(** X9: the fallback.  For a resolved user with no state row, with a state
    that cannot be read, or with a row whose pending action is neither
    [await_amount] nor [await_title], a free text is answered with the hint
    to use the buttons, with the keyboard attached; only the read of the
    state is issued and the store is left as it was. *)
Theorem free_text_without_state (m : message) (w w1 : world) (uid : Z)
    (r : option State.row) :
  let text := Str.strip (text m) in
  ensure_user (from_user_id m) (chat_id m) w = (Val (Some uid), w1) ->
  uid <> 0%Z ->
  text <> ADD_EXPENSE -> text <> SEE_EXPENSES -> text <> SEE_LAST_MONTH ->
  eval (get_state uid) w1 = Val r ->
  match r with
  | None => True
  | Some st => State.pending_action st <> Some AWAIT_AMOUNT
               /\ State.pending_action st <> Some AWAIT_TITLE
  end ->
  let w' := exec (handle_text m) w in
  eval (handle_text m) w = Val tt
  /\ outbox w' = outbox w ++ [sent (chat_id m) msg_fallback true]
  /\ store w' = store w1
  /\ (exists b, requests w' = requests w1 ++ [(lit "exp_bot_state.select", b)])
  /\ ticks w' = ticks w.
Proof.
  intros text He Hu T1 T2 T3 Hg Hi w'.
  destruct (ensure_user_frame _ _ _ _ _ He) as (_ & Fo & Ft & _).
  destruct (get_state_found uid w1) as (r' & b & Eg & _).
  unfold eval in Hg; rewrite Eg in Hg; cbn [fst] in Hg.
  injection Hg as ->.
  pose proof (state_machine_idle (chat_id m) uid text _ _ _ Eg Hi) as E.
  rewrite <- (handle_command_free_text _ _ _ _ T1 T2 T3) in E.
  unfold text in E. rewrite <- (handle_text_resolved _ _ _ _ He Hu) in E.
  unfold eval; subst w'; unfold exec; rewrite E; cbn.
  rewrite Fo, Ft. repeat split. exists b; reflexivity.
Qed.

Lemma welcome_not_denied : msg_welcome <> msg_denied.
Proof. intros E; vm_compute in E; discriminate E. Qed.

Lemma welcome_not_access_error : msg_welcome <> msg_access_error.
Proof. intros E; vm_compute in E; discriminate E. Qed.

(** X10: [/start] and [/help].  The handler always ends with exactly one
    message to the chat of the sender; it never reads the clock and leaves
    [exp_bot_state], [exp_expenses] and [exp_monthly_totals] as they were,
    so a pending action survives a [/start].  The message is the welcome
    exactly when [ensure_user] resolves the sender to an id other than 0,
    and the welcome carries the keyboard. *)
Theorem cmd_start_answers (m : message) (w : world) :
  let w' := exec (cmd_start m) w in
  eval (cmd_start m) w = Val tt
  /\ same_ledger (store w) (store w')
  /\ ticks w' = ticks w
  /\ exists o,
       outbox w' = outbox w ++ [o]
       /\ to_chat o = chat_id m
       /\ (body o = msg_welcome <->
           exists uid, eval (ensure_user (from_user_id m) (chat_id m)) w = Val (Some uid)
                       /\ uid <> 0%Z)
       /\ (body o = msg_welcome -> reply_markup o = true).
Proof.
  intros w'; subst w'. unfold eval, exec, cmd_start.
  destruct (is_allowed (from_user_id m)) eqn:Ha; cbn [negb]; cbv iota.
  2:{ unfold ensure_user; rewrite Ha; cbn.
      split; [reflexivity|]. split; [apply same_ledger_refl|].
      split; [reflexivity|]. eexists; split; [reflexivity|]. cbn.
      split; [reflexivity|]. split.
      - split; [intros E; symmetry in E; destruct (welcome_not_denied E)|].
        intros (uid & E & _); discriminate E.
      - intros E; symmetry in E; destruct (welcome_not_denied E). }
  unfold bind.
  destruct (ensure_user (from_user_id m) (chat_id m) w) as [[[uid|]|e] w1] eqn:E.
  - destruct (ensure_user_frame _ _ _ _ _ E) as (Fl & Fo & Ft & _).
    destruct (uid =? 0)%Z eqn:Z0; cbn; rewrite Fo, Ft.
    + split; [reflexivity|]. split; [exact Fl|]. split; [reflexivity|].
      eexists; split; [reflexivity|]. cbn. split; [reflexivity|]. split.
      * split; [intros X; symmetry in X; destruct (welcome_not_access_error X)|].
        intros (u & [= <-] & Hn). apply Z.eqb_eq in Z0. contradiction.
      * intros X; symmetry in X; destruct (welcome_not_access_error X).
    + split; [reflexivity|]. split; [exact Fl|]. split; [reflexivity|].
      eexists; split; [reflexivity|]. cbn. split; [reflexivity|]. split.
      * split; [|reflexivity]. intros _. exists uid; split; [reflexivity|].
        apply Z.eqb_neq, Z0.
      * reflexivity.
  - destruct (ensure_user_frame _ _ _ _ _ E) as (Fl & Fo & Ft & _).
    cbn; rewrite Fo, Ft.
    split; [reflexivity|]. split; [exact Fl|]. split; [reflexivity|].
    eexists; split; [reflexivity|]. cbn. split; [reflexivity|]. split.
    + split; [intros X; symmetry in X; destruct (welcome_not_access_error X)|].
      intros (u & X & _); discriminate X.
    + intros X; symmetry in X; destruct (welcome_not_access_error X).
  - destruct (ensure_user_returns (from_user_id m) (chat_id m) w) as (o & E2).
    unfold eval in E2; rewrite E in E2; discriminate E2.
Qed.

(** X11: every text is answered.  On a store whose rows that await a
    title carry an amount, [handle_text] ends with exactly one message to
    the chat of the sender, whoever the sender is and whichever requests
    fail; the one exception is the [ValueError] of a report whose month
    cannot be built from the reading of the clock, which sends nothing.
    The hypothesis keeps the run away from the [TypeError] of formatting
    an amount that is null in the confirmation. *)
Theorem every_text_is_answered (m : message) (w : world) :
  staged (store w) ->
  let w' := exec (handle_text m) w in
  (eval (handle_text m) w = Val tt
   /\ exists o, outbox w' = outbox w ++ [o] /\ to_chat o = chat_id m)
  \/ (eval (handle_text m) w = Exc ValueError
      /\ outbox w' = outbox w
      /\ no_month (clock (ticks w))).
Proof.
  intros _ w'; subst w'. unfold eval, exec, handle_text.
  destruct (negb (is_allowed (from_user_id m))).
  { left. cbn. split; [reflexivity|]. eexists; split; reflexivity. }
  unfold bind.
  destruct (ensure_user (from_user_id m) (chat_id m) w) as [[[uid|]|e] w1] eqn:E.
  - destruct (ensure_user_frame _ _ _ _ _ E) as (_ & Fo & Ft & _).
    destruct (uid =? 0)%Z eqn:Z0.
    + left. cbn. rewrite Fo. split; [reflexivity|]. eexists; split; reflexivity.
    + destruct (handle_command (chat_id m) uid (Str.strip (text m)) w1) as [r w'] eqn:E'.
      apply handle_command_effects in E'
        as (_ & _ & [(-> & o & Ho & Hc)|(-> & Ho & _ & _ & Hn)]).
      * left; cbn. split; [reflexivity|]. exists o. rewrite Ho, Fo.
        split; [reflexivity | exact Hc].
      * right; cbn. rewrite Ho, Fo, <- Ft. repeat split; exact Hn.
  - destruct (ensure_user_frame _ _ _ _ _ E) as (_ & Fo & Ft & _).
    left. cbn. rewrite Fo. split; [reflexivity|]. eexists; split; reflexivity.
  - destruct (ensure_user_returns (from_user_id m) (chat_id m) w) as (o & E2).
    unfold eval in E2; rewrite E in E2; discriminate E2.
Qed.

(** ** What every sequence of updates keeps *)

Lemma registry_grows_refl (d : Db.t) : registry_grows d d.
Proof. exists []; rewrite app_nil_r; reflexivity. Qed.

Lemma registry_grows_trans (a b c : Db.t) :
  registry_grows a b -> registry_grows b c -> registry_grows a c.
Proof.
  intros (l1 & H1) (l2 & H2). exists (l1 ++ l2).
  rewrite H2, H1, app_assoc; reflexivity.
Qed.

Lemma ensure_user_registry (tg chat : Z) :
  preserves (fun w w' => registry_grows (store w) (store w')) (ensure_user tg chat).
Proof.
  set (P := fun w w' : world => registry_grows (store w) (store w')).
  assert (R : forall w, P w w) by (intros; apply registry_grows_refl).
  assert (T : forall a b c, P a b -> P b c -> P a c)
    by (intros a b c; apply registry_grows_trans).
  assert (L : forall label w b,
             P w (with_store w (store w) (requests w ++ [(label, b)])))
    by (intros; apply registry_grows_refl).
  assert (I : forall w a d,
             Db.execute (Db.users_insert tg chat) (store w) = Some (a, d) ->
             P w (with_store w d (requests w ++ [(lit "exp_users.insert", false)]))).
  { intros w a d E; simpl in E. destruct (existsb _ _); invert_pairs.
    unfold P, registry_grows; cbn. eexists. rewrite map_app; reflexivity. }
  unfold ensure_user. destruct (negb (is_allowed tg)); [apply preserves_ret, R|].
  apply preserves_bind; auto.
  { apply preserves_supa_exec; [apply L|].
    intros w a d E; apply execute_users_select in E; subst d; apply L. }
  intros [data err]. destruct err; [apply preserves_ret, R|].
  destruct data as [[user_id|]|].
  - apply preserves_bind; auto; [|intros; apply preserves_ret, R].
    apply preserves_supa_exec; [apply L|].
    intros w a d E; simpl in E; invert_pairs.
    unfold P, registry_grows; cbn. exists [].
    rewrite app_nil_r. apply rechat_identity.
  - apply preserves_bind; auto.
    { apply preserves_supa_exec; [apply L | exact I]. }
    intros [d e]; destruct e; [apply preserves_ret, R|].
    destruct d as [[|x l]|]; apply preserves_ret, R.
  - apply preserves_bind; auto.
    { apply preserves_supa_exec; [apply L | exact I]. }
    intros [d e]; destruct e; [apply preserves_ret, R|].
    destruct d as [[|x l]|]; apply preserves_ret, R.
Qed.

(** Every update is the resolution of the sender followed by one reply or
    by a run of [handle_command]. *)
Lemma handle_shape (u : update) (w : world) :
  exists w1,
    users_only w w1
    /\ registry_grows (store w) (store w1)
    /\ (same_but_outbox w1 (exec (handle u) w)
        \/ exists chat uid text r,
             handle_command chat uid text w1 = (r, exec (handle u) w)).
Proof.
  assert (D : forall (m : message) (b : str),
             same_but_outbox w (snd (reply_to m b w))) by (intros; repeat split).
  destruct u as [m|m]; unfold exec, handle.
  - unfold cmd_start.
    destruct (negb (is_allowed (from_user_id m))).
    { exists w. split; [apply users_only_refl|].
      split; [apply registry_grows_refl | left; apply D]. }
    unfold bind.
    destruct (ensure_user (from_user_id m) (chat_id m) w) as [[[uid|]|e] w1] eqn:E;
      exists w1; (split; [eapply ensure_user_frame, E|]);
      (split; [eapply (ensure_user_registry _ _ _ _ _ E)|]);
      left; try destruct (uid =? 0)%Z; repeat split.
  - unfold handle_text.
    destruct (negb (is_allowed (from_user_id m))).
    { exists w. split; [apply users_only_refl|].
      split; [apply registry_grows_refl | left; apply D]. }
    unfold bind.
    destruct (ensure_user (from_user_id m) (chat_id m) w) as [[[uid|]|e] w1] eqn:E;
      exists w1; (split; [eapply ensure_user_frame, E|]);
      (split; [eapply (ensure_user_registry _ _ _ _ _ E)|]).
    + destruct (uid =? 0)%Z; [left; repeat split|].
      right. exists (chat_id m), uid, (Str.strip (text m)).
      destruct (handle_command _ _ _ w1) as [r w'] eqn:E'.
      exists r; reflexivity.
    + left; repeat split.
    + left; repeat split.
Qed.

Lemma grows_refl (w : world) : grows w w.
Proof.
  split; [apply registry_grows_refl|].
  split; [exists []; split; [rewrite app_nil_r; reflexivity | constructor]|].
  split; [reflexivity | lia].
Qed.

Lemma grows_trans (a b c : world) : grows a b -> grows b c -> grows a c.
Proof.
  intros (U1 & (l1 & E1 & S1) & M1 & T1) (U2 & (l2 & E2 & S2) & M2 & T2).
  split; [eapply registry_grows_trans; eassumption|].
  split; [|split; [congruence | lia]].
  exists (l1 ++ l2). split; [rewrite E2, E1, app_assoc; reflexivity|].
  apply Forall_app; split; (eapply Forall_impl; [|eassumption]);
    intros r (k & Hk & Hr); exists k; (split; [lia | exact Hr]).
Qed.

Lemma handle_grows (u : update) (w : world) : grows w (exec (handle u) w).
Proof.
  destruct (handle_shape u w) as (w1 & ((_ & Fe & Fm) & _ & Ft & _) & Hr & Hc).
  destruct Hc as [(S1 & T1 & _) | (chat & uid & text & r & E)].
  - split; [rewrite S1; exact Hr|].
    split; [exists []; split; [rewrite app_nil_r, S1; exact Fe | constructor]|].
    split; [rewrite S1; exact Fm | lia].
  - pose proof (handle_command_effects _ _ _ _ _ _ E) as ((K1 & _ & K3) & _ & _).
    apply handle_command_summary in E as (rs & _ & Hk & _ & He & _).
    split; [destruct Hr as (l & Hl); exists l; rewrite K1; exact Hl|].
    split; [|split; [congruence | lia]].
    destruct He as [He | (amt & title & He & Hs)].
    + exists []; split; [rewrite app_nil_r; congruence | constructor].
    + eexists; split; [rewrite He, Fe; reflexivity|].
      repeat constructor. exists (ticks w1); split; [lia | reflexivity].
Qed.

(** The delete of the rows of a user keeps the key of the table. *)
Lemma delete_keeps_key (uid : Z) (st : list State.row) :
  one_row_per_user st ->
  one_row_per_user (filter (fun r => negb (Db.owns uid r)) st).
Proof.
  unfold one_row_per_user.
  induction st as [|x st IH]; intros H; cbn [filter map]; [exact H|].
  cbn [map] in H. apply NoDup_cons_iff in H as [Hx Hst].
  destruct (negb (Db.owns uid x)); [|exact (IH Hst)].
  cbn [map]. apply NoDup_cons; [|exact (IH Hst)].
  intros Hi; apply Hx. apply in_map_iff in Hi as (y & Ey & Hy).
  rewrite <- Ey. apply in_map. apply filter_In in Hy. exact (proj1 Hy).
Qed.

Lemma handle_command_key (chat uid : Z) (text : str) (w w' : world) (r : res unit) :
  handle_command chat uid text w = (r, w') ->
  one_row_per_user (Db.exp_bot_state (store w)) ->
  one_row_per_user (Db.exp_bot_state (store w')).
Proof.
  intros E H.
  apply handle_command_summary in E as (rs & _ & _ & Hs & _).
  destruct Hs as [->|(_ & [(row & _ & _ & ->)| ->])].
  - exact H.
  - apply upsert_one_row_per_user, H.
  - apply delete_keeps_key, H.
Qed.

Lemma handle_command_good (chat uid : Z) (text : str) (w w' : world) (r : res unit) :
  handle_command chat uid text w = (r, w') ->
  staged_positive (store w) ->
  Forall good_expense (Db.exp_expenses (store w)) ->
  Forall good_expense (Db.exp_expenses (store w')).
Proof.
  intros E Hs Hg.
  apply handle_command_effects in E as (_ & [->|(st & amt & Hf & Hp & Ha & Ht & ->)] & _);
    [exact Hg|].
  apply Forall_app; split; [exact Hg|]. repeat constructor; cbn.
  - assert (Hi : In st (Db.exp_bot_state (store w))).
    { apply (filter_In (Db.owns uid)); rewrite Hf; left; reflexivity. }
    unfold staged_positive in Hs. rewrite Forall_forall in Hs.
    destruct (Hs st Hi Hp) as (v & Hv & Hpos). congruence.
  - exact Ht.
  - exists text; reflexivity.
Qed.

(** X12: the tables only grow.  Over every sequence of [/start] and text
    updates, for every failure schedule and clock: the rows of [exp_users]
    keep their ids and Telegram ids and new ones are added at the end, the
    table of expenses is extended at the end, never rewritten, each new row
    stamped with a reading of the clock taken during the sequence, and
    [exp_monthly_totals] is left as it was. *)
Theorem run_only_appends (us : list update) (w : world) : grows w (run us w).
Proof.
  revert w; induction us as [|u us IH]; intros w; simpl.
  - apply grows_refl.
  - eapply grows_trans; [apply handle_grows | apply IH].
Qed.

(** X13: the key of the state table.  If [exp_bot_state] has at most one
    row per user, it has so after every sequence of updates: the handlers
    write it with the upsert on [user_id] and the delete only. *)
Theorem run_keeps_one_row_per_user (us : list update) (w : world) :
  one_row_per_user (Db.exp_bot_state (store w)) ->
  one_row_per_user (Db.exp_bot_state (store (run us w))).
Proof.
  revert w; induction us as [|u us IH]; intros w H; simpl; [exact H|].
  apply IH.
  destruct (handle_shape u w) as (w1 & ((Fs & _) & _) & _ & Hc).
  rewrite <- Fs in H.
  destruct Hc as [(S1 & _) | (chat & uid & text & r & E)].
  - rewrite S1; exact H.
  - eapply handle_command_key; eassumption.
Qed.

(** X14: what is saved is well formed.  If every row that awaits a title
    stages an amount above zero and every expense has an amount above zero
    and a title that is not empty, both hold after every sequence of
    updates: no handler stores an expense with a zero, negative or NaN
    amount or with an empty title. *)
Theorem run_saves_good_expenses (us : list update) (w : world) :
  staged_positive (store w) ->
  Forall good_expense (Db.exp_expenses (store w)) ->
  staged_positive (store (run us w))
  /\ Forall good_expense (Db.exp_expenses (store (run us w))).
Proof.
  revert w; induction us as [|u us IH]; intros w Hs Hg; simpl; [split; assumption|].
  apply IH; [apply handle_staged, Hs|].
  destruct (handle_shape u w) as (w1 & ((Fs & Fe & _) & _) & _ & Hc).
  destruct Hc as [(S1 & _) | (chat & uid & text & r & E)].
  - rewrite S1, Fe; exact Hg.
  - eapply handle_command_good; [exact E | | rewrite Fe; exact Hg].
    unfold staged_positive; rewrite Fs; exact Hs.
Qed.

Lemma filter_app_one {A} (p : A -> bool) (l : list A) (x : A) :
  p x = false -> filter p (l ++ [x]) = filter p l.
Proof. intros H; rewrite filter_app; simpl; rewrite H; apply app_nil_r. Qed.

(** X15: one user at a time.  Whatever an inbound text of a resolved user
    does, the state rows and the expenses of every other user are the ones
    before, and so are the users' table and the monthly totals. *)
Theorem other_users_untouched (m : message) (w w1 : world) (uid uid' : Z) :
  ensure_user (from_user_id m) (chat_id m) w = (Val (Some uid), w1) ->
  uid <> 0%Z ->
  uid' <> uid ->
  let w' := exec (handle_text m) w in
  filter (Db.owns uid') (Db.exp_bot_state (store w'))
  = filter (Db.owns uid') (Db.exp_bot_state (store w))
  /\ expenses_of uid' (store w') = expenses_of uid' (store w)
  /\ Db.exp_users (store w') = Db.exp_users (store w1)
  /\ Db.exp_monthly_totals (store w') = Db.exp_monthly_totals (store w).
Proof.
  intros He Hu Hn w'; subst w'. unfold exec.
  rewrite (handle_text_resolved _ _ _ _ He Hu).
  destruct (ensure_user_frame _ _ _ _ _ He) as ((Fs & Fe & Fm) & _).
  destruct (handle_command (chat_id m) uid (Str.strip (text m)) w1) as [r w'] eqn:E.
  cbn [snd].
  pose proof (handle_command_effects _ _ _ _ _ _ E) as ((K1 & _ & K3) & _ & _).
  apply handle_command_summary in E as (rs & _ & _ & Hs & Hx & _).
  split; [|split; [|split; [exact K1 | congruence]]].
  - rewrite <- Fs.
    destruct Hs as [->|(_ & [(row & _ & Hr & ->)| ->])].
    + reflexivity.
    + apply upsert_filter_other. congruence.
    + apply delete_filter_other, Hn.
  - unfold expenses_of. rewrite <- Fe.
    destruct Hx as [->|(amt & title & -> & _)]; [reflexivity|].
    apply filter_app_one. cbn. apply Z.eqb_neq. congruence.
Qed.

(** ** The allow-list *)

Lemma of_uint_inj (d d' : Decimal.uint) : Str.of_uint d = Str.of_uint d' -> d = d'.
Proof.
  revert d'; induction d; intros d'; destruct d'; simpl; intros H;
    try discriminate H; try reflexivity;
    injection H as E; f_equal; apply IHd, E.
Qed.

Lemma of_uint_digits (d : Decimal.uint) :
  Forall (fun c => (48 <=? c)%N && (c <=? 57)%N = true) (Str.of_uint d).
Proof. induction d; simpl; constructor; auto. Qed.

Lemma of_N_inj (a b : N) : Str.of_N a = Str.of_N b -> a = b.
Proof.
  intros H; apply DecimalN.Unsigned.to_uint_inj, of_uint_inj, H.
Qed.

Lemma of_N_not_nil (n : N) : Str.of_N n <> [].
Proof.
  unfold Str.of_N; intros H.
  assert (E : N.to_uint n = Decimal.Nil) by (destruct (N.to_uint n); simpl in H; congruence).
  pose proof (DecimalN.Unsigned.of_to n) as R. rewrite E in R.
  subst n. discriminate E.
Qed.

Lemma of_int_chars (z : Z) :
  Forall (fun c => Str.isspace c = false /\ c <> 44%N) (Str.of_int z).
Proof.
  assert (D : forall n, Forall (fun c => Str.isspace c = false /\ c <> 44%N) (Str.of_N n)).
  { intros n. eapply Forall_impl; [|apply of_uint_digits].
    intros c Hc; apply andb_prop in Hc as [H1 H2].
    apply N.leb_le in H1, H2. split.
    - unfold Str.isspace.
      repeat match goal with
             | |- context [(?a <=? ?b)%N] =>
                 let E := fresh in
                 destruct (N.leb_spec a b) as [E|E]; try lia
             | |- context [(?a =? ?b)%N] =>
                 let E := fresh in
                 destruct (N.eqb_spec a b) as [E|E]; try lia
             end; reflexivity.
    - lia. }
  unfold Str.of_int. destruct (z <? 0)%Z; [constructor|]; auto.
  split; [reflexivity | discriminate].
Qed.

Lemma of_int_not_nil (z : Z) : Str.of_int z <> [].
Proof.
  unfold Str.of_int. destruct (z <? 0)%Z; [discriminate | apply of_N_not_nil].
Qed.

Lemma of_int_inj (a b : Z) : Str.of_int a = Str.of_int b -> a = b.
Proof.
  assert (S : forall n x, Str.of_N n <> 45%N :: x).
  { intros n x H. pose proof (of_uint_digits (N.to_uint n)) as D.
    unfold Str.of_N in H; rewrite H in D. inversion D as [|? ? Hc _]; subst.
    discriminate Hc. }
  unfold Str.of_int.
  destruct (Z.ltb_spec a 0) as [Ha|Ha], (Z.ltb_spec b 0) as [Hb|Hb]; intros H.
  - injection H as E; apply of_N_inj in E; lia.
  - symmetry in H; destruct (S _ _ H).
  - destruct (S _ _ H).
  - apply of_N_inj in H; lia.
Qed.

Lemma of_int_stripped (z : Z) : Str.strip (Str.of_int z) = Str.of_int z.
Proof.
  apply (strip_join_words [] [Str.of_int z]).
  constructor; [|constructor]. split; [apply of_int_not_nil|].
  eapply Forall_impl; [|apply of_int_chars]. intros c [H _]; exact H.
Qed.

Lemma lstrip_idem (s : str) : Str.lstrip (Str.lstrip s) = Str.lstrip s.
Proof.
  induction s as [|c s IH]; simpl; [reflexivity|].
  destruct (Str.isspace c) eqn:E; [exact IH|]. simpl; rewrite E; reflexivity.
Qed.

Lemma lstrip_head (s : str) :
  match Str.lstrip s with [] => True | c :: _ => Str.isspace c = false end.
Proof.
  induction s as [|c s IH]; simpl; [exact I|].
  destruct (Str.isspace c) eqn:E; [exact IH | exact E].
Qed.

Lemma strip_idem (s : str) : Str.strip (Str.strip s) = Str.strip s.
Proof.
  unfold Str.strip at 1.
  assert (L : Str.lstrip (Str.strip s) = Str.strip s).
  { apply lstrip_id. unfold Str.strip.
    destruct (rstrip_decomp (Str.lstrip s)) as (q & Hq & _).
    pose proof (lstrip_head s) as Hh. rewrite Hq in Hh.
    destruct (Str.rstrip (Str.lstrip s)); [exact I | exact Hh]. }
  rewrite L. unfold Str.strip, Str.rstrip.
  rewrite rev_involutive, lstrip_idem. reflexivity.
Qed.

Lemma strip_incl (s : str) (c : char) : In c (Str.strip s) -> In c s.
Proof.
  unfold Str.strip. intros H.
  destruct (lstrip_decomp s) as (p & Hp & _).
  destruct (rstrip_decomp (Str.lstrip s)) as (q & Hq & _).
  rewrite Hp, Hq. apply in_or_app; right. apply in_or_app; left; exact H.
Qed.

Lemma split_on_from_pieces (sep : char) (cur s : str) :
  ~ In sep cur ->
  Forall (fun p => ~ In sep p) (split_on_from sep cur s).
Proof.
  revert cur; induction s as [|c s IH]; intros cur Hc; simpl.
  - constructor; [|constructor]. rewrite <- in_rev; exact Hc.
  - destruct (N.eqb_spec c sep) as [E|E].
    + constructor; [rewrite <- in_rev; exact Hc | apply IH; intros []].
    + apply IH. intros [H|H]; [congruence | exact (Hc H)].
Qed.

Lemma split_on_from_piece (sep : char) (cur w rest : str) :
  ~ In sep w ->
  split_on_from sep cur (w ++ rest) = split_on_from sep (rev w ++ cur) rest.
Proof.
  revert cur; induction w as [|c w IH]; intros cur Hw; simpl; [reflexivity|].
  destruct (N.eqb_spec c sep) as [E|E]; [destruct Hw; left; exact E|].
  rewrite IH by (intros H; apply Hw; right; exact H).
  rewrite <- app_assoc; reflexivity.
Qed.

(** Splitting at the separator what was joined with it gives the pieces
    back. *)
Lemma split_on_join (sep : char) (ws : list str) :
  ws <> [] -> Forall (fun w => ~ In sep w) ws ->
  split_on sep (Str.join [sep] ws) = ws.
Proof.
  unfold split_on. intros Hn H; revert Hn.
  induction H as [|w ws Hw Hws IH]; intros Hn; [exfalso; apply Hn; reflexivity|].
  destruct ws as [|w' ws].
  - simpl. rewrite <- (app_nil_r w) at 1.
    rewrite split_on_from_piece by exact Hw. simpl.
    rewrite app_nil_r, rev_involutive; reflexivity.
  - change (Str.join [sep] (w :: w' :: ws))
      with (w ++ sep :: Str.join [sep] (w' :: ws)).
    rewrite split_on_from_piece by exact Hw. simpl.
    rewrite N.eqb_refl, app_nil_r, rev_involutive.
    f_equal. apply IH; discriminate.
Qed.

Lemma is_allowed_In (z : Z) : is_allowed z = true <-> In (Str.of_int z) ALLOWED_TG_IDS.
Proof.
  unfold is_allowed. rewrite existsb_exists. split.
  - intros (e & He & Hq); apply str_eqb_eq in Hq; subst e; exact He.
  - intros H; exists (Str.of_int z); split; [exact H | apply str_eqb_refl].
Qed.

Lemma allowed_of_env_In (v e : str) :
  In e (allowed_of_env v)
  <-> e <> [] /\ exists piece, In piece (split_on 44%N v) /\ Str.strip piece = e.
Proof.
  unfold allowed_of_env. rewrite filter_In, in_map_iff. split.
  - intros [(p & Hp & Hi) He]; split; [destruct e; [discriminate|discriminate]|].
    exists p; split; assumption.
  - intros [He (p & Hi & Hp)]; split; [exists p; split; assumption|].
    destruct e; [congruence | reflexivity].
Qed.

(** X16: the allow-list read from the environment.  Every entry is a piece
    between two commas of the variable, stripped: it is not empty, has no
    whitespace at either end and no comma; and a sender is allowed exactly
    when one of the pieces, stripped, is the decimal writing of the
    sender's id. *)
Theorem allow_list_of_env (v : str) :
  ALLOWED_TG_IDS = allowed_of_env v ->
  Forall (fun e => e <> [] /\ Str.strip e = e /\ ~ In 44%N e) ALLOWED_TG_IDS
  /\ (forall z, is_allowed z = true
                <-> exists piece, In piece (split_on 44%N v)
                                  /\ Str.strip piece = Str.of_int z).
Proof.
  intros Hv. split.
  - apply Forall_forall; intros e He. rewrite Hv in He.
    apply allowed_of_env_In in He as (Hn & p & Hp & <-).
    split; [exact Hn|]. split; [apply strip_idem|].
    intros Hc; apply strip_incl in Hc.
    pose proof (split_on_from_pieces 44%N [] v ltac:(intros [])) as F.
    rewrite Forall_forall in F. exact (F p Hp Hc).
  - intros z. rewrite is_allowed_In, Hv, allowed_of_env_In. split.
    + intros [_ H]; exact H.
    + intros H; split; [apply of_int_not_nil | exact H].
Qed.

(** X17: writing the allow-list and reading it back.  When the variable is
    the comma-separated list of pieces that, stripped, are the decimal
    writings of the ids [ids], the senders allowed are exactly the ones of
    [ids]: no other id is let in, whatever blanks surround the numbers. *)
Theorem allow_list_round_trip (ws : list str) (ids : list Z) (z : Z) :
  Forall (fun w => ~ In 44%N w) ws ->
  map Str.strip ws = map Str.of_int ids ->
  ALLOWED_TG_IDS = allowed_of_env (Str.join [44%N] ws) ->
  (is_allowed z = true <-> In z ids).
Proof.
  intros Hc Hs Hv.
  rewrite is_allowed_In, Hv, allowed_of_env_In.
  destruct ws as [|w ws].
  { destruct ids; [|discriminate Hs]. simpl. split; [|intros []].
    intros (_ & p & [<-|[]] & Hp). destruct (of_int_not_nil z). symmetry; exact Hp. }
  rewrite split_on_join by (discriminate || exact Hc).
  split.
  - intros (_ & p & Hi & Hp).
    assert (Hin : In (Str.of_int z) (map Str.of_int ids)).
    { rewrite <- Hs, <- Hp. apply in_map, Hi. }
    apply in_map_iff in Hin as (y & Hy & Hi'). apply of_int_inj in Hy; subst y; exact Hi'.
  - intros Hi; split; [apply of_int_not_nil|].
    assert (Hin : In (Str.of_int z) (map Str.strip (w :: ws))).
    { rewrite Hs; apply in_map, Hi. }
    apply in_map_iff in Hin as (p & Hp & Hi'). exists p; split; assumption.
Qed.

(** ** The report of the month under failures *)

(** X18: "See expenses" whatever the store answers.  For a resolved user
    and a valid reading of the clock the handler sends one report and
    writes nothing.  A listing that fails is shown as no items and amounts
    that fail as the total 0.00, each on its own: the report can show a
    total above an empty listing, or a listing under the total 0.00.  With
    no expense since the first of the month, or with both requests failing,
    the report is the total 0.00 over the line "(no items yet)". *)
Theorem see_expenses_whatever_fails (m : message) (w w1 : world) (uid : Z) :
  ensure_user (from_user_id m) (chat_id m) w = (Val (Some uid), w1) ->
  uid <> 0%Z ->
  Str.strip (text m) = SEE_EXPENSES ->
  let t := clock (ticks w) in
  Time.valid t = true ->
  let rows := Db.expenses_since uid (month_start t) (store w) in
  let no_list := store_fails (length (requests w1)) in
  let no_amounts := store_fails (S (length (requests w1))) in
  let w' := exec (handle_text m) w in
  eval (handle_text m) w = Val tt
  /\ store w' = store w1
  /\ outbox w'
     = outbox w
         ++ [sent (chat_id m)
               (report_text
                  (if no_amounts then Float.zero else Float.sum (map Expense.amount rows))
                  (if no_list then [] else firstn 10 (Db.order_desc rows)))
               true]
  /\ (rows = [] \/ (no_list = true /\ no_amounts = true) ->
      outbox w'
      = outbox w
          ++ [sent (chat_id m)
                (lit "This month total: 0.00" ++ [10%N] ++ lit "(no items yet)") true]).
Proof.
  intros He Hu Ht t Hv rows no_list no_amounts w'.
  destruct (ensure_user_frame _ _ _ _ _ He) as ((F1 & F2 & F3) & F4 & F5 & _).
  assert (E : handle_text m w = see_expenses (chat_id m) uid w1).
  { rewrite (handle_text_resolved _ _ _ _ He Hu). unfold handle_command.
    rewrite Ht. reflexivity. }
  subst t. rewrite <- F5 in Hv.
  pose proof (see_expenses_run (chat_id m) uid w1 Hv) as R.
  cbv zeta in R. fold no_list no_amounts in R.
  assert (W : Db.expenses_since uid (month_start (clock (ticks w1))) (store w1) = rows).
  { subst rows. rewrite F5. unfold Db.expenses_since; rewrite F2; reflexivity. }
  rewrite W in R.
  assert (O : outbox w'
              = outbox w
                  ++ [sent (chat_id m)
                        (report_text
                           (if no_amounts then Float.zero
                            else Float.sum (map Expense.amount rows))
                           (if no_list then [] else firstn 10 (Db.order_desc rows)))
                        true]).
  { subst w'; unfold exec; rewrite E, R; cbn [snd outbox]. rewrite F4.
    destruct no_amounts; reflexivity. }
  split; [unfold eval; rewrite E, R; reflexivity|].
  split; [subst w'; unfold exec; rewrite E, R; reflexivity|].
  split; [exact O|].
  intros [Hr|[H1 H2]]; rewrite O.
  - rewrite Hr. destruct no_amounts, no_list; reflexivity.
  - rewrite H1, H2. reflexivity.
Qed.

(** ** Conversations *)

Lemma users_of_rechat (tg uid chat : Z) (d : Db.t) :
  users_of tg (Db.with_users d (rechat uid chat (Db.exp_users d)) (Db.exp_users_seq d))
  = rechat uid chat (users_of tg d).
Proof.
  unfold users_of, rechat; cbn [Db.exp_users Db.with_users].
  induction (Db.exp_users d) as [|r us IH]; simpl; [reflexivity|].
  destruct (User.id r =? uid)%Z eqn:E; cbn [User.tg_user_id];
    destruct (User.tg_user_id r =? tg)%Z; simpl; rewrite ?E, IH; reflexivity.
Qed.

(** With a store that applies every request, a sender with one row is
    resolved to the id of the row and keeps one row with that id. *)
Lemma resolve_known (tg chat : Z) (w : world) (u : User.row) :
  is_allowed tg = true ->
  (forall n, store_fails n = false) ->
  users_of tg (store w) = [u] ->
  exists w1 u',
    ensure_user tg chat w = (Val (Some (User.id u)), w1)
    /\ users_of tg (store w1) = [u'] /\ User.id u' = User.id u.
Proof.
  intros Ha Hq Hu.
  pose proof (ensure_user_known tg chat w u Ha (Hq _) Hu) as E.
  cbv zeta in E. rewrite Hq in E.
  eexists; eexists; split; [exact E|].
  cbn [store]. rewrite users_of_rechat, Hu. cbn.
  rewrite Z.eqb_refl. split; reflexivity.
Qed.

Lemma parsed_is_free_text (a : str) (amt : float) :
  parse_amount a = Some amt ->
  a <> ADD_EXPENSE /\ a <> SEE_EXPENSES /\ a <> SEE_LAST_MONTH.
Proof.
  intros H; repeat split; intros ->; vm_compute in H; discriminate H.
Qed.

(** X19: the conversation that saves an expense.  With a store that applies
    every request, a known sender who sends "Add expense", then a text that
    [parse_amount] accepts with a truthy value, then a text that is none of
    the commands and has a word in it, gets the three answers of the
    dialogue; exactly one expense is added, with the parsed amount, the
    words of the last text as title and the third reading of the clock as
    time; and the sender is left without a state row. *)
Theorem conversation_saves_expense
    (tg chat : Z) (m1 m2 m3 : message) (w : world) (u : User.row) (amt : float) :
  let uid := User.id u in
  let title := title_of (Str.strip (text m3)) in
  Forall (fun m => from_user_id m = tg /\ chat_id m = chat) [m1; m2; m3] ->
  is_allowed tg = true ->
  (forall n, store_fails n = false) ->
  users_of tg (store w) = [u] -> uid <> 0%Z ->
  one_row_per_user (Db.exp_bot_state (store w)) ->
  Str.strip (text m1) = ADD_EXPENSE ->
  parse_amount (Str.strip (text m2)) = Some amt -> Float.truthy amt = true ->
  Str.strip (text m3) <> ADD_EXPENSE ->
  Str.strip (text m3) <> SEE_EXPENSES ->
  Str.strip (text m3) <> SEE_LAST_MONTH ->
  title <> [] ->
  let w' := run [Text m1; Text m2; Text m3] w in
  Db.exp_expenses (store w')
  = Db.exp_expenses (store w) ++ [expense_row uid amt title (S (S (ticks w)))]
  /\ Db.exp_bot_state (store w')
     = filter (fun r => negb (Db.owns uid r)) (Db.exp_bot_state (store w))
  /\ outbox w'
     = outbox w ++ [sent chat msg_send_amount false;
                    sent chat (msg_amount_ok amt) false;
                    sent chat (msg_saved amt title) true]
  /\ Db.exp_monthly_totals (store w') = Db.exp_monthly_totals (store w).
Proof.
  intros uid title Hm Ha Hq Hu Hz Hk T1 Hp Ht N1 N2 N3 Hn w'.
  subst uid.
  rewrite Forall_forall in Hm.
  destruct (Hm m1 ltac:(simpl; auto)) as [A1 C1].
  destruct (Hm m2 ltac:(simpl; auto)) as [A2 C2].
  destruct (Hm m3 ltac:(simpl; auto)) as [A3 C3].
  clear Hm. subst tg chat.
  destruct (parsed_is_free_text _ _ Hp) as (P1 & P2 & P3).
  (* "Add expense" *)
  destruct (resolve_known _ (chat_id m1) w u Ha Hq Hu) as (wa & ua & Ea & Ua & Ia).
  destruct (ensure_user_frame _ _ _ _ _ Ea) as ((Sa & Xa & Ma) & Oa & Ka & _).
  set (w1 := exec (handle_text m1) w).
  assert (W1 : w1 = and_sent (exec (set_state (User.id u) (Some AWAIT_AMOUNT) None) wa)
                       (sent (chat_id m1) msg_send_amount false)).
  { subst w1; unfold exec. rewrite (handle_text_resolved _ _ _ _ Ea Hz).
    unfold handle_command. rewrite T1.
    change (Str.eqb ADD_EXPENSE ADD_EXPENSE) with true. cbv iota.
    unfold bind. rewrite !(set_state_ok _ _ _ _ (Hq _)). reflexivity. }
  unfold exec in W1. rewrite (set_state_ok _ _ _ _ (Hq _)) in W1. cbn [snd] in W1.
  set (r1 := state_row (User.id u) (Some AWAIT_AMOUNT) None (ticks wa)) in *.
  assert (F1 : filter (Db.owns (User.id u)) (Db.exp_bot_state (store w1)) = [r1]).
  { rewrite W1; cbn [and_sent store Db.exp_bot_state Db.with_state].
    apply (upsert_exactly_one r1). rewrite Sa; exact Hk. }
  assert (U1 : users_of (from_user_id m1) (store w1) = [ua]) by (rewrite W1; exact Ua).
  (* the amount *)
  rewrite <- Ia in Hz.
  destruct (resolve_known _ (chat_id m1) w1 ua Ha Hq U1) as (wb & ub & Eb & Ub & Ib).
  destruct (ensure_user_frame _ _ _ _ _ Eb) as ((Sb & Xb & Mb) & Ob & Kb & _).
  set (w2 := exec (handle_text m2) w1).
  assert (W2 : w2 = and_sent
                      (exec (set_state (User.id ua) (Some AWAIT_TITLE) (Some amt))
                         (with_store wb (store wb)
                            (requests wb ++ [(lit "exp_bot_state.select", false)])))
                      (sent (chat_id m1) (msg_amount_ok amt) false)).
  { subst w2; unfold exec. rewrite <- A2, <- C2 in Eb.
    rewrite (handle_text_resolved _ _ _ _ Eb Hz).
    rewrite (handle_command_free_text _ _ _ _ P1 P2 P3).
    rewrite (await_amount_run _ _ _ _ r1 amt (Hq _)); [rewrite C2; reflexivity | | reflexivity | exact Hp | exact Ht].
    rewrite Sb, Ia; exact F1. }
  unfold exec in W2. rewrite (set_state_ok _ _ _ _ (Hq _)) in W2. cbn [snd] in W2.
  cbn [with_store store ticks outbox] in W2.
  set (r2 := state_row (User.id ua) (Some AWAIT_TITLE) (Some amt) (ticks wb)) in *.
  assert (F2 : filter (Db.owns (User.id ua)) (Db.exp_bot_state (store w2)) = [r2]).
  { rewrite W2; cbn [and_sent store Db.exp_bot_state Db.with_state].
    apply (upsert_replaces r2 r1). cbn [State.user_id r2 state_row].
    rewrite Sb, Ia; exact F1. }
  assert (U2 : users_of (from_user_id m1) (store w2) = [ub]) by (rewrite W2; exact Ub).
  (* the title *)
  rewrite <- Ib in Hz, F2.
  destruct (resolve_known _ (chat_id m1) w2 ub Ha Hq U2) as (wc & uc & Ec & Uc & Ic).
  destruct (ensure_user_frame _ _ _ _ _ Ec) as ((Sc & Xc & Mc) & Oc & Kc & _).
  assert (W3 : w' = snd (state_machine (chat_id m1) (User.id ub) (Str.strip (text m3)) wc)).
  { subst w'. cbn [run handle]. fold w1. fold w2. unfold exec.
    rewrite <- A3, <- C3 in Ec.
    rewrite (handle_text_resolved _ _ _ _ Ec Hz).
    rewrite (handle_command_free_text _ _ _ _ N1 N2 N3), C3. reflexivity. }
  rewrite (await_title_run _ _ _ _ r2 amt (Hq _)) in W3;
    [| rewrite Sc; exact F2 | reflexivity | reflexivity | exact Hn | apply Hq].
  cbv zeta in W3. rewrite Hq in W3. cbn [snd] in W3.
  rewrite W3. cbn [store outbox Db.exp_expenses Db.exp_bot_state Db.with_state
                   Db.with_expenses Db.exp_monthly_totals].
  rewrite Xc, Sc, Mc, Oc, Kc.
  rewrite W2. cbn [and_sent store outbox ticks Db.exp_expenses Db.exp_bot_state
                   Db.with_state Db.exp_monthly_totals].
  rewrite Xb, Sb, Mb, Ob, Kb.
  rewrite W1. cbn [and_sent store outbox ticks Db.exp_expenses Db.exp_bot_state
                   Db.with_state Db.exp_monthly_totals].
  rewrite Xa, Sa, Ma, Oa, Ka.
  subst title. rewrite Ib, Ia.
  split; [reflexivity|]. split; [|split; [rewrite <- !app_assoc; reflexivity | reflexivity]].
  subst r2. rewrite Ia.
  etransitivity; [|apply (upsert_others r1)].
  apply (upsert_others (state_row (User.id u) (Some AWAIT_TITLE) (Some amt) (ticks wb))).
Qed.

(** X20: strangers change nothing.  A sequence of updates, [/start] or
    text, all from senders outside the allow-list, leaves the store and the
    request log as they were and reads no clock; each update is answered
    with the denial, as a reply to its message. *)
Theorem strangers_change_nothing (us : list update) (w : world) :
  Forall (fun u => match u with
                   | Command m | Text m => is_allowed (from_user_id m) = false
                   end) us ->
  let w' := run us w in
  store w' = store w /\ requests w' = requests w /\ ticks w' = ticks w
  /\ outbox w'
     = outbox w ++ map (fun u => match u with
                                 | Command m | Text m => reply m msg_denied
                                 end) us.
Proof.
  intros H; revert w; induction H as [|u us Hu _ IH]; intros w; cbn zeta.
  - repeat split. simpl; rewrite app_nil_r; reflexivity.
  - cbn [run map].
    assert (E : exec (handle u) w
                = and_sent w (match u with
                              | Command m | Text m => reply m msg_denied
                              end)).
    { destruct u as [m|m]; unfold exec, handle, cmd_start, handle_text;
        rewrite Hu; reflexivity. }
    rewrite E. destruct (IH (and_sent w (match u with
                                        | Command m | Text m => reply m msg_denied
                                        end))) as (I1 & I2 & I3 & I4).
    cbv zeta in *. rewrite I1, I2, I3, I4. cbn [and_sent store requests ticks outbox].
    rewrite <- app_assoc. repeat split.
Qed.

(** ** Amounts with more than one separator *)

Lemma occ_cons (a c : char) (s : str) :
  occurrences c (a :: s) = (if (a =? c)%N then S (occurrences c s) else occurrences c s).
Proof.
  unfold occurrences; simpl. destruct (N.eq_dec a c) as [E|E].
  - apply N.eqb_eq in E; rewrite E; reflexivity.
  - apply N.eqb_neq in E; rewrite E; reflexivity.
Qed.

Lemma occ_replace (t : str) :
  occurrences 46%N (Str.replace 44%N 46%N t) = occurrences 44%N t + occurrences 46%N t.
Proof.
  unfold Str.replace. induction t as [|c t IH]; [reflexivity|].
  cbn [map]. rewrite !occ_cons, IH.
  destruct (N.eqb_spec c 44) as [->|E]; [reflexivity|].
  destruct (c =? 46)%N; lia.
Qed.

(** The transformation to ASCII keeps the dots, or it cuts the string at a
    question mark. *)
Lemma occ_transform (s : str) :
  occurrences 46%N (PyFloat.transform unicode_decimal s) = occurrences 46%N s
  \/ 1 <= occurrences 63%N (PyFloat.transform unicode_decimal s).
Proof.
  induction s as [|c s IH]; [left; reflexivity|].
  cbn [PyFloat.transform].
  destruct (N.ltb_spec c 127) as [L|L].
  - rewrite !occ_cons. destruct IH as [IH|IH]; [left | right].
    + rewrite IH; reflexivity.
    + destruct (c =? 63)%N; lia.
  - assert (Hc : (c =? 46)%N = false) by (apply N.eqb_neq; lia).
    destruct (Str.isspace c).
    + rewrite !occ_cons, Hc. cbn [N.eqb Pos.eqb].
      destruct IH as [IH|IH]; [left; exact IH | right; exact IH].
    + destruct (unicode_decimal c) as [d|]; [|right; unfold occurrences; cbn; lia].
      rewrite !occ_cons, Hc.
      assert (H1 : (48 + d =? 46)%N = false) by (apply N.eqb_neq; lia).
      assert (H2 : (48 + d =? 63)%N = false \/ (48 + d =? 63)%N = true)
        by (destruct (48 + d =? 63)%N; auto).
      rewrite H1. destruct IH as [IH|IH]; [left; exact IH | right].
      destruct H2 as [-> | ->]; lia.
Qed.

Lemma occ_lstrip_ascii (c : char) (s : str) :
  PyFloat.isspace_ascii c = false ->
  occurrences c (PyFloat.lstrip_ascii s) = occurrences c s.
Proof.
  intros Hc; induction s as [|a s IH]; [reflexivity|].
  cbn [PyFloat.lstrip_ascii]. destruct (PyFloat.isspace_ascii a) eqn:E; [|reflexivity].
  rewrite occ_cons, IH.
  destruct (N.eqb_spec a c) as [->|_]; [congruence | reflexivity].
Qed.

Lemma occ_rstrip_ascii (c : char) (s : str) :
  PyFloat.isspace_ascii c = false ->
  occurrences c (PyFloat.rstrip_ascii s) = occurrences c s.
Proof.
  intros Hc; unfold PyFloat.rstrip_ascii.
  pose proof (occ_lstrip_ascii c (rev s) Hc) as H.
  unfold occurrences in *.
  etransitivity; [apply count_occ_rev|].
  etransitivity; [exact H | apply count_occ_rev].
Qed.

Lemma occ_strip_underscores (c : char) (s s2 : str) (prev : char) :
  c <> 95%N ->
  PyFloat.strip_underscores prev s = Some s2 -> occurrences c s2 = occurrences c s.
Proof.
  intros Hc; revert prev s2; induction s as [|a s IH]; intros prev s2;
    cbn [PyFloat.strip_underscores].
  - destruct (prev =? 95)%N; intros [= <-]; reflexivity.
  - destruct (N.eqb_spec a 95) as [->|Ha].
    + destruct (PyFloat.isdigit prev); [|discriminate].
      intros H; apply IH in H. rewrite occ_cons, H.
      destruct (N.eqb_spec 95 c) as [E|_]; [congruence | reflexivity].
    + destruct ((prev =? 95)%N && negb (PyFloat.isdigit a)); [discriminate|].
      destruct (PyFloat.strip_underscores a s) as [x|] eqn:E; [|discriminate].
      cbn [option_map]. intros [= <-]. rewrite !occ_cons, (IH _ _ E); reflexivity.
Qed.

Lemma occ_parse_sign (c : char) (s : str) :
  c <> 43%N -> c <> 45%N ->
  occurrences c (snd (PyFloat.parse_sign s)) = occurrences c s.
Proof.
  intros H1 H2. unfold PyFloat.parse_sign.
  destruct s as [|a s]; [reflexivity|].
  destruct (N.eq_dec a 45) as [->|Ha];
    [cbn [snd]; rewrite occ_cons;
     destruct (N.eqb_spec 45 c); [congruence | reflexivity]|].
  destruct (N.eq_dec a 43) as [->|Hb];
    [cbn [snd]; rewrite occ_cons;
     destruct (N.eqb_spec 43 c); [congruence | reflexivity]|].
  destruct a as [|p]; [reflexivity|].
  do 6 (destruct p as [p|p|]; try reflexivity); congruence.
Qed.

Lemma occ_span_digits (c : char) (s : str) :
  PyFloat.isdigit c = false ->
  occurrences c (snd (PyFloat.span_digits s)) = occurrences c s.
Proof.
  intros Hc; induction s as [|a s IH]; [reflexivity|].
  cbn [PyFloat.span_digits].
  destruct (PyFloat.isdigit a) eqn:E; [|reflexivity].
  destruct (PyFloat.span_digits s) as [ds r]. cbn [snd] in *.
  rewrite occ_cons, IH.
  destruct (N.eqb_spec a c) as [->|_]; [congruence | reflexivity].
Qed.

Lemma occ_parse_exponent (c : char) (s : str) :
  c = 46%N \/ c = 63%N ->
  occurrences c (snd (PyFloat.parse_exponent s)) = occurrences c s.
Proof.
  intros Hc. unfold PyFloat.parse_exponent.
  destruct s as [|a s1]; [reflexivity|].
  destruct ((a =? 101)%N || (a =? 69)%N) eqn:E; [|reflexivity].
  pose proof (occ_parse_sign c s1) as Hs.
  destruct (PyFloat.parse_sign s1) as [esign s2]. cbn [snd] in Hs.
  pose proof (occ_span_digits c s2) as Hd.
  destruct (PyFloat.span_digits s2) as [ds s3]. cbn [snd] in Hd.
  destruct ds as [|d ds]; [reflexivity|]. cbn [snd].
  rewrite Hd, Hs, occ_cons.
  - apply orb_prop in E.
    destruct (N.eqb_spec a c) as [->|_]; [|reflexivity].
    destruct Hc as [-> | ->], E as [E|E]; discriminate E.
  - destruct Hc as [-> | ->]; discriminate.
  - destruct Hc as [-> | ->]; discriminate.
  - destruct Hc as [-> | ->]; reflexivity.
Qed.

(** A literal that [strtod] reads to the end has one dot at most and no
    question mark. *)
Lemma strtod_whole (s : str) (x : float) :
  PyFloat.strtod s = Some (x, []) -> occurrences 46%N s <= 1 /\ occurrences 63%N s = 0.
Proof.
  unfold PyFloat.strtod.
  pose proof (occ_parse_sign 46%N s ltac:(discriminate) ltac:(discriminate)) as S1.
  pose proof (occ_parse_sign 63%N s ltac:(discriminate) ltac:(discriminate)) as S2.
  destruct (PyFloat.parse_sign s) as [sign s1]. cbn [snd] in S1, S2.
  pose proof (occ_span_digits 46%N s1 eq_refl) as D1.
  pose proof (occ_span_digits 63%N s1 eq_refl) as D2.
  destruct (PyFloat.span_digits s1) as [ip s2]. cbn [snd] in D1, D2.
  assert (F : forall fp s3,
             match s2 with
             | 46%N :: s2' => PyFloat.span_digits s2'
             | _ => ([], s2)
             end = (fp, s3) ->
             occurrences 46%N s2 <= 1 + occurrences 46%N s3 /\ occurrences 63%N s2 = occurrences 63%N s3).
  { intros fp s3 E.
    destruct s2 as [|a s2']; [injection E as _ <-; split; [lia | reflexivity]|].
    destruct (N.eq_dec a 46) as [->|Ha].
    - pose proof (occ_span_digits 46%N s2' eq_refl) as G1.
      pose proof (occ_span_digits 63%N s2' eq_refl) as G2.
      rewrite E in G1, G2; cbn [snd] in G1, G2.
      rewrite !occ_cons, G1, G2. cbn. split; [lia | reflexivity].
    - assert (E' : ([] : list Z, a :: s2') = (fp, s3)).
      { destruct a as [|p]; [exact E|].
        do 6 (destruct p as [p|p|]; try exact E). congruence. }
      injection E' as _ <-. split; [lia | reflexivity]. }
  destruct (match s2 with
            | 46%N :: s2' => PyFloat.span_digits s2'
            | _ => ([], s2)
            end) as [fp s3] eqn:E3.
  destruct (F fp s3 eq_refl) as [F1 F2].
  destruct (ip ++ fp) as [|d ds]; [discriminate|].
  destruct (_ || _); [discriminate|].
  pose proof (occ_parse_exponent 46%N s3 ltac:(left; reflexivity)) as X1.
  pose proof (occ_parse_exponent 63%N s3 ltac:(right; reflexivity)) as X2.
  destruct (PyFloat.parse_exponent s3) as [e s4]. cbn [snd] in X1, X2.
  intros [= _ ->]. cbn in X1, X2. lia.
Qed.

Lemma occ_match_prefix (c : char) (t s r : str) :
  c = 46%N \/ c = 63%N ->
  Forall (fun a => (97 <= a)%N) t ->
  PyFloat.match_prefix t s = Some r -> occurrences c r = occurrences c s.
Proof.
  intros Hc Ht; revert s; induction Ht as [|a t Ha _ IH]; intros s.
  - cbn. destruct s; intros [= <-]; reflexivity.
  - destruct s as [|b s]; [discriminate|]. cbn [PyFloat.match_prefix].
    destruct (N.eqb_spec (PyFloat.tolower b) a) as [E|_]; [|discriminate].
    intros H; rewrite (IH _ H), occ_cons.
    destruct (N.eqb_spec b c) as [->|_]; [|reflexivity].
    destruct Hc as [-> | ->]; cbn in E; lia.
Qed.

Lemma inf_or_nan_whole (s : str) (x : float) :
  PyFloat.parse_inf_or_nan s = Some (x, []) -> occurrences 46%N s = 0 /\ occurrences 63%N s = 0.
Proof.
  assert (L : forall t, Forall (fun a => (97 <= a)%N) (lit t)
                        -> forall c r s', c = 46%N \/ c = 63%N ->
                           PyFloat.match_prefix (lit t) s' = Some r ->
                           occurrences c r = occurrences c s').
  { intros t Ht c r s' Hc; apply occ_match_prefix; assumption. }
  assert (T1 : Forall (fun a => (97 <= a)%N) (lit "inf"))
    by (repeat constructor; discriminate).
  assert (T2 : Forall (fun a => (97 <= a)%N) (lit "inity"))
    by (repeat constructor; discriminate).
  assert (T3 : Forall (fun a => (97 <= a)%N) (lit "nan"))
    by (repeat constructor; discriminate).
  unfold PyFloat.parse_inf_or_nan.
  pose proof (occ_parse_sign 46%N s ltac:(discriminate) ltac:(discriminate)) as S1.
  pose proof (occ_parse_sign 63%N s ltac:(discriminate) ltac:(discriminate)) as S2.
  destruct (PyFloat.parse_sign s) as [negate s1]. cbn [snd] in S1, S2.
  rewrite <- S1, <- S2.
  destruct (PyFloat.match_prefix (lit "inf") s1) as [s2|] eqn:E1.
  - rewrite <- (L _ T1 46%N _ _ (or_introl eq_refl) E1).
    rewrite <- (L _ T1 63%N _ _ (or_intror eq_refl) E1).
    destruct (PyFloat.match_prefix (lit "inity") s2) as [s3|] eqn:E2.
    + rewrite <- (L _ T2 46%N _ _ (or_introl eq_refl) E2).
      rewrite <- (L _ T2 63%N _ _ (or_intror eq_refl) E2).
      intros [= _ ->]; split; reflexivity.
    + intros [= _ ->]; split; reflexivity.
  - destruct (PyFloat.match_prefix (lit "nan") s1) as [s2|] eqn:E2; [|discriminate].
    rewrite <- (L _ T3 46%N _ _ (or_introl eq_refl) E2).
    rewrite <- (L _ T3 63%N _ _ (or_intror eq_refl) E2).
    intros [= _ ->]; split; reflexivity.
Qed.

Lemma float_of_str_dots (s : str) (x : float) :
  PyFloat.float_of_str unicode_decimal s = Some x -> occurrences 46%N s <= 1.
Proof.
  unfold PyFloat.float_of_str.
  set (s0 := PyFloat.to_ascii unicode_decimal s).
  assert (H0 : occurrences 46%N s0 = occurrences 46%N s \/ 1 <= occurrences 63%N s0).
  { subst s0; unfold PyFloat.to_ascii. destruct (forallb (fun c => (c <? 128)%N) s); [left; reflexivity|].
    apply occ_transform. }
  pose proof (occ_lstrip_ascii 46%N s0 eq_refl) as A1.
  pose proof (occ_lstrip_ascii 63%N s0 eq_refl) as A2.
  destruct (PyFloat.lstrip_ascii s0) as [|a s1] eqn:E1; [discriminate|].
  pose proof (occ_rstrip_ascii 46%N (a :: s1) eq_refl) as B1.
  pose proof (occ_rstrip_ascii 63%N (a :: s1) eq_refl) as B2.
  destruct (PyFloat.strip_underscores 0%N (PyFloat.rstrip_ascii (a :: s1))) as [s2|] eqn:E2;
    [|discriminate].
  pose proof (occ_strip_underscores 46%N _ _ _ ltac:(discriminate) E2) as C1.
  pose proof (occ_strip_underscores 63%N _ _ _ ltac:(discriminate) E2) as C2.
  unfold PyFloat.from_string_inner.
  assert (W : occurrences 46%N s2 <= 1 /\ occurrences 63%N s2 = 0 -> occurrences 46%N s <= 1) by lia.
  destruct (PyFloat.strtod s2) as [[y [|b r]]|] eqn:E3; [| discriminate |].
  - intros _. apply W. eapply strtod_whole, E3.
  - destruct (PyFloat.parse_inf_or_nan s2) as [[y [|b r]]|] eqn:E4; try discriminate.
    intros _. apply W. destruct (inf_or_nan_whole _ _ E4) as [I1 I2]. lia.
Qed.

(** X21: one separator at most.  A text with two or more of the characters
    [,] and [.] is no amount, whatever else it holds: [parse_amount] reads
    neither thousands separators nor a second decimal point. *)
Theorem parse_amount_two_separators (t : str) :
  2 <= occurrences 44%N t + occurrences 46%N t ->
  parse_amount t = None.
Proof.
  intros H. unfold parse_amount.
  destruct (PyFloat.float_of_str unicode_decimal (Str.replace 44%N 46%N t)) as [n|] eqn:E;
    [|reflexivity].
  apply float_of_str_dots in E. rewrite occ_replace in E. lia.
Qed.

(** ** A registration that the store refuses *)

(** The run of [ensure_user] for a sender without a row when the insert
    fails. *)
Lemma ensure_user_insert_failed (tg chat : Z) (w : world) :
  is_allowed tg = true ->
  store_fails (length (requests w)) = false ->
  users_of tg (store w) = [] ->
  store_fails (S (length (requests w))) = true ->
  ensure_user tg chat w
  = (Val None,
     with_store w (store w)
       (requests w ++ [(lit "exp_users.select", false); (lit "exp_users.insert", true)])).
Proof.
  intros Ha H1 Hu H2.
  unfold ensure_user; rewrite Ha; cbn [negb].
  unfold bind, supa_exec, ret, with_store; cbn [Db.execute store requests ticks outbox].
  unfold users_of in Hu. rewrite H1, Hu; cbn.
  rewrite length_snoc, H2; cbn. rewrite <- app_assoc; reflexivity.
Qed.

(** X22: a registration that fails.  For an allowed sender without a row
    in [exp_users], when the select is applied and the insert fails, both
    handlers answer with the access error; no row is added, no state or
    expense is touched, and the next update of the sender, with the insert
    applied, registers the sender as if nothing had happened. *)
Theorem registration_failure_is_access_error (m m' : message) (w : world) :
  let n := length (requests w) in
  is_allowed (from_user_id m) = true ->
  store_fails n = false ->
  users_of (from_user_id m) (store w) = [] ->
  store_fails (S n) = true ->
  let w1 := with_store w (store w)
              (requests w ++ [(lit "exp_users.select", false);
                              (lit "exp_users.insert", true)]) in
  handle_text m w = (Val tt, and_sent w1 (reply m msg_access_error))
  /\ cmd_start m w = (Val tt, and_sent w1 (reply m msg_access_error))
  /\ (from_user_id m' = from_user_id m ->
      store_fails (S (S n)) = false -> store_fails (S (S (S n))) = false ->
      eval (ensure_user (from_user_id m') (chat_id m')) (exec (handle_text m) w)
      = Val (Some (Db.exp_users_seq (store w)))).
Proof.
  intros n Ha H1 Hu H2 w1.
  pose proof (ensure_user_insert_failed (from_user_id m) (chat_id m) w Ha H1 Hu H2) as E.
  fold w1 in E.
  assert (T : handle_text m w = (Val tt, and_sent w1 (reply m msg_access_error))).
  { unfold handle_text. rewrite Ha; cbn [negb].
    rewrite (bind_val _ _ _ _ _ E). reflexivity. }
  split; [exact T|]. split.
  - unfold cmd_start. rewrite Ha; cbn [negb].
    rewrite (bind_val _ _ _ _ _ E). reflexivity.
  - intros Hm H3 H4. unfold exec, eval. rewrite T. cbn [snd]. rewrite Hm.
    rewrite ensure_user_new.
    + reflexivity.
    + exact Ha.
    + cbn [and_sent requests w1 with_store]. rewrite length_app. cbn [length].
      rewrite Nat.add_comm. exact H3.
    + cbn [and_sent requests w1 with_store]. rewrite length_app. cbn [length].
      rewrite Nat.add_comm. exact H4.
    + exact Hu.
Qed.

End Bot.

(** ** Concrete runs *)

(** C1, refuted as stated: the upsert of "Add expense" fails (the third
    request, after the select and the insert of the user), and the only
    message sent is the usual amount prompt, not a failure notice. *)
Lemma C1_counterexample :
  let w' := exec (handle_text ascii_digits allow_42 (only 2) stopped
                    (from_42 (lit "Add expense")))
                 (world_of empty_db) in
  requests w' = [(lit "exp_users.select", false);
                 (lit "exp_users.insert", false);
                 (lit "exp_bot_state.upsert", true)]
  /\ outbox w' = [sent 99 msg_send_amount false]
  /\ msg_send_amount <> msg_save_failed
  /\ msg_send_amount <> msg_access_error
  /\ Db.exp_bot_state (store w') = [].
Proof.
  intros w'; split; [|split; [|split; [|split]]].
  - vm_compute; reflexivity.
  - vm_compute; reflexivity.
  - intros E; vm_compute in E; discriminate E.
  - intros E; vm_compute in E; discriminate E.
  - vm_compute; reflexivity.
Qed.

Lemma C1_witness :
  let m := from_42 (lit "Add expense") in
  let w' := exec (handle_text ascii_digits allow_42 (only 2) stopped m)
                 (world_of empty_db) in
  Db.exp_bot_state (store w') = []
  /\ exists o, outbox w' = [o]
               /\ (body o = msg_save_failed
                   <-> In (lit "exp_expenses.insert", true)
                          [(lit "exp_bot_state.upsert", true)]).
Proof.
  intros m w'.
  pose proof (C1_store_errors_amended ascii_digits allow_42 (only 2) stopped m
                     (world_of empty_db) (exec (ensure_user allow_42 (only 2) 42 99) (world_of empty_db)) 1
                     [(lit "exp_bot_state.upsert", true)]
                ltac:(vm_compute; reflexivity)
                ltac:(discriminate)
                ltac:(vm_compute; reflexivity)
                ltac:(constructor; reflexivity)) as H.
  cbv zeta in H.
  destruct H as (_ & H1 & H2). split; [exact H1 | exact H2].
Defined.

(** C2, refuted as stated: ["0.004"] is accepted and the value returned is
    0.0, which is not greater than zero. *)
Lemma C2_counterexample :
  parse_amount ascii_digits (lit "0.004") = Some Float.zero
  /\ Float.ltb Float.zero Float.zero = false.
Proof. split; vm_compute; reflexivity. Qed.

Lemma C2_witness :
  parse_amount ascii_digits (lit "23,50") = Some f_23_50
  /\ parse_amount ascii_digits (lit "0.004") = Some Float.zero.
Proof.
  destruct (C2_parse_amount_amended ascii_digits)
    as (_ & _ & _ & _ & _ & H1 & _ & _ & _ & H2).
  split; [exact H1 | exact H2].
Defined.

Lemma C3_witness :
  let m := from_42 (lit "Add expense") in
  let w := world_of db_title in
  let w' := exec (handle_text ascii_digits allow_42 never stopped m) w in
  Db.exp_bot_state (store w')
  = [state_row stopped 1 (Some AWAIT_AMOUNT) None 0]
  /\ Db.exp_expenses (store w') = []
  /\ outbox w' = [sent 99 msg_send_amount false].
Proof.
  intros m w w'.
  pose proof (C3_add_expense_takes_precedence ascii_digits allow_42 never stopped m
                     w (exec (ensure_user allow_42 never 42 99) (world_of db_title)) 1
                ltac:(vm_compute; reflexivity)
                ltac:(discriminate)
                ltac:(vm_compute; reflexivity)
                ltac:(reflexivity)) as H.
  cbv zeta in H.
  destruct H as (_ & H1 & _ & _ & _ & H2 & H3 & _).
    split; [etransitivity; [exact H1 | vm_compute; reflexivity]
          | split; [exact H2 | exact H3]].
Defined.

Lemma C4_witness :
  let m := from_42 (lit "  Grocery   Shopping  ") in
  let w := world_of db_title in
  let w' := exec (handle_text ascii_digits allow_42 never stopped m) w in
  Db.exp_expenses (store w')
  = [expense_row stopped 1 f_23_50 (lit "Grocery Shopping") 0]
  /\ Db.exp_bot_state (store w') = []
  /\ outbox w' = [sent 99 (msg_saved f_23_50 (lit "Grocery Shopping")) true].
Proof.
  intros m w w'.
  pose proof (C4_title_step ascii_digits allow_42 never stopped m
                     w (exec (ensure_user allow_42 never 42 99) (world_of db_title)) 1
                     {| State.user_id := 1; State.pending_action := Some AWAIT_TITLE;
                        State.temp_amount := Some f_23_50;
                        State.updated_at := t_2024_01_15 |}
                     f_23_50
                ltac:(vm_compute; reflexivity)
                ltac:(discriminate)
                ltac:(vm_compute; discriminate)
                ltac:(vm_compute; discriminate)
                ltac:(vm_compute; discriminate)
                ltac:(reflexivity)
                ltac:(vm_compute; reflexivity)
                ltac:(reflexivity)
                ltac:(reflexivity)) as H.
  cbv zeta in H.
  destruct H as (_ & _ & _ & H & _).
    destruct H as (_ & H1 & H2 & H3 & _);
      [vm_compute; discriminate | reflexivity | reflexivity |].
    split; [exact H1 | split; [exact H3 | exact H2]].
Defined.

Lemma C5_witness :
  handle_text ascii_digits allow_42 never stopped (from_13 (lit "Add expense"))
    (world_of db_title)
  = (Val tt, and_sent (world_of db_title)
               (reply (from_13 (lit "Add expense")) msg_denied)).
Proof.
  refine (proj1 (C5_denied_without_store_access ascii_digits allow_42 never stopped
                   (from_13 (lit "Add expense")) (world_of db_title) _)).
  vm_compute; reflexivity.
Defined.

Lemma C6_witness :
  let m := from_42 (lit "Coffee") in
  let w := world_of db_title in
  let w' := exec (handle_text ascii_digits allow_42 (only 4) stopped m) w in
  outbox w'
  = [sent 99 (lit "Saved " ++ [9989%N] ++ lit " 23.50 " ++ [8212%N] ++ lit " "
                ++ [34%N] ++ lit "Coffee" ++ [34%N]) true]
  /\ Db.exp_bot_state (store w') = Db.exp_bot_state db_title
  /\ In (lit "exp_bot_state.delete", true) (requests w').
Proof.
  intros m w w'.
  pose proof (C6_cleanup_is_best_effort ascii_digits allow_42 (only 4) stopped m
                     w (exec (ensure_user allow_42 (only 4) 42 99) (world_of db_title)) 1
                     {| State.user_id := 1; State.pending_action := Some AWAIT_TITLE;
                        State.temp_amount := Some f_23_50;
                        State.updated_at := t_2024_01_15 |}
                     f_23_50
                ltac:(vm_compute; reflexivity)
                ltac:(discriminate)
                ltac:(vm_compute; discriminate)
                ltac:(vm_compute; discriminate)
                ltac:(vm_compute; discriminate)
                ltac:(reflexivity)
                ltac:(vm_compute; reflexivity)
                ltac:(reflexivity)
                ltac:(reflexivity)
                ltac:(vm_compute; discriminate)
                ltac:(reflexivity)
                ltac:(reflexivity)) as H.
  cbv zeta in H.
  destruct H as (_ & H1 & _ & _ & H2 & H3 & _).
    split; [etransitivity; [exact H1 | vm_compute; reflexivity] | split; [exact H2|]].
    subst w'; rewrite H3. apply in_or_app; right; simpl; auto.
Defined.

(** C7, refuted as stated: the only expense of the user is stamped five
    days after now; the month-to-date window is empty, and the report
    totals and lists the row. *)
Lemma C7_counterexample :
  let m := from_42 (lit "See expenses") in
  let w' := exec (handle_text ascii_digits allow_42 never stopped m) (world_of db_later) in
  stopped 0 = t_2024_01_15
  /\ Db.exp_expenses db_later = [spent 1 (lit "Later") (at_day 1 20)]
  /\ Time.leb (at_day 1 20) t_2024_01_15 = false
  /\ month_to_date 1 t_2024_01_15 db_later = []
  /\ outbox w'
     = [sent 99 (lit "This month total: 23.50" ++ [10%N; 8226%N] ++ lit " 23.50 "
                   ++ [8212%N] ++ lit " Later (01-20)") true].
Proof.
  intros m w'; repeat split; vm_compute; reflexivity.
Qed.

Lemma C7_witness :
  let m := from_42 (lit "See expenses") in
  let w := world_of db_ledger in
  let w' := exec (handle_text ascii_digits allow_42 never stopped m) w in
  Db.expenses_since 1 (month_start t_2024_01_15) db_ledger
  = [spent 1 (lit "Coffee") (at_day 1 3); spent 1 (lit "Tea") (at_day 1 12)]
  /\ outbox w'
     = [sent 99 (lit "This month total: 47.00" ++ [10%N; 8226%N] ++ lit " 23.50 "
                   ++ [8212%N] ++ lit " Tea (01-12)" ++ [10%N; 8226%N] ++ lit " 23.50 "
                   ++ [8212%N] ++ lit " Coffee (01-03)") true].
Proof.
  intros m w w'.
  pose proof (C7_see_expenses_amended ascii_digits allow_42 never stopped m
                     w (exec (ensure_user allow_42 never 42 99) (world_of db_ledger)) 1
                ltac:(vm_compute; reflexivity)
                ltac:(discriminate)
                ltac:(vm_compute; reflexivity)
                ltac:(reflexivity)
                ltac:(reflexivity)
                ltac:(reflexivity)) as H.
  cbv zeta in H.
  destruct H as (_ & _ & _ & H1 & _).
    split; [vm_compute; reflexivity|].
    etransitivity; [exact H1 | vm_compute; reflexivity].
Defined.

Lemma C8_witness :
  let m := from_42 (lit "See last month") in
  let w := world_of db_ledger in
  let w' := exec (handle_text ascii_digits allow_42 never stopped m) w in
  prev_month_start t_2024_01_15 = (2023, 12, 1)%Z
  /\ outbox w' = [sent 99 (lit "Your expenses for 2023-12: 23.50") true]
  /\ store w' = db_ledger.
Proof.
  intros m w w'.
  pose proof (C8_see_last_month ascii_digits allow_42 never stopped m
                     w (exec (ensure_user allow_42 never 42 99) (world_of db_ledger)) 1
                ltac:(vm_compute; reflexivity)
                ltac:(discriminate)
                ltac:(vm_compute; reflexivity)
                ltac:(reflexivity)
                ltac:(left; reflexivity)) as H.
  cbv zeta in H.
  destruct H as (_ & H1 & _ & _ & _ & _ & H2 & _).
    split; [reflexivity|].
    split; [etransitivity; [exact H1 | vm_compute; reflexivity]|].
    etransitivity; [exact H2 | vm_compute; reflexivity].
Defined.

Lemma C9_witness :
  let w := world_of db_title in
  let once := exec (set_state never stopped 1 (Some AWAIT_AMOUNT) None) w in
  let twice := exec (set_state never stopped 1 (Some AWAIT_AMOUNT) None) once in
  filter (Db.owns 1) (Db.exp_bot_state (store twice))
  = [state_row stopped 1 (Some AWAIT_AMOUNT) None 1]
  /\ length (Db.exp_bot_state (store twice)) = length (Db.exp_bot_state (store once)).
Proof.
  intros w once twice.
  pose proof (C9_set_state_idempotent never stopped 1 (Some AWAIT_AMOUNT) None
                     w
                ltac:(repeat constructor; simpl; tauto)
                ltac:(reflexivity)
                ltac:(reflexivity)) as H.
  cbv zeta in H.
  destruct H as (_ & H1 & H2 & _). split; [exact H1 | exact H2].
Defined.

Lemma C10_witness :
  staged_positive
    (store (run ascii_digits allow_42 never stopped
              [Command (from_42 (lit "/start"));
               Text (from_42 (lit "Add expense"));
               Text (from_42 (lit "0.004"));
               Text (from_42 (lit "23,50"))]
              (world_of empty_db))).
Proof.
  apply (proj1 (C10_staged_amount_positive ascii_digits allow_42 never stopped)).
  constructor.
Defined.

(** The scenario of the spec: "Add expense", then ["23.5"], then
    ["Coffee"], with a store that applies every request. *)
Example end_to_end :
  let w := run ascii_digits allow_42 never stopped
             [Text (from_42 (lit "Add expense"));
              Text (from_42 (lit "23.5"));
              Text (from_42 (lit "Coffee"))]
             (world_of empty_db) in
  Db.exp_expenses (store w) = [spent 1 (lit "Coffee") t_2024_01_15]
  /\ Db.exp_bot_state (store w) = []
  /\ map body (outbox w)
     = [msg_send_amount; msg_amount_ok f_23_50; msg_saved f_23_50 (lit "Coffee")]
  /\ Float.format_2f f_23_50 = lit "23.50".
Proof. vm_compute; repeat split. Qed.

(** ** Concrete runs of the further statements *)

Lemma ensure_user_resolves_known_witness :
  eval (ensure_user allow_42 never 42 55) (world_of db_title) = Val (Some 1%Z)
  /\ Db.exp_users_seq (store (exec (ensure_user allow_42 never 42 55) (world_of db_title)))
     = 2%Z.
Proof.
  pose proof (ensure_user_resolves_known allow_42 never 42 55 (world_of db_title) user_1
                ltac:(vm_compute; reflexivity)
                ltac:(reflexivity)
                ltac:(reflexivity)) as H.
  cbv zeta in H. destruct H as (H1 & _ & H2 & _).
  split; [exact H1 | exact H2].
Defined.

Lemma ensure_user_registers_once_witness :
  let w1 := exec (ensure_user allow_42 never 42 99) (world_of empty_db) in
  eval (ensure_user allow_42 never 42 99) (world_of empty_db) = Val (Some 1%Z)
  /\ Db.exp_users (store w1) = [user_1]
  /\ eval (ensure_user allow_42 never 42 100) w1 = Val (Some 1%Z).
Proof.
  intros w1.
  pose proof (ensure_user_registers_once allow_42 never 42 99 100 (world_of empty_db)
                ltac:(vm_compute; reflexivity)
                ltac:(reflexivity)
                ltac:(reflexivity)
                ltac:(reflexivity)
                ltac:(reflexivity)) as H.
  cbv zeta in H. destruct H as (H1 & H2 & H3 & _).
  split; [exact H1 | split; [exact H2 | exact H3]].
Defined.

Lemma registry_failure_is_access_error_witness :
  let m := from_42 (lit "Add expense") in
  outbox (exec (handle_text ascii_digits allow_42 (only 0) stopped m) (world_of db_title))
  = [reply m msg_access_error].
Proof.
  intros m.
  pose proof (registry_failure_is_access_error ascii_digits allow_42 (only 0) stopped
                m (world_of db_title)
                ltac:(vm_compute; reflexivity)
                ltac:(reflexivity)) as H.
  cbv zeta in H. destruct H as (H1 & _).
  unfold exec. rewrite H1. reflexivity.
Defined.

Lemma user_id_zero_is_access_error_witness :
  let m := from_42 (lit "Add expense") in
  let w' := exec (handle_text ascii_digits allow_42 never stopped m) (world_of db_zero) in
  outbox w' = [reply m msg_access_error]
  /\ Db.exp_bot_state (store w') = [].
Proof.
  intros m w'.
  pose proof (user_id_zero_is_access_error ascii_digits allow_42 never stopped
                m (world_of db_zero)
                {| User.id := 0; User.tg_user_id := 42; User.tg_chat_id := 99 |}
                ltac:(vm_compute; reflexivity)
                ltac:(reflexivity)
                ltac:(reflexivity)
                ltac:(reflexivity)) as H.
  cbv zeta in H. destruct H as (_ & H1 & H2 & _).
  split; [exact H1 | exact H2].
Defined.

Lemma set_state_then_get_state_witness :
  eval (get_state never 1)
       (exec (set_state never stopped 1 (Some AWAIT_AMOUNT) None) (world_of db_title))
  = Val (Some (state_row stopped 1 (Some AWAIT_AMOUNT) None 0)).
Proof.
  pose proof (set_state_then_get_state never stopped 1 (Some AWAIT_AMOUNT) None
                (world_of db_title)
                ltac:(constructor; [intros [] | constructor])
                ltac:(reflexivity)
                ltac:(reflexivity)) as H.
  cbv zeta in H. destruct H as (H1 & _).
  exact H1.
Defined.

Lemma clear_state_then_get_state_witness :
  eval (get_state never 1) (exec (clear_state never 1) (world_of db_title)) = Val None
  /\ Db.exp_bot_state (store (exec (clear_state never 1) (world_of db_title))) = [].
Proof.
  pose proof (clear_state_then_get_state never stopped 1 (Some AWAIT_AMOUNT) None
                (world_of db_title)
                ltac:(reflexivity)
                ltac:(reflexivity)) as H.
  cbv zeta in H. destruct H as (H1 & H2 & _).
  split; [exact H1 | exact H2].
Defined.

Lemma amount_step_witness :
  let m := from_42 (lit "23,50") in
  let w' := exec (handle_text ascii_digits allow_42 never stopped m) (world_of db_amount) in
  outbox w' = [sent 99 (msg_amount_ok f_23_50) false]
  /\ filter (Db.owns 1) (Db.exp_bot_state (store w'))
     = [state_row stopped 1 (Some AWAIT_TITLE) (Some f_23_50) 0].
Proof.
  intros m w'.
  pose proof (amount_step ascii_digits allow_42 never stopped m
                (world_of db_amount)
                (exec (ensure_user allow_42 never 42 99) (world_of db_amount)) 1
                {| State.user_id := 1; State.pending_action := Some AWAIT_AMOUNT;
                   State.temp_amount := None; State.updated_at := t_2024_01_15 |}
                f_23_50
                ltac:(vm_compute; reflexivity)
                ltac:(discriminate)
                ltac:(vm_compute; discriminate)
                ltac:(vm_compute; discriminate)
                ltac:(vm_compute; discriminate)
                ltac:(reflexivity)
                ltac:(vm_compute; reflexivity)
                ltac:(reflexivity)
                ltac:(vm_compute; reflexivity)
                ltac:(reflexivity)) as H.
  cbv zeta in H. destruct H as (_ & _ & H1 & _ & H2 & _).
  split; [exact H1 | apply H2; reflexivity].
Defined.

Lemma invalid_amount_keeps_waiting_witness :
  let m := from_42 (lit "abc") in
  let w' := exec (handle_text ascii_digits allow_42 never stopped m) (world_of db_amount) in
  outbox w' = [sent 99 msg_invalid_amount false]
  /\ Db.exp_bot_state (store w') = Db.exp_bot_state db_amount.
Proof.
  intros m w'.
  pose proof (invalid_amount_keeps_waiting ascii_digits allow_42 never stopped m
                (world_of db_amount)
                (exec (ensure_user allow_42 never 42 99) (world_of db_amount)) 1
                {| State.user_id := 1; State.pending_action := Some AWAIT_AMOUNT;
                   State.temp_amount := None; State.updated_at := t_2024_01_15 |}
                ltac:(vm_compute; reflexivity)
                ltac:(discriminate)
                ltac:(vm_compute; discriminate)
                ltac:(vm_compute; discriminate)
                ltac:(vm_compute; discriminate)
                ltac:(reflexivity)
                ltac:(vm_compute; reflexivity)
                ltac:(reflexivity)
                ltac:(left; vm_compute; reflexivity)) as H.
  cbv zeta in H. destruct H as (_ & H1 & H2 & _).
  split; [exact H1|].
  etransitivity; [exact (f_equal Db.exp_bot_state H2) | reflexivity].
Defined.

Lemma free_text_without_state_witness :
  let m := from_42 (lit "hello") in
  let w' := exec (handle_text ascii_digits allow_42 never stopped m) (world_of db_ledger) in
  outbox w' = [sent 99 msg_fallback true].
Proof.
  intros m w'.
  pose proof (free_text_without_state ascii_digits allow_42 never stopped m
                (world_of db_ledger)
                (exec (ensure_user allow_42 never 42 99) (world_of db_ledger)) 1
                None
                ltac:(vm_compute; reflexivity)
                ltac:(discriminate)
                ltac:(vm_compute; discriminate)
                ltac:(vm_compute; discriminate)
                ltac:(vm_compute; discriminate)
                ltac:(vm_compute; reflexivity)
                I) as H.
  cbv zeta in H. destruct H as (_ & H1 & _).
  exact H1.
Defined.

Lemma run_keeps_one_row_per_user_witness :
  one_row_per_user
    (Db.exp_bot_state
       (store (run ascii_digits allow_42 never stopped
                 [Text (from_42 (lit "Add expense")); Text (from_42 (lit "23,50"))]
                 (world_of db_title)))).
Proof.
  apply (run_keeps_one_row_per_user ascii_digits allow_42 never stopped).
  constructor; [intros [] | constructor].
Defined.

Lemma run_saves_good_expenses_witness :
  Forall good_expense
    (Db.exp_expenses
       (store (run ascii_digits allow_42 never stopped
                 [Text (from_42 (lit "Add expense")); Text (from_42 (lit "23,50"));
                  Text (from_42 (lit "Coffee"))]
                 (world_of empty_db)))).
Proof.
  apply (run_saves_good_expenses ascii_digits allow_42 never stopped); constructor.
Defined.

Lemma other_users_untouched_witness :
  let m := from_42 (lit "Add expense") in
  let w' := exec (handle_text ascii_digits allow_42 never stopped m) (world_of db_ledger) in
  expenses_of 2 (store w') = expenses_of 2 db_ledger.
Proof.
  intros m w'.
  pose proof (other_users_untouched ascii_digits allow_42 never stopped m
                (world_of db_ledger)
                (exec (ensure_user allow_42 never 42 99) (world_of db_ledger)) 1 2
                ltac:(vm_compute; reflexivity)
                ltac:(discriminate)
                ltac:(discriminate)) as H.
  cbv zeta in H. destruct H as (_ & H1 & _).
  exact H1.
Defined.

Lemma allow_list_of_env_witness :
  Forall (fun e => e <> [] /\ Str.strip e = e /\ ~ In 44%N e)
         (allowed_of_env (lit " 42, 43 ,,")).
Proof.
  exact (proj1 (allow_list_of_env (allowed_of_env (lit " 42, 43 ,,")) (lit " 42, 43 ,,")
                  eq_refl)).
Defined.

Lemma allow_list_round_trip_witness :
  is_allowed (allowed_of_env (Str.join [44%N] [lit "42"; lit " 43 "])) 43 = true
  <-> In 43%Z [42%Z; 43%Z].
Proof.
  apply (allow_list_round_trip _ [lit "42"; lit " 43 "] [42%Z; 43%Z] 43).
  - repeat constructor; intros H; vm_compute in H; intuition discriminate.
  - vm_compute; reflexivity.
  - reflexivity.
Defined.

Lemma see_expenses_whatever_fails_witness :
  let m := from_42 (lit "See expenses") in
  let w' := exec (handle_text ascii_digits allow_42 (only 2) stopped m) (world_of db_ledger) in
  let rows := Db.expenses_since 1 (month_start t_2024_01_15) db_ledger in
  outbox w' = [sent 99 (report_text (Float.sum (map Expense.amount rows)) []) true].
Proof.
  intros m w' rows.
  pose proof (see_expenses_whatever_fails ascii_digits allow_42 (only 2) stopped m
                (world_of db_ledger)
                (exec (ensure_user allow_42 (only 2) 42 99) (world_of db_ledger)) 1
                ltac:(vm_compute; reflexivity)
                ltac:(discriminate)
                ltac:(vm_compute; reflexivity)
                ltac:(reflexivity)) as H.
  cbv zeta in H. destruct H as (_ & _ & H1 & _).
  exact H1.
Defined.

Lemma conversation_saves_expense_witness :
  let w' := run ascii_digits allow_42 never stopped
              [Text (from_42 (lit "Add expense")); Text (from_42 (lit " 23,50 "));
               Text (from_42 (lit "Coffee   beans"))]
              (world_of db_ledger) in
  Db.exp_expenses (store w')
  = Db.exp_expenses db_ledger ++ [expense_row stopped 1 f_23_50 (lit "Coffee beans") 2]
  /\ Db.exp_bot_state (store w') = [].
Proof.
  intros w'.
  pose proof (conversation_saves_expense ascii_digits allow_42 never stopped 42 99
                (from_42 (lit "Add expense")) (from_42 (lit " 23,50 "))
                (from_42 (lit "Coffee   beans"))
                (world_of db_ledger) user_1 f_23_50
                ltac:(repeat constructor)
                ltac:(vm_compute; reflexivity)
                ltac:(reflexivity)
                ltac:(reflexivity)
                ltac:(discriminate)
                ltac:(constructor)
                ltac:(vm_compute; reflexivity)
                ltac:(vm_compute; reflexivity)
                ltac:(reflexivity)
                ltac:(vm_compute; discriminate)
                ltac:(vm_compute; discriminate)
                ltac:(vm_compute; discriminate)
                ltac:(vm_compute; discriminate)) as H.
  cbv zeta in H. destruct H as (H1 & H2 & _).
  split; [exact H1 | exact H2].
Defined.

Lemma strangers_change_nothing_witness :
  let us := [Command (from_13 (lit "/start")); Text (from_13 (lit "Add expense"))] in
  let w' := run ascii_digits allow_42 never stopped us (world_of db_title) in
  store w' = db_title
  /\ outbox w' = [reply (from_13 (lit "/start")) msg_denied;
                  reply (from_13 (lit "Add expense")) msg_denied].
Proof.
  intros us w'.
  pose proof (strangers_change_nothing ascii_digits allow_42 never stopped us
                (world_of db_title)
                ltac:(repeat constructor)) as H.
  cbv zeta in H. destruct H as (H1 & _ & _ & H2).
  split; [exact H1 | exact H2].
Defined.

Lemma parse_amount_two_separators_witness :
  parse_amount ascii_digits (lit "1,234.56") = None.
Proof.
  apply (parse_amount_two_separators ascii_digits (lit "1,234.56")).
  vm_compute. constructor.
Defined.

Lemma registration_failure_is_access_error_witness :
  let m := from_42 (lit "Add expense") in
  let w' := exec (handle_text ascii_digits allow_42 (only 1) stopped m) (world_of empty_db) in
  outbox w' = [reply m msg_access_error]
  /\ store w' = empty_db
  /\ eval (ensure_user allow_42 (only 1) 42 99) w' = Val (Some 1%Z).
Proof.
  intros m w'.
  pose proof (registration_failure_is_access_error ascii_digits allow_42 (only 1) stopped
                m m (world_of empty_db)
                ltac:(vm_compute; reflexivity)
                ltac:(reflexivity)
                ltac:(reflexivity)
                ltac:(reflexivity)) as H.
  cbv zeta in H. destruct H as (H1 & _ & H2).
  assert (E : w' = and_sent
                     (with_store (world_of empty_db) empty_db
                        [(lit "exp_users.select", false); (lit "exp_users.insert", true)])
                     (reply m msg_access_error)).
  { subst w'; unfold exec; rewrite H1; reflexivity. }
  split; [rewrite E; reflexivity|]. split; [rewrite E; reflexivity|].
  exact (H2 eq_refl eq_refl eq_refl).
Defined.

Lemma every_text_is_answered_witness :
  let m := from_42 (lit "Coffee") in
  let w' := exec (handle_text ascii_digits allow_42 never stopped m) (world_of db_title) in
  staged db_title
  /\ exists o, outbox w' = [o] /\ to_chat o = 99%Z.
Proof.
  intros m w'.
  assert (Hs : staged (store (world_of db_title))).
  { repeat constructor. discriminate. }
  split; [exact Hs|].
  destruct (every_text_is_answered ascii_digits allow_42 never stopped m
              (world_of db_title) Hs) as [(_ & H)|(H & _)].
  - exact H.
  - vm_compute in H. discriminate H.
Defined.
